(** * Sigma protocols over a hidden-order group: representation,
      multiplication and positive-number proofs

    A shallow embedding of the Go packages [schnorr] (dlog_knowledge.go) and
    [df] (multiplication_commitment.go, positive_commitment.go), and the
    properties of their provers and verifiers.

    Conventions of the embedding.
    - A [*big.Int] is a nil-able pointer to an immutable integer: [bigInt],
      that is [option Z], with [None] for [nil].  A slice [[]*big.Int] is a
      [list bigInt]; [make([]*big.Int, n)] is [replicate n None].
    - A Go call either returns or panics: the monad [go].  The run-time
      panics of these packages are the slice index out of range, the nil
      pointer that reaches big-integer arithmetic or a method, [rand.Int] on
      a bound that is not positive, and [make] with a negative length.
    - A Go [int] is a [Z]: the lengths and bit sizes of these packages stay
      far from the machine bounds.
    - A [(T, error)] result is a [res T]; an [error] alone is an
      [option string] ([None] for the nil error).
    - The packages [groups] and [common], the commitment scheme and the
      square sub-proof are not part of the sources: they are interfaces
      (type classes) here, and every property is proved for all instances.
      Concrete instances are given at the end of the definitions; they are
      used to run the embedding on concrete inputs. *)

From Stdlib Require Import ZArith List Lia String.
From stdpp Require Import base tactics option list.

Local Open Scope Z_scope.

(** ** Go values and control *)

(** [*big.Int]: [None] is the nil pointer. *)
Abbreviation bigInt := (option Z).

(** A store of big integers that are updated in place; a pointer into it is
    an index. *)
Abbreviation heap := (list Z).

(** The run-time panics the embedded code can raise. *)
Inductive panic : Type :=
| IndexOutOfRange   (* slice index out of range *)
| NilDereference    (* a nil *big.Int reached big-integer arithmetic *)
| RandArgument      (* crypto/rand: argument to Int is <= 0 *)
| MakeSliceLen.     (* makeslice: len out of range *)

(** A Go computation: it returns a value or panics. *)
Inductive go (A : Type) : Type :=
| Ret (a : A)
| Panic (p : panic).
Arguments Ret {A} a.
Arguments Panic {A} p.

#[export] Instance go_ret : MRet go := fun A a => Ret a.
#[export] Instance go_bind : MBind go := fun A B f m =>
  match m with
  | Ret a => f a
  | Panic p => Panic p
  end.

(** A [(T, error)] result: the value, or the message of the non-nil error. *)
Inductive res (A : Type) : Type :=
| Val (a : A)
| Err (msg : string).
Arguments Val {A} a.
Arguments Err {A} msg.

(** [xs[i]]: panics out of range. *)
Definition index {A : Type} (xs : list A) (i : nat) : go A :=
  match xs !! i with
  | Some x => Ret x
  | None => Panic IndexOutOfRange
  end.

(** [xs[i] = x] on a slice: panics out of range. *)
Definition assign {A : Type} (xs : list A) (i : nat) (x : A) : go (list A) :=
  if decide (i < length xs)%nat then Ret (<[i := x]> xs) else Panic IndexOutOfRange.

(** Reading what a pointer points to, as math/big does with every operand
    and a method does with its receiver: a nil pointer panics. *)
Definition deref {A : Type} (p : option A) : go A :=
  match p with
  | Some z => Ret z
  | None => Panic NilDereference
  end.

(** [for _, i := range idx { s = body(i, s) }], stopping at the first panic. *)
Fixpoint for_range {S : Type} (idx : list nat) (body : nat -> S -> go S) (s : S) : go S :=
  match idx with
  | [] => Ret s
  | i :: rest => s' ← body i s; for_range rest body s'
  end.

(** A loop whose body may leave the function with [return nil, err]. *)
Fixpoint for_range_res {S : Type} (idx : list nat) (body : nat -> S -> go (res S)) (s : S)
    : go (res S) :=
  match idx with
  | [] => Ret (Val s)
  | i :: rest =>
      r ← body i s;
      match r with
      | Val s' => for_range_res rest body s'
      | Err msg => Ret (Err msg)
      end
  end.

(** [x.Cmp(y)] of math/big: -1, 0 or 1. *)
Definition Cmp (x y : Z) : Z :=
  match x ?= y with
  | Lt => -1
  | Eq => 0
  | Gt => 1
  end.

(** ** The external interfaces *)

(** Package [common]: the random sampler.  [R] is the state of the randomness
    source, threaded through every draw. *)
Class Sampler (R : Type) := {
  GetRandomInt : Z -> R -> go (Z * R)
}.

(** Modelled from the spec: the secure random sampler,
    [GetRandomInt(bound)] gives a uniform integer in [[0, bound)].  A draw
    that returns lies in the interval, and a draw from a non-empty interval
    returns.  (Uniformity is not modelled.) *)
Class SamplerSpec (R : Type) `{Sampler R} : Prop := {
  GetRandomInt_range : forall max s z s',
    GetRandomInt max s = Ret (z, s') -> 0 <= z < max;
  GetRandomInt_returns : forall max s,
    0 < max -> exists z s', GetRandomInt max s = Ret (z, s')
}.

(** Package [schnorr], type [Group] (not part of the sources): the group
    operations [Group.Mul], [Group.Exp] and the exponent addition
    [Group.Add], and the order [Q]. *)
Class SchnorrGroup (Grp : Type) := {
  Group_Q : Grp -> Z;
  Group_Add : Grp -> Z -> Z -> Z;
  Group_Mul : Grp -> Z -> Z -> Z;
  Group_Exp : Grp -> Z -> Z -> Z
}.

(** Package [groups], type [QRSpecialRSA] (not part of the sources): the
    hidden-order group with its [Mul], [Exp] and [Inv], the bit length of the
    modulus [N] and the primes behind it ([GetPrimes]). *)
Class QRSpecialRSA (QR Primes : Type) := {
  QR_NBitLen : QR -> Z;
  QR_GetPrimes : QR -> Primes;
  QR_Mul : QR -> Z -> Z -> Z;
  QR_Exp : QR -> Z -> Z -> Z;
  QR_Inv : QR -> Z -> Z
}.

(** Modelled from the spec: the hidden-order group is a commutative group
    with [Mul] its operation, [Exp] the power by an integer exponent (taken
    here at the nonnegative ones) and [Inv] the inverse, and every element is
    invertible.  [elem] tells the elements of the group [g]. *)
Class QRGroupLaws {QR Primes : Type} `{QRSpecialRSA QR Primes}
    (g : QR) (elem : Z -> Prop) : Prop := {
  QR_elem_1 : elem 1;
  QR_Mul_elem : forall a b, elem a -> elem b -> elem (QR_Mul g a b);
  QR_Exp_elem : forall a x, elem a -> 0 <= x -> elem (QR_Exp g a x);
  QR_Mul_1_l : forall a, elem a -> QR_Mul g 1 a = a;
  QR_Mul_comm : forall a b, elem a -> elem b -> QR_Mul g a b = QR_Mul g b a;
  QR_Mul_assoc : forall a b c, elem a -> elem b -> elem c ->
    QR_Mul g (QR_Mul g a b) c = QR_Mul g a (QR_Mul g b c);
  QR_Exp_0 : forall a, elem a -> QR_Exp g a 0 = 1;
  QR_Exp_add : forall a x y, elem a -> 0 <= x -> 0 <= y ->
    QR_Exp g a (x + y) = QR_Mul g (QR_Exp g a x) (QR_Exp g a y);
  QR_Exp_mul : forall a x y, elem a -> 0 <= x -> 0 <= y ->
    QR_Exp g (QR_Exp g a x) y = QR_Exp g a (x * y);
  QR_Exp_Mul : forall a b x, elem a -> elem b -> 0 <= x ->
    QR_Exp g (QR_Mul g a b) x = QR_Mul g (QR_Exp g a x) (QR_Exp g b x);
  QR_Inv_elem : forall a, elem a -> elem (QR_Inv g a);
  QR_Mul_Inv : forall a, elem a -> QR_Mul g a (QR_Inv g a) = 1
}.

(** ** Package schnorr: dlog_knowledge.go *)

Module schnorr.
Section schnorr.
Context {Grp R : Type} {schnorrGroup : SchnorrGroup Grp} {sampler : Sampler R}.

Record Prover := mkProver {
  p_Group : Grp;
  p_secrets : list bigInt;
  p_bases : list bigInt;
  p_randomVals : list bigInt;
  p_y : bigInt
}.

Definition NewProver (group : Grp) (secrets bases : list bigInt) (y : bigInt) : res Prover :=
  if decide (length secrets ≠ length bases) then
    Err "number of secrets and representation bases shoud be the same"
  else
    Val {| p_Group := group; p_secrets := secrets; p_bases := bases;
           p_randomVals := []; p_y := y |}.

(** One iteration of the loop of [GetProofRandomData]; the loop state is
    [(t, randomVals, source)]. *)
Definition GetProofRandomData_body (p : Prover) (i : nat)
    (st : Z * list bigInt * R) : go (Z * list bigInt * R) :=
  let '(t, randomVals, s) := st in
  '(r, s) ← GetRandomInt (Group_Q (p_Group p)) s;
  randomVals ← assign randomVals i (Some r);
  b ← index (p_bases p) i;
  b ← deref b;
  let f := Group_Exp (p_Group p) b r in
  mret (Group_Mul (p_Group p) t f, randomVals, s).

Definition GetProofRandomData (p : Prover) (s : R) : go (bigInt * Prover * R) :=
  let n := length (p_bases p) in
  '(t, randomVals, s) ← for_range (seq 0 n) (GetProofRandomData_body p)
                          (1, replicate n None, s);
  mret (Some t,
        {| p_Group := p_Group p; p_secrets := p_secrets p; p_bases := p_bases p;
           p_randomVals := randomVals; p_y := p_y p |},
        s).

Definition GetProofData_body (p : Prover) (challenge : bigInt) (i : nat)
    (proofData : list bigInt) : go (list bigInt) :=
  x ← index (p_secrets p) i;
  c ← deref challenge;
  x ← deref x;
  let z_i := Group_Mul (p_Group p) c x in
  r ← index (p_randomVals p) i;
  r ← deref r;
  let z_i := Group_Add (p_Group p) z_i r in
  assign proofData i (Some z_i).

Definition GetProofData (p : Prover) (challenge : bigInt) : go (list bigInt) :=
  let n := length (p_bases p) in
  for_range (seq 0 n) (GetProofData_body p challenge) (replicate n None).

Record Verifier := mkVerifier {
  v_Group : Grp;
  v_bases : list bigInt;
  v_proofRandomData : bigInt;
  v_y : bigInt;
  v_challenge : bigInt
}.

Definition NewVerifier (group : Grp) : Verifier :=
  {| v_Group := group; v_bases := []; v_proofRandomData := None;
     v_y := None; v_challenge := None |}.

Definition SetProofRandomData (v : Verifier) (proofRandomData : bigInt)
    (bases : list bigInt) (y : bigInt) : Verifier :=
  {| v_Group := v_Group v; v_bases := bases; v_proofRandomData := proofRandomData;
     v_y := y; v_challenge := v_challenge v |}.

Definition GetChallenge (v : Verifier) (s : R) : go (bigInt * Verifier * R) :=
  '(challenge, s) ← GetRandomInt (Group_Q (v_Group v)) s;
  mret (Some challenge,
        {| v_Group := v_Group v; v_bases := v_bases v;
           v_proofRandomData := v_proofRandomData v; v_y := v_y v;
           v_challenge := Some challenge |},
        s).

Definition SetChallenge (v : Verifier) (challenge : bigInt) : Verifier :=
  {| v_Group := v_Group v; v_bases := v_bases v;
     v_proofRandomData := v_proofRandomData v; v_y := v_y v;
     v_challenge := challenge |}.

Definition Verify_body (v : Verifier) (proofData : list bigInt) (i : nat)
    (left : Z) : go Z :=
  b ← index (v_bases v) i;
  z ← index proofData i;
  b ← deref b;
  z ← deref z;
  let t := Group_Exp (v_Group v) b z in
  mret (Group_Mul (v_Group v) left t).

Definition Verify (v : Verifier) (proofData : list bigInt) : go bool :=
  left ← for_range (seq 0 (length (v_bases v))) (Verify_body v proofData) 1;
  y ← deref (v_y v);
  c ← deref (v_challenge v);
  let right := Group_Exp (v_Group v) y c in
  t ← deref (v_proofRandomData v);
  let right := Group_Mul (v_Group v) right t in
  mret (Cmp left right =? 0).

(** The product [g_1^z_1 * ... * g_k^z_k] as the loop of [Verify] builds it:
    from 1, multiplying on the right. *)
Definition prodExp (g : Grp) (bases zs : list Z) : Z :=
  fold_left (fun acc bz => Group_Mul g acc (Group_Exp g bz.1 bz.2)) (zip bases zs) 1.

End schnorr.
End schnorr.

(** ** Package df: the commitment scheme (not part of the sources) *)

Module df.
Section df.
Context {QR Primes R : Type} {qr : QRSpecialRSA QR Primes} {sampler : Sampler R}.

(** Modelled from the spec: a Committer is built from (N,G,H,T,K) and holds
    the witness (value, randomness); the fields are those the sources read
    ([QRSpecialRSA], [G], [H], [T], [K], [B]) and the witness that
    [GetDecommitMsg] returns. *)
Record Committer := mkCommitter {
  c_QRSpecialRSA : QR;
  c_G : Z;
  c_H : Z;
  c_T : Z;
  c_K : Z;
  c_B : Z;
  c_committedValue : bigInt;
  c_r : bigInt
}.

(** Modelled from the spec: a Receiver holds only the public value and the
    parameters; [Commitment] is nil until [SetCommitment]. *)
Record Receiver := mkReceiver {
  r_QRSpecialRSA : QR;
  r_G : Z;
  r_H : Z;
  r_K : Z;
  r_Commitment : bigInt
}.

(** Modelled from the spec: [GetDecommitMsg()] gives (value, randomness). *)
Definition GetDecommitMsg (c : Committer) : bigInt * bigInt :=
  (c_committedValue c, c_r c).

(** Modelled from the spec: [ComputeCommit(value, randomness)] is the
    Pedersen-style commitment [G^value * H^randomness] in the group. *)
Definition ComputeCommit (g : QR) (G H : Z) (a r : bigInt) : go Z :=
  a ← deref a;
  r ← deref r;
  mret (QR_Mul g (QR_Exp g G a) (QR_Exp g H r)).

Definition Committer_ComputeCommit (c : Committer) (a r : bigInt) : go Z :=
  ComputeCommit (c_QRSpecialRSA c) (c_G c) (c_H c) a r.

Definition Receiver_ComputeCommit (rc : Receiver) (a r : bigInt) : go Z :=
  ComputeCommit (r_QRSpecialRSA rc) (r_G rc) (r_H rc) a r.

(** Modelled from the spec: [SetCommitment] stores the public value. *)
Definition SetCommitment (rc : Receiver) (c : bigInt) : Receiver :=
  {| r_QRSpecialRSA := r_QRSpecialRSA rc; r_G := r_G rc; r_H := r_H rc;
     r_K := r_K rc; r_Commitment := c |}.

(** [new(big.Int).Exp(big.NewInt(2), big.NewInt(e), nil)]: math/big gives 1
    for an exponent [<= 0] when there is no modulus. *)
Definition exp2 (e : Z) : Z := if e <=? 0 then 1 else 2 ^ e.

(** ** Package df: multiplication_commitment.go *)

Record MultiplicationProver := mkMultiplicationProver {
  mp_committer1 : Committer;
  mp_committer2 : Committer;
  mp_committer3 : Committer;
  mp_challengeSpaceSize : Z;
  mp_y1 : bigInt;
  mp_s1 : bigInt;
  mp_y : bigInt;
  mp_s2 : bigInt;
  mp_s3 : bigInt
}.

Definition NewMultiplicationProver (committer1 committer2 committer3 : Committer)
    (challengeSpaceSize : Z) : MultiplicationProver :=
  {| mp_committer1 := committer1; mp_committer2 := committer2;
     mp_committer3 := committer3; mp_challengeSpaceSize := challengeSpaceSize;
     mp_y1 := None; mp_s1 := None; mp_y := None; mp_s2 := None; mp_s3 := None |}.

Definition MultiplicationProver_GetProofRandomData (p : MultiplicationProver) (s : R)
    : go (bigInt * bigInt * bigInt * MultiplicationProver * R) :=
  let c1r := mp_committer1 p in
  let g := c_QRSpecialRSA c1r in
  let nLen := QR_NBitLen g in
  let b1 := exp2 (nLen + mp_challengeSpaceSize p) in
  let b1 := b1 * c_T c1r in
  let b2 := exp2 (c_B c1r + 2 * nLen + mp_challengeSpaceSize p) in
  '(y1, s) ← GetRandomInt b1 s;
  '(y, s) ← GetRandomInt b1 s;
  '(s1, s) ← GetRandomInt b2 s;
  '(s2, s) ← GetRandomInt b2 s;
  '(s3, s) ← GetRandomInt b2 s;
  d1 ← Committer_ComputeCommit c1r (Some y1) (Some s1);
  d2 ← Committer_ComputeCommit c1r (Some y) (Some s2);
  let '(a1, r1) := GetDecommitMsg c1r in
  c1 ← Committer_ComputeCommit c1r a1 r1;
  let l := QR_Exp g c1 y in
  let r := QR_Exp g (c_H c1r) s3 in
  let d3 := QR_Mul g l r in
  mret (Some d1, Some d2, Some d3,
        {| mp_committer1 := mp_committer1 p; mp_committer2 := mp_committer2 p;
           mp_committer3 := mp_committer3 p;
           mp_challengeSpaceSize := mp_challengeSpaceSize p;
           mp_y1 := Some y1; mp_s1 := Some s1; mp_y := Some y;
           mp_s2 := Some s2; mp_s3 := Some s3 |},
        s).

(** [z := new(big.Int).Mul(a, b); z.Add(z, c)] over the integers. *)
Definition mulAdd (a b c : bigInt) : go Z :=
  a ← deref a;
  b ← deref b;
  let z := a * b in
  c ← deref c;
  mret (z + c).

Definition MultiplicationProver_GetProofData (p : MultiplicationProver) (challenge : bigInt)
    : go (bigInt * bigInt * bigInt * bigInt * bigInt) :=
  let '(a1, r1) := GetDecommitMsg (mp_committer1 p) in
  let '(a2, r2) := GetDecommitMsg (mp_committer2 p) in
  let '(_, r3) := GetDecommitMsg (mp_committer3 p) in
  u1 ← mulAdd challenge a1 (mp_y1 p);
  u ← mulAdd challenge a2 (mp_y p);
  v1 ← mulAdd challenge r1 (mp_s1 p);
  v2 ← mulAdd challenge r2 (mp_s2 p);
  a2 ← deref a2;
  r1 ← deref r1;
  let r := a2 * r1 in
  r3 ← deref r3;
  let r := r3 - r in
  v3 ← mulAdd challenge (Some r) (mp_s3 p);
  mret (Some u1, Some u, Some v1, Some v2, Some v3).

Record MultiplicationVerifier := mkMultiplicationVerifier {
  mv_receiver1 : Receiver;
  mv_receiver2 : Receiver;
  mv_receiver3 : Receiver;
  mv_challengeSpaceSize : Z;
  mv_challenge : bigInt;
  mv_d1 : bigInt;
  mv_d2 : bigInt;
  mv_d3 : bigInt
}.

Definition NewMultiplicationVerifier (receiver1 receiver2 receiver3 : Receiver)
    (challengeSpaceSize : Z) : MultiplicationVerifier :=
  {| mv_receiver1 := receiver1; mv_receiver2 := receiver2; mv_receiver3 := receiver3;
     mv_challengeSpaceSize := challengeSpaceSize;
     mv_challenge := None; mv_d1 := None; mv_d2 := None; mv_d3 := None |}.

Definition MultiplicationVerifier_SetProofRandomData (v : MultiplicationVerifier)
    (d1 d2 d3 : bigInt) : MultiplicationVerifier :=
  {| mv_receiver1 := mv_receiver1 v; mv_receiver2 := mv_receiver2 v;
     mv_receiver3 := mv_receiver3 v;
     mv_challengeSpaceSize := mv_challengeSpaceSize v;
     mv_challenge := mv_challenge v; mv_d1 := d1; mv_d2 := d2; mv_d3 := d3 |}.

Definition MultiplicationVerifier_SetChallenge (v : MultiplicationVerifier)
    (challenge : bigInt) : MultiplicationVerifier :=
  {| mv_receiver1 := mv_receiver1 v; mv_receiver2 := mv_receiver2 v;
     mv_receiver3 := mv_receiver3 v;
     mv_challengeSpaceSize := mv_challengeSpaceSize v;
     mv_challenge := challenge; mv_d1 := mv_d1 v; mv_d2 := mv_d2 v; mv_d3 := mv_d3 v |}.

Definition MultiplicationVerifier_GetChallenge (v : MultiplicationVerifier) (s : R)
    : go (bigInt * MultiplicationVerifier * R) :=
  let b := exp2 (mv_challengeSpaceSize v) in
  '(challenge, s) ← GetRandomInt b s;
  mret (Some challenge, MultiplicationVerifier_SetChallenge v (Some challenge), s).

(** [d * c^challenge] in the group [g], the right-hand side of each check. *)
Definition rhs (g : QR) (c challenge d : bigInt) : go Z :=
  c ← deref c;
  challenge ← deref challenge;
  let right := QR_Exp g c challenge in
  d ← deref d;
  mret (QR_Mul g d right).

Definition MultiplicationVerifier_Verify (v : MultiplicationVerifier)
    (u1 u v1 v2 v3 : bigInt) : go bool :=
  let g1 := r_QRSpecialRSA (mv_receiver1 v) in
  let g3 := r_QRSpecialRSA (mv_receiver3 v) in
  left1 ← Receiver_ComputeCommit (mv_receiver1 v) u1 v1;
  right1 ← rhs g1 (r_Commitment (mv_receiver1 v)) (mv_challenge v) (mv_d1 v);
  left2 ← Receiver_ComputeCommit (mv_receiver1 v) u v2;
  right2 ← rhs g1 (r_Commitment (mv_receiver2 v)) (mv_challenge v) (mv_d2 v);
  c1 ← deref (r_Commitment (mv_receiver1 v));
  u ← deref u;
  let tmp1 := QR_Exp g3 c1 u in
  v3 ← deref v3;
  let v3Abs := Z.abs v3 in
  let tmp2 :=
    if Cmp v3Abs v3 =? 0 then QR_Exp g3 (r_H (mv_receiver3 v)) v3
    else QR_Inv g3 (QR_Exp g3 (r_H (mv_receiver3 v)) v3Abs) in
  let left3 := QR_Mul g3 tmp1 tmp2 in
  right3 ← rhs g1 (r_Commitment (mv_receiver3 v)) (mv_challenge v) (mv_d3 v);
  mret ((Cmp left1 right1 =? 0) && (Cmp left2 right2 =? 0) && (Cmp left3 right3 =? 0)).

(** The exponentiation with a sign that the third equation of the
    multiplication proof states: for a negative [v3], [h] to the absolute
    value of [v3], inverted in the group. *)
Definition signedExp (g : QR) (h v3 : Z) : Z :=
  if v3 <? 0 then QR_Inv g (QR_Exp g h (Z.abs v3)) else QR_Exp g h v3.

(** ** Package df: positive_commitment.go *)

(** The square sub-proof and the constructors of the commitment scheme that
    the positive-number proof calls (not part of the sources).  A sub-prover
    [SP] and a sub-verifier [SV] are opaque states; an operation that computes
    may panic, a setter only stores. *)
Class SquareProof (SP SV : Type) := {
  NewReceiverFromParams : Primes -> Z -> Z -> Z -> res Receiver;
  NewSquareVerifier : Receiver -> bigInt -> Z -> res SV;
  SquareProver_GetProofRandomData : SP -> R -> go (bigInt * bigInt * SP * R);
  SquareProver_GetProofData : SP -> bigInt -> go (bigInt * bigInt * bigInt);
  SquareVerifier_GetChallenge : SV -> R -> go (bigInt * SV * R);
  SquareVerifier_SetChallenge : SV -> bigInt -> SV;
  SquareVerifier_SetProofRandomData : SV -> bigInt -> bigInt -> SV;
  SquareVerifier_Verify : SV -> bigInt -> bigInt -> bigInt -> go bool
}.

Context {SP SV : Type} {square : SquareProof SP SV}.

Record PositiveProver := mkPositiveProver {
  pp_squareProvers : list (option SP);
  pp_smallCommitments : list bigInt;
  pp_bigCommitments : list bigInt
}.

(** *** getCommitRandoms

    The function updates big integers in place ([boundary.Sub], [elem.Neg])
    and stores the pointer [boundary] itself in the slice it returns, so the
    integers it allocates live in a store ([heap]): a pointer is an index
    into it. *)

(** [new(big.Int)] holding [z]: a fresh cell. *)
Definition new (h : heap) (z : Z) : nat * heap := (length h, h ++ [z]).

Definition load (h : heap) (p : nat) : go Z :=
  match h !! p with
  | Some z => Ret z
  | None => Panic NilDereference
  end.

Definition store (h : heap) (p : nat) (z : Z) : heap := <[p := z]> h.

(** One iteration of the first loop; [GetRandomInt] returns a fresh integer. *)
Definition getCommitRandoms_body (nRoots : Z) (boundary : nat) (i : nat)
    (st : list (option nat) * heap * R) : go (list (option nat) * heap * R) :=
  let '(rs, h, s) := st in
  b ← load h boundary;
  '(z, s) ← GetRandomInt b s;
  let '(r, h) := new h z in
  if Z.of_nat i <? nRoots - 1 then
    rs ← assign rs i (Some r);
    b ← load h boundary;
    z ← load h r;
    mret (rs, store h boundary (b - z), s)
  else
    rs ← assign rs i (Some boundary);
    mret (rs, h, s).

(** One iteration of [for _, elem := range rs { elem.Neg(elem) }]. *)
Definition getCommitRandoms_neg (rs : list (option nat)) (i : nat) (h : heap) : go heap :=
  elem ← index rs i;
  elem ← deref elem;
  z ← load h elem;
  mret (store h elem (- z)).

Definition getCommitRandoms (r : bigInt) (nRoots : Z) (s : R)
    : go (list (option nat) * heap * R) :=
  r ← deref r;
  let '(rAbs, h) := new [] (Z.abs r) in
  z ← load h rAbs;
  let '(boundary, h) := new h z in
  if nRoots <? 0 then Panic MakeSliceLen
  else
    let n := Z.to_nat nRoots in
    '(rs, h, s) ← for_range (seq 0 n) (getCommitRandoms_body nRoots boundary)
                    (replicate n None, h, s);
    z ← load h rAbs;
    if Cmp z r =? 0 then mret (rs, h, s)
    else
      h ← for_range (seq 0 n) (getCommitRandoms_neg rs) h;
      mret (rs, h, s).

(** [p.Neg(p)] on the cell [p] of a store. *)
Definition negCell (h : heap) (p : nat) : heap :=
  store h p (- default 0 (h !! p)).

(** The integers a slice of pointers denotes in a store. *)
Definition shares (h : heap) (rs : list (option nat)) : list bigInt :=
  (fun p => p ≫= (h !!.)) <$> rs.

(** The exact integer sum of a list. *)
Definition sumZ (zs : list Z) : Z := foldr Z.add 0 zs.

Definition PositiveProver_GetProofRandomData_body (i : nat)
    (st : list bigInt * list (option SP) * R) : go (list bigInt * list (option SP) * R) :=
  let '(proofRandomData, squareProvers, s) := st in
  squareProver ← index squareProvers i;
  squareProver ← deref squareProver;
  '(proofRandomData1, proofRandomData2, squareProver, s) ←
    SquareProver_GetProofRandomData squareProver s;
  proofRandomData ← assign proofRandomData (2 * i) proofRandomData1;
  proofRandomData ← assign proofRandomData (2 * i + 1) proofRandomData2;
  mret (proofRandomData, <[i := Some squareProver]> squareProvers, s).

Definition PositiveProver_GetProofRandomData (p : PositiveProver) (s : R)
    : go (list bigInt * PositiveProver * R) :=
  let n := length (pp_squareProvers p) in
  '(proofRandomData, squareProvers, s) ←
    for_range (seq 0 n) PositiveProver_GetProofRandomData_body
      (replicate (n * 2) None, pp_squareProvers p, s);
  mret (proofRandomData,
        {| pp_squareProvers := squareProvers;
           pp_smallCommitments := pp_smallCommitments p;
           pp_bigCommitments := pp_bigCommitments p |},
        s).

(** The four sub-proofs as an ordered sequence of per-sub-proof records:
    [GetProofRandomData] of each sub-prover in turn, each on the randomness
    source the one before left, giving the pair each returned. *)
Fixpoint subproofs_GetProofRandomData (squareProvers : list SP) (s : R)
    : go (list (bigInt * bigInt) * list SP * R) :=
  match squareProvers with
  | [] => Ret ([], [], s)
  | squareProver :: rest =>
      '(d1, d2, squareProver, s) ← SquareProver_GetProofRandomData squareProver s;
      '(records, rest, s) ← subproofs_GetProofRandomData rest s;
      mret ((d1, d2) :: records, squareProver :: rest, s)
  end.

Definition PositiveProver_GetProofData_body (p : PositiveProver) (challenges : list bigInt)
    (i : nat) (proofData : list bigInt) : go (list bigInt) :=
  squareProver ← index (pp_squareProvers p) i;
  challenge ← index challenges i;
  squareProver ← deref squareProver;
  '(s1, s21, s22) ← SquareProver_GetProofData squareProver challenge;
  proofData ← assign proofData (3 * i) s1;
  proofData ← assign proofData (3 * i + 1) s21;
  assign proofData (3 * i + 2) s22.

Definition PositiveProver_GetProofData (p : PositiveProver) (challenges : list bigInt)
    : go (list bigInt) :=
  let n := length (pp_squareProvers p) in
  for_range (seq 0 n) (PositiveProver_GetProofData_body p challenges)
    (replicate (n * 3) None).

Definition GetVerifierInitializationData (p : PositiveProver) : list bigInt * list bigInt :=
  (pp_smallCommitments p, pp_bigCommitments p).

Record PositiveVerifier := mkPositiveVerifier {
  pv_squareVerifiers : list (option SV);
  pv_proofRandomData : list bigInt
}.

(** The loop of the check [c = c0*c1*c2*c3]. *)
Definition NewPositiveVerifier_check (g : QR) (bigCommitments : list bigInt) (i : nat)
    (check : Z) : go Z :=
  b ← index bigCommitments i;
  b ← deref b;
  mret (QR_Mul g check b).

Definition NewPositiveVerifier_receivers (receiver : Receiver) (bigCommitments : list bigInt)
    (i : nat) (receivers : list (option Receiver)) : go (res (list (option Receiver))) :=
  comm ← index bigCommitments i;
  match NewReceiverFromParams (QR_GetPrimes (r_QRSpecialRSA receiver))
          (r_G receiver) (r_H receiver) (r_K receiver) with
  | Err _ => mret (Err "error when calling NewReceiverFromParams")
  | Val receiver =>
      let receiver := SetCommitment receiver comm in
      receivers ← assign receivers i (Some receiver);
      mret (Val receivers)
  end.

Definition NewPositiveVerifier_verifiers (receivers : list (option Receiver))
    (smallCommitments : list bigInt) (challengeSpaceSize : Z)
    (i : nat) (squareVerifiers : list (option SV)) : go (res (list (option SV))) :=
  receiver ← index receivers i;
  small ← index smallCommitments i;
  receiver ← deref receiver;
  match NewSquareVerifier receiver small challengeSpaceSize with
  | Err _ => mret (Err "error when creating SquareVerifier")
  | Val verifier =>
      squareVerifiers ← assign squareVerifiers i (Some verifier);
      mret (Val squareVerifiers)
  end.

Definition NewPositiveVerifier (receiver : Receiver) (receiverCommitment : bigInt)
    (smallCommitments bigCommitments : list bigInt) (challengeSpaceSize : Z)
    : go (res PositiveVerifier) :=
  let nRoots := length smallCommitments in
  check ← for_range (seq 0 nRoots)
            (NewPositiveVerifier_check (r_QRSpecialRSA receiver) bigCommitments) 1;
  c ← deref receiverCommitment;
  if negb (Cmp c check =? 0) then
    mret (Err "squareProvers are not properly instantiated")
  else
    receivers ← for_range_res (seq 0 (length bigCommitments))
                  (NewPositiveVerifier_receivers receiver bigCommitments)
                  (replicate nRoots None);
    match receivers with
    | Err msg => mret (Err msg)
    | Val receivers =>
        squareVerifiers ← for_range_res (seq 0 (length receivers))
                            (NewPositiveVerifier_verifiers receivers smallCommitments
                               challengeSpaceSize)
                            (replicate nRoots None);
        match squareVerifiers with
        | Err msg => mret (Err msg)
        | Val squareVerifiers =>
            mret (Val {| pv_squareVerifiers := squareVerifiers;
                         pv_proofRandomData := [] |})
        end
    end.

(** The group product [c0*c1*...] of a list of commitments, from 1. *)
Definition product (g : QR) (cs : list Z) : Z := fold_left (QR_Mul g) cs 1.

(** The check of [NewPositiveVerifier] as a property of the constructor on
    given sub-commitments: for every outer commitment, an error is returned
    exactly when the group product of the supplied big sub-commitments
    differs from it. *)
Definition rejects_iff_product_differs (receiver : Receiver) (smallCommitments : list bigInt)
    (bigCommitments : list Z) (challengeSpaceSize : Z) : Prop :=
  forall c : Z,
    (exists msg,
       NewPositiveVerifier receiver (Some c) smallCommitments (Some <$> bigCommitments)
         challengeSpaceSize = Ret (Err msg))
    <-> product (r_QRSpecialRSA receiver) bigCommitments ≠ c.

Definition GetChallenges_body (i : nat)
    (st : list bigInt * list (option SV) * R) : go (list bigInt * list (option SV) * R) :=
  let '(challenges, squareVerifiers, s) := st in
  v ← index squareVerifiers i;
  v ← deref v;
  '(c, v, s) ← SquareVerifier_GetChallenge v s;
  challenges ← assign challenges i c;
  mret (challenges, <[i := Some v]> squareVerifiers, s).

Definition GetChallenges (v : PositiveVerifier) (s : R)
    : go (list bigInt * PositiveVerifier * R) :=
  let n := length (pv_squareVerifiers v) in
  '(challenges, squareVerifiers, s) ←
    for_range (seq 0 n) GetChallenges_body (replicate n None, pv_squareVerifiers v, s);
  mret (challenges,
        {| pv_squareVerifiers := squareVerifiers;
           pv_proofRandomData := pv_proofRandomData v |},
        s).

Definition SetChallenges_body (challenges : list bigInt) (i : nat)
    (squareVerifiers : list (option SV)) : go (list (option SV)) :=
  v ← index squareVerifiers i;
  c ← index challenges i;
  v ← deref v;
  mret (<[i := Some (SquareVerifier_SetChallenge v c)]> squareVerifiers).

Definition SetChallenges (v : PositiveVerifier) (challenges : list bigInt)
    : go PositiveVerifier :=
  squareVerifiers ← for_range (seq 0 (length (pv_squareVerifiers v)))
                      (SetChallenges_body challenges) (pv_squareVerifiers v);
  mret {| pv_squareVerifiers := squareVerifiers;
          pv_proofRandomData := pv_proofRandomData v |}.

Definition PositiveVerifier_SetProofRandomData_body (proofRandomData : list bigInt) (i : nat)
    (squareVerifiers : list (option SV)) : go (list (option SV)) :=
  verifier ← index squareVerifiers i;
  d1 ← index proofRandomData (2 * i);
  d2 ← index proofRandomData (2 * i + 1);
  verifier ← deref verifier;
  mret (<[i := Some (SquareVerifier_SetProofRandomData verifier d1 d2)]> squareVerifiers).

(** The result is the returned [error] and the verifier after the call. *)
Definition PositiveVerifier_SetProofRandomData (v : PositiveVerifier)
    (proofRandomData : list bigInt) : go (option string * PositiveVerifier) :=
  if decide (length proofRandomData ≠ 8%nat) then
    mret (Some "the length of proofRandomData is not correct"%string, v)
  else
    squareVerifiers ← for_range (seq 0 (length (pv_squareVerifiers v)))
                        (PositiveVerifier_SetProofRandomData_body proofRandomData)
                        (pv_squareVerifiers v);
    mret (None,
          {| pv_squareVerifiers := squareVerifiers;
             pv_proofRandomData := pv_proofRandomData v |}).

(** One iteration of the loop of [Verify].  The loop state is [verified] and,
    as ghost state, the indices of the sub-verifiers whose [Verify] has been
    called so far: [verified && verifier.Verify(...)] evaluates its right
    operand, the index expressions included, only when [verified] is true. *)
Definition PositiveVerifier_Verify_body (v : PositiveVerifier) (proofData : list bigInt)
    (i : nat) (st : bool * list nat) : go (bool * list nat) :=
  let '(verified, calls) := st in
  verifier ← index (pv_squareVerifiers v) i;
  if verified then
    s1 ← index proofData (3 * i);
    s21 ← index proofData (3 * i + 1);
    s22 ← index proofData (3 * i + 2);
    verifier ← deref verifier;
    ok ← SquareVerifier_Verify verifier s1 s21 s22;
    mret (ok, calls ++ [i])
  else
    mret (false, calls).

(** [Verify] with the calls it made to the sub-verifiers. *)
Definition PositiveVerifier_Verify_calls (v : PositiveVerifier) (proofData : list bigInt)
    : go (bool * list nat) :=
  if decide (length proofData ≠ 12%nat) then mret (false, [])
  else
    for_range (seq 0 (length (pv_squareVerifiers v)))
      (PositiveVerifier_Verify_body v proofData) (true, []).

Definition PositiveVerifier_Verify (v : PositiveVerifier) (proofData : list bigInt)
    : go bool :=
  r ← PositiveVerifier_Verify_calls v proofData;
  mret r.1.

(** Sub-verifier [i] accepts the response elements at [3*i], [3*i+1], [3*i+2]. *)
Definition accepts_at (v : PositiveVerifier) (pd : list bigInt) (i : nat) : Prop :=
  exists sv s1 s21 s22,
    pv_squareVerifiers v !! i = Some (Some sv) /\
    pd !! (3 * i)%nat = Some s1 /\ pd !! (3 * i + 1)%nat = Some s21 /\
    pd !! (3 * i + 2)%nat = Some s22 /\
    SquareVerifier_Verify sv s1 s21 s22 = Ret true.

(** Sub-verifier [i] rejects the response elements at [3*i], [3*i+1], [3*i+2]. *)
Definition rejects_at (v : PositiveVerifier) (pd : list bigInt) (i : nat) : Prop :=
  exists sv s1 s21 s22,
    pv_squareVerifiers v !! i = Some (Some sv) /\
    pd !! (3 * i)%nat = Some s1 /\ pd !! (3 * i + 1)%nat = Some s21 /\
    pd !! (3 * i + 2)%nat = Some s22 /\
    SquareVerifier_Verify sv s1 s21 s22 = Ret false.

(** "No early exit", as a property of one run of [Verify]: whenever it
    returns, the [Verify] of every sub-verifier has been called, in order. *)
Definition no_early_exit (v : PositiveVerifier) (proofData : list bigInt) : Prop :=
  forall (b : bool) (calls : list nat),
    PositiveVerifier_Verify_calls v proofData = Ret (b, calls) ->
    calls = seq 0 (length (pv_squareVerifiers v)).

(** The challenges of the sub-verifiers as an ordered sequence:
    [GetChallenge] of each sub-verifier in turn, each on the randomness source
    the one before left. *)
Fixpoint subverifiers_GetChallenge (squareVerifiers : list SV) (s : R)
    : go (list bigInt * list SV * R) :=
  match squareVerifiers with
  | [] => Ret ([], [], s)
  | v :: rest =>
      '(c, v, s) ← SquareVerifier_GetChallenge v s;
      '(challenges, rest, s) ← subverifiers_GetChallenge rest s;
      mret (c :: challenges, v :: rest, s)
  end.

(** *** NewPositiveProver

    What the constructor calls is not part of the sources: the decomposition
    into squares, the constructor of a committer and its
    [GetCommitMsgWithGivenR], which returns the commitment with an error and
    leaves the witness in the committer, and the constructor of a square
    sub-prover with its field [SmallCommitment].  [NewCommitter] is given the
    modulus [N] of the group; the group value stands for it here. *)
Class PositiveSetup := {
  lipmaaDecomposition : bigInt -> go (res (list bigInt));
  NewCommitter : QR -> Z -> Z -> Z -> Z -> Committer;
  Committer_GetCommitMsgWithGivenR :
    Committer -> bigInt -> bigInt -> go (bigInt * option string * Committer);
  NewSquareProver : Committer -> bigInt -> Z -> res SP;
  SquareProver_SmallCommitment : SP -> bigInt
}.

Context {setup : PositiveSetup}.

(** One iteration of [for i, rand := range rs]: the big commitment [i] is
    stored before the error is looked at.  [rand] is a pointer into the store
    [getCommitRandoms] left. *)
Definition NewPositiveProver_commit (committer : Committer) (roots : list bigInt)
    (rs : list (option nat)) (h : heap) (i : nat)
    (st : list (option Committer) * list bigInt)
    : go (res (list (option Committer) * list bigInt)) :=
  let '(committers, bigCommitments) := st in
  rand ← index rs i;
  let committer := NewCommitter (c_QRSpecialRSA committer) (c_G committer) (c_H committer)
                     (c_T committer) (c_K committer) in
  root ← index roots i;
  root ← deref root;
  let square := root * root in
  '(commitment, err, committer) ←
    Committer_GetCommitMsgWithGivenR committer (Some square) (rand ≫= (h !!.));
  bigCommitments ← assign bigCommitments i commitment;
  match err with
  | Some _ => mret (Err "error when creating commit msg")
  | None =>
      committers ← assign committers i (Some committer);
      mret (Val (committers, bigCommitments))
  end.

(** One iteration of [for i, root := range roots]. *)
Definition NewPositiveProver_prover (committers : list (option Committer))
    (roots : list bigInt) (challengeSpaceSize : Z) (i : nat)
    (st : list bigInt * list (option SP)) : go (res (list bigInt * list (option SP))) :=
  let '(smallCommitments, squareProvers) := st in
  root ← index roots i;
  committer ← index committers i;
  committer ← deref committer;
  match NewSquareProver committer root challengeSpaceSize with
  | Err _ => mret (Err "error in instantiating SquareProver")
  | Val prover =>
      smallCommitments ← assign smallCommitments i (SquareProver_SmallCommitment prover);
      squareProvers ← assign squareProvers i (Some prover);
      mret (Val (smallCommitments, squareProvers))
  end.

(** The result is the [(prover, error)] pair and the randomness source after
    the call. *)
Definition NewPositiveProver (committer : Committer) (x r : bigInt)
    (challengeSpaceSize : Z) (s : R) : go (res PositiveProver * R) :=
  roots ← lipmaaDecomposition x;
  match roots with
  | Err _ => mret (Err "error when doing Lipmaa decomposition", s)
  | Val roots =>
      let nRoots := length roots in
      '(rs, h, s) ← getCommitRandoms r (Z.of_nat nRoots) s;
      st ← for_range_res (seq 0 (length rs))
             (NewPositiveProver_commit committer roots rs h)
             (replicate nRoots None, replicate nRoots None);
      match st with
      | Err msg => mret (Err msg, s)
      | Val (committers, bigCommitments) =>
          st ← for_range_res (seq 0 nRoots)
                 (NewPositiveProver_prover committers roots challengeSpaceSize)
                 (replicate nRoots None, replicate nRoots None);
          match st with
          | Err msg => mret (Err msg, s)
          | Val (smallCommitments, squareProvers) =>
              mret (Val {| pp_squareProvers := squareProvers;
                           pp_smallCommitments := smallCommitments;
                           pp_bigCommitments := bigCommitments |}, s)
          end
      end
  end.

End df.
End df.

(** ** The order of the protocol *)

Module protocol.

(** Modelled from the spec: the state machine shared by the three proof
    pairs, [Init -> RandomDataSent -> ChallengeSet -> ResponseSent ->
    Verified|Rejected].  The sources declare no such type: it is what the
    properties about the order of the calls are stated against. *)
Inductive State : Type :=
| Init
| RandomDataSent
| ChallengeSet
| ResponseSent
| Verified
| Rejected.

(** The four moves of a proof pair. *)
Inductive Operation : Type :=
| GetProofRandomData
| SetChallenge (challenge : bigInt)
| GetProofData
| Verify.

(** The state an operation leads to when the machine allows it in state
    [st], [None] when it is out of order; [accepted] is the outcome of
    [Verify]. *)
Definition next (st : State) (op : Operation) (accepted : bool) : option State :=
  match st, op with
  | Init, GetProofRandomData => Some RandomDataSent
  | RandomDataSent, SetChallenge _ => Some ChallengeSet
  | ChallengeSet, GetProofData => Some ResponseSent
  | ResponseSent, Verify => Some (if accepted then Verified else Rejected)
  | _, _ => None
  end.

Definition out_of_order (st : State) (op : Operation) : Prop :=
  forall accepted, next st op accepted = None.

Section representation.
Context {Grp R : Type} {schnorrGroup : SchnorrGroup Grp} {sampler : Sampler R}.

(** A run of the representation proof: the prover and the verifier, the
    randomness source, the last response, and as ghost state the state of
    the machine. *)
Record Run := mkRun {
  run_prover : @schnorr.Prover Grp;
  run_verifier : @schnorr.Verifier Grp;
  run_source : R;
  run_response : list bigInt;
  run_state : State
}.

(** The ghost state follows the machine on a call in order and stays where
    it is on a call out of order. *)
Definition advance (st : State) (op : Operation) (accepted : bool) : State :=
  default st (next st op accepted).

(** One call on the objects as the code has them, made whatever the state of
    the machine.  The prover's proof random data goes to the verifier with
    the bases and [y]; the verifier's challenge goes to the prover. *)
Definition call (op : Operation) (run : Run) : go Run :=
  let st := advance (run_state run) op in
  match op with
  | GetProofRandomData =>
      '(t, p, s) ← schnorr.GetProofRandomData (run_prover run) (run_source run);
      mret {| run_prover := p;
              run_verifier := schnorr.SetProofRandomData (run_verifier run) t
                                (schnorr.p_bases p) (schnorr.p_y p);
              run_source := s; run_response := run_response run;
              run_state := st true |}
  | SetChallenge challenge =>
      mret {| run_prover := run_prover run;
              run_verifier := schnorr.SetChallenge (run_verifier run) challenge;
              run_source := run_source run; run_response := run_response run;
              run_state := st true |}
  | GetProofData =>
      z ← schnorr.GetProofData (run_prover run) (schnorr.v_challenge (run_verifier run));
      mret {| run_prover := run_prover run; run_verifier := run_verifier run;
              run_source := run_source run; run_response := z;
              run_state := st true |}
  | Verify =>
      ok ← schnorr.Verify (run_verifier run) (run_response run);
      mret {| run_prover := run_prover run; run_verifier := run_verifier run;
              run_source := run_source run; run_response := run_response run;
              run_state := st ok |}
  end.

Fixpoint calls (ops : list Operation) (run : Run) : go Run :=
  match ops with
  | [] => Ret run
  | op :: rest => run ← call op run; calls rest run
  end.

(** The order is enforced on the runs from [run]: after any calls that
    returned, a call that is out of order for the machine does not return a
    result. *)
Definition order_enforced (run : Run) : Prop :=
  forall (ops : list Operation) (run' : Run) (op : Operation),
    calls ops run = Ret run' ->
    out_of_order (run_state run') op ->
    exists e, call op run' = Panic e.

End representation.
End protocol.

(** ** Concrete instances of the external interfaces

    Small instances on which the embedding runs: a sampler that reads its
    draws from a tape, arithmetic modulo a prime for the Schnorr group,
    arithmetic modulo [P*Q] for the hidden-order group, and a square
    sub-proof reduced to a stored check. *)

Module standin.

(** Modelled from the spec: [GetRandomInt(bound)] gives an integer in
    [[0, bound)]; there is none when [bound <= 0], where crypto/rand panics.
    The source of randomness is a tape of raw values, reduced into range. *)
Definition tape_GetRandomInt (max : Z) (tape : list Z) : go (Z * list Z) :=
  if 0 <? max then Ret (hd 0 tape mod max, tl tape) else Panic RandArgument.

#[global] Instance tape_Sampler : Sampler (list Z) := {
  GetRandomInt := tape_GetRandomInt
}.

(** Modelled from the spec: the Schnorr group, the subgroup of order [Q] of
    the integers modulo [P]; exponents add modulo [Q], elements multiply
    modulo [P]. *)
Record Zp := mkZp { zp_P : Z; zp_Q : Z }.

#[global] Instance Zp_SchnorrGroup : SchnorrGroup Zp := {
  Group_Q g := zp_Q g;
  Group_Add g x y := (x + y) mod zp_Q g;
  Group_Mul g x y := (x * y) mod zp_P g;
  Group_Exp g x e := (x ^ e) mod zp_P g
}.

(** Modelled from the spec: the hidden-order group, modular multiply,
    exponentiate and invert modulo [N = P*Q]. *)
Record RSA := mkRSA { rsa_P : Z; rsa_Q : Z }.

Definition rsa_N (g : RSA) : Z := rsa_P g * rsa_Q g.

Definition rsa_Inv (g : RSA) (a : Z) : Z :=
  (a ^ ((rsa_P g - 1) * (rsa_Q g - 1) - 1)) mod rsa_N g.

#[global] Instance RSA_QRSpecialRSA : QRSpecialRSA RSA (Z * Z) := {
  QR_NBitLen g := Z.log2 (rsa_N g) + 1;
  QR_GetPrimes g := (rsa_P g, rsa_Q g);
  QR_Mul g x y := (x * y) mod rsa_N g;
  QR_Exp g x e := if e <? 0 then rsa_Inv g ((x ^ Z.abs e) mod rsa_N g)
                  else (x ^ e) mod rsa_N g;
  QR_Inv := rsa_Inv
}.

(** A square sub-proof reduced to its interface: the sub-prover answers from
    a counter, the sub-verifier stores what it is given and accepts a response
    whose first element is the stored small commitment. *)
Record StubVerifier := mkStubVerifier {
  sv_small : bigInt;
  sv_challenge : bigInt;
  sv_random : bigInt * bigInt
}.

#[global] Instance stub_SquareProof : @df.SquareProof RSA (Z * Z) (list Z) Z StubVerifier := {
  NewReceiverFromParams primes G H K :=
    Val (df.mkReceiver (mkRSA primes.1 primes.2) G H K None);
  NewSquareVerifier receiver small css := Val (mkStubVerifier small None (None, None));
  SquareProver_GetProofRandomData sp s := Ret (Some sp, Some (sp + 1), sp + 2, s);
  SquareProver_GetProofData sp c :=
    c ← deref c; Ret (Some (sp * c), Some (sp * c + 1), Some (sp * c + 2));
  SquareVerifier_GetChallenge sv s :=
    '(c, s) ← tape_GetRandomInt 4 s;
    Ret (Some c, mkStubVerifier (sv_small sv) (Some c) (sv_random sv), s);
  SquareVerifier_SetChallenge sv c := mkStubVerifier (sv_small sv) c (sv_random sv);
  SquareVerifier_SetProofRandomData sv d1 d2 :=
    mkStubVerifier (sv_small sv) (sv_challenge sv) (d1, d2);
  SquareVerifier_Verify sv s1 s21 s22 := Ret (bool_decide (s1 = sv_small sv))
}.

(** Modelled from the spec: the decomposition of a nonnegative integer into
    four squares, here by search; a negative integer has none. *)
Definition fourSquares (x : Z) : list (list Z) :=
  let range := Z.of_nat <$> seq 0 (S (Z.to_nat (Z.sqrt x))) in
  a ← range; b ← range; c ← range;
  let d := Z.sqrt (x - a * a - b * b - c * c) in
  if a * a + b * b + c * c + d * d =? x then [[a; b; c; d]] else [].

(** Modelled from the spec: a committer built from the parameters, whose
    [GetCommitMsgWithGivenR(value, randomness)] returns the commitment
    [G^value * H^randomness] and keeps the witness; the square sub-prover is
    the stub counter, started at the root. *)
#[global] Instance stub_PositiveSetup : @df.PositiveSetup RSA Z := {
  lipmaaDecomposition x :=
    x ← deref x;
    Ret (match fourSquares x with
         | roots :: _ => Val (Some <$> roots)
         | [] => Err "no decomposition"
         end);
  NewCommitter g G H T K := df.mkCommitter g G H T K 0 None None;
  Committer_GetCommitMsgWithGivenR c a r :=
    z ← df.Committer_ComputeCommit c a r;
    Ret (Some z, None,
         df.mkCommitter (df.c_QRSpecialRSA c) (df.c_G c) (df.c_H c) (df.c_T c) (df.c_K c)
           (df.c_B c) a r);
  NewSquareProver c root css :=
    match root with
    | Some z => Val z
    | None => Err "nil root"
    end;
  SquareProver_SmallCommitment sp := Some sp
}.

End standin.

(** ** Concrete inputs

    A Schnorr group of order 11 in the integers modulo 23 with base 2, the
    hidden-order group modulo [7*11] with [G = 4] and [H = 9], and the objects
    built on them. *)

Module example.

Definition zp23 : standin.Zp := standin.mkZp 23 11.

(** The prover of [y = 2^3], as [NewProver] returns it. *)
Definition prover : @schnorr.Prover standin.Zp :=
  schnorr.mkProver zp23 [Some 3] [Some 2] [] (Some 8).

(** A run of the representation proof from the start; the tape holds the
    masking 5. *)
Definition run : @protocol.Run standin.Zp (list Z) :=
  protocol.mkRun prover (schnorr.NewVerifier zp23) [5] [] protocol.Init.

Definition rsa77 : standin.RSA := standin.mkRSA 7 11.

Definition committer (x r : Z) : @df.Committer standin.RSA :=
  df.mkCommitter rsa77 4 9 8 2 4 (Some x) (Some r).

Definition receiver (c : bigInt) : @df.Receiver standin.RSA :=
  df.mkReceiver rsa77 4 9 2 c.

(** The multiplication prover for [15 = 3 * 5] with the randomness 2, 1, 4,
    so that [r3 - x2*r1 = -6], after [GetProofRandomData] has drawn the
    maskings 11, 22, 33, 44 and 1. *)
Definition multiplicationProver : @df.MultiplicationProver standin.RSA :=
  {| df.mp_committer1 := committer 3 2; df.mp_committer2 := committer 5 1;
     df.mp_committer3 := committer 15 4; df.mp_challengeSpaceSize := 3;
     df.mp_y1 := Some 11; df.mp_s1 := Some 33; df.mp_y := Some 22;
     df.mp_s2 := Some 44; df.mp_s3 := Some 1 |}.

(** Four stub sub-provers. *)
Definition positiveProver : @df.PositiveProver Z :=
  {| df.pp_squareProvers := Some <$> [10; 20; 30; 40];
     df.pp_smallCommitments := []; df.pp_bigCommitments := [] |}.

(** Four stub sub-verifiers that expect the small commitment 1. *)
Definition positiveVerifier : @df.PositiveVerifier standin.StubVerifier :=
  {| df.pv_squareVerifiers :=
       Some <$> replicate 4 (standin.mkStubVerifier (Some 1) None (None, None));
     df.pv_proofRandomData := [] |}.

(** The elements of the group modulo 77: the residues whose power 30, the
    exponent of the group, is 1. *)
Definition unit77 (a : Z) : Prop := 0 <= a < 77 /\ a ^ 30 mod 77 = 1.

(** Five stub sub-verifiers that expect the small commitment 1. *)
Definition fiveVerifiers : @df.PositiveVerifier standin.StubVerifier :=
  {| df.pv_squareVerifiers :=
       Some <$> replicate 5 (standin.mkStubVerifier (Some 1) None (None, None));
     df.pv_proofRandomData := [] |}.

End example.

(** * Properties *)

(** ** Go values and control *)

Lemma index_lookup {A : Type} (xs : list A) (i : nat) (x : A) :
  xs !! i = Some x -> index xs i = Ret x.
Proof. intros E. unfold index. by rewrite E. Qed.

Lemma index_ge {A : Type} (xs : list A) (i : nat) :
  (length xs <= i)%nat -> index xs i = Panic IndexOutOfRange.
Proof. intros L. unfold index. by rewrite lookup_ge_None_2. Qed.

Lemma index_fmap_Some {A : Type} (xs : list A) (i : nat) (x : A) :
  xs !! i = Some x -> index (Some <$> xs) i = Ret (Some x).
Proof. intros E. apply index_lookup. by rewrite list_lookup_fmap, E. Qed.

Lemma assign_lt {A : Type} (xs : list A) (i : nat) (x : A) :
  (i < length xs)%nat -> assign xs i x = Ret (<[i := x]> xs).
Proof. intros L. unfold assign. by rewrite decide_True. Qed.

Lemma assign_ge {A : Type} (xs : list A) (i : nat) (x : A) :
  (length xs <= i)%nat -> assign xs i x = Panic IndexOutOfRange.
Proof. intros L. unfold assign. rewrite decide_False; [done | lia]. Qed.

Lemma bind_Ret {A B : Type} (a : A) (f : A -> go B) : Ret a ≫= f = f a.
Proof. reflexivity. Qed.

Lemma bind_Panic {A B : Type} (e : panic) (f : A -> go B) : Panic e ≫= f = Panic e.
Proof. reflexivity. Qed.

Lemma for_range_nil {S : Type} (body : nat -> S -> go S) (s : S) :
  for_range [] body s = Ret s.
Proof. reflexivity. Qed.

Lemma for_range_cons {S : Type} (i : nat) (rest : list nat) (body : nat -> S -> go S) (s : S) :
  for_range (i :: rest) body s = body i s ≫= for_range rest body.
Proof. reflexivity. Qed.

Lemma for_range_seq_S {S : Type} (k n : nat) (body : nat -> S -> go S) (s : S) :
  for_range (seq k (Datatypes.S n)) body s = body k s ≫= for_range (seq (Datatypes.S k) n) body.
Proof. reflexivity. Qed.

(** A loop over two index ranges in a row. *)
Lemma for_range_app {S : Type} (a b : list nat) (body : nat -> S -> go S) (s : S) :
  for_range (a ++ b) body s = for_range a body s ≫= for_range b body.
Proof.
  revert s. induction a as [| i a IH]; intros s; [done |].
  cbn [app for_range]. destruct (body i s) as [s1 | e]; [| done].
  rewrite !bind_Ret. apply IH.
Qed.

(** Two bodies that agree on the indices of the loop give the same loop. *)
Lemma for_range_ext {S : Type} (idx : list nat) (body body' : nat -> S -> go S) (s : S) :
  (forall i s, i ∈ idx -> body i s = body' i s) ->
  for_range idx body s = for_range idx body' s.
Proof.
  revert s. induction idx as [| i idx IH]; intros s Hext; [done |].
  cbn [for_range]. rewrite Hext by apply list_elem_of_here.
  destruct (body' i s) as [s1 | e]; [| done]. rewrite !bind_Ret.
  apply IH. intros j s' Hj. apply Hext. by apply list_elem_of_further.
Qed.

(** A property that every iteration keeps holds after the loop. *)
Lemma for_range_inv {S : Type} (P : S -> Prop) (body : nat -> S -> go S) :
  (forall i s s', body i s = Ret s' -> P s -> P s') ->
  forall idx s s', for_range idx body s = Ret s' -> P s -> P s'.
Proof.
  intros Hbody. induction idx as [| i idx IH]; intros s s'.
  - by intros [= <-].
  - cbn [for_range]. destruct (body i s) as [s1 | e] eqn:Eb; [| done].
    rewrite bind_Ret. intros Hloop Hs. apply (IH s1 s' Hloop). by apply (Hbody i s).
Qed.

(** A loop panics when one of its iterations panics whatever the state. *)
Lemma for_range_panics_at {S : Type} (body : nat -> S -> go S) (k : nat) :
  (forall s, exists e, body k s = Panic e) ->
  forall idx s, k ∈ idx -> exists e, for_range idx body s = Panic e.
Proof.
  intros Hk. induction idx as [| i idx IH]; intros s Hin.
  - by apply elem_of_nil in Hin.
  - cbn [for_range]. destruct (decide (i = k)) as [-> | Hne].
    + destruct (Hk s) as [e ->]. by exists e.
    + destruct (body i s) as [s1 | e]; [| by exists e]. rewrite bind_Ret.
      apply IH. apply elem_of_cons in Hin as [-> | Hin]; done.
Qed.

(** A loop with early return over two index ranges in a row. *)
Lemma for_range_res_app {S : Type} (a b : list nat) (body : nat -> S -> go (res S)) (s : S) :
  for_range_res (a ++ b) body s
  = r ← for_range_res a body s;
    match r with
    | Val s' => for_range_res b body s'
    | Err msg => Ret (Err msg)
    end.
Proof.
  revert s. induction a as [| i a IH]; intros s; [done |].
  cbn [app for_range_res]. destruct (body i s) as [[s1 | msg] | e]; [| done | done].
  rewrite !bind_Ret. apply IH.
Qed.

(** An assignment into a slice keeps its length. *)
Lemma assign_length {A : Type} (xs xs' : list A) (i : nat) (x : A) :
  assign xs i x = Ret xs' -> length xs' = length xs.
Proof.
  unfold assign. destruct (decide _); [| done]. intros [= <-]. apply length_insert.
Qed.

Lemma Cmp_eqb (x y : Z) : (Cmp x y =? 0) = (x =? y).
Proof.
  unfold Cmp. destruct (Z.compare_spec x y) as [-> | L | L]; simpl.
  - by rewrite Z.eqb_refl.
  - symmetry. apply Z.eqb_neq. lia.
  - symmetry. apply Z.eqb_neq. lia.
Qed.

Lemma Cmp_abs (z : Z) : (Cmp (Z.abs z) z =? 0) = negb (z <? 0).
Proof.
  rewrite Cmp_eqb. destruct (Z.ltb_spec z 0); simpl.
  - apply Z.eqb_neq. lia.
  - apply Z.eqb_eq. lia.
Qed.

(** ** The representation proof *)

Section schnorr_properties.
Context {Grp R : Type} {schnorrGroup : SchnorrGroup Grp} {sampler : Sampler R}.

Lemma Verify_body_step (v : schnorr.Verifier) (proofData : list bigInt)
    (k : nat) (acc b z : Z) :
  schnorr.v_bases v !! k = Some (Some b) ->
  proofData !! k = Some (Some z) ->
  schnorr.Verify_body v proofData k acc
  = Ret (Group_Mul (schnorr.v_Group v) acc (Group_Exp (schnorr.v_Group v) b z)).
Proof.
  intros Eb Ez. unfold schnorr.Verify_body.
  by rewrite (index_lookup _ _ _ Eb), (index_lookup _ _ _ Ez).
Qed.

(** The loop of [Verify] over non-nil bases and responses of the same length
    computes the product of the powers, from the accumulator it starts with. *)
Lemma Verify_loop (v : schnorr.Verifier) (bs zs : list Z) :
  schnorr.v_bases v = Some <$> bs ->
  length zs = length bs ->
  forall n k acc, (k + n)%nat = length bs ->
    for_range (seq k n) (schnorr.Verify_body v (Some <$> zs)) acc
    = Ret (fold_left (fun a bz => Group_Mul (schnorr.v_Group v) a
                                    (Group_Exp (schnorr.v_Group v) bz.1 bz.2))
             (drop k (zip bs zs)) acc).
Proof.
  intros Hb Hlen n. induction n as [| n IH]; intros k acc Hk.
  - simpl. rewrite drop_ge; [done |]. rewrite length_zip. lia.
  - destruct (lookup_lt_is_Some_2 bs k) as [b Eb]; [lia |].
    destruct (lookup_lt_is_Some_2 zs k) as [z Ez]; [lia |].
    assert (zip bs zs !! k = Some (b, z)) as Ek.
    { by apply lookup_zip_Some. }
    rewrite (drop_S _ _ _ Ek). simpl.
    rewrite (Verify_body_step v _ k acc b z); simpl.
    + apply IH. lia.
    + by rewrite Hb, list_lookup_fmap, Eb.
    + by rewrite list_lookup_fmap, Ez.
Qed.

Lemma Verify_returns (v : schnorr.Verifier) (t y challenge : Z) (bs zs : list Z) :
  schnorr.v_bases v = Some <$> bs ->
  schnorr.v_proofRandomData v = Some t ->
  schnorr.v_y v = Some y ->
  schnorr.v_challenge v = Some challenge ->
  length zs = length bs ->
  schnorr.Verify v (Some <$> zs)
  = Ret (schnorr.prodExp (schnorr.v_Group v) bs zs
         =? Group_Mul (schnorr.v_Group v)
              (Group_Exp (schnorr.v_Group v) y challenge) t).
Proof.
  intros Hb Ht Hy Hc Hlen. unfold schnorr.Verify.
  rewrite (Verify_loop v bs zs Hb Hlen (length (schnorr.v_bases v)) 0 1), drop_0
    by (rewrite Hb, length_fmap; lia).
  rewrite Ht, Hy, Hc. simpl. by rewrite Cmp_eqb.
Qed.

(** C6.  Once the proof random data [t], the bases, [y] and the challenge are
    set, [Verify] of a response vector [zs] as long as the bases returns a
    boolean (it does not panic on a mismatch), and the boolean is true exactly
    when the product of the [g_i^z_i] equals [y^challenge * t], the product
    the code compares with; in a group whose multiplication commutes that is
    [t * y^challenge]. *)
Theorem schnorr_Verify_accepts_iff (g : Grp) (t y challenge : Z) (bs zs : list Z) :
  length zs = length bs ->
  let v := schnorr.SetChallenge
             (schnorr.SetProofRandomData (schnorr.NewVerifier g)
                (Some t) (Some <$> bs) (Some y))
             (Some challenge) in
  exists b : bool,
    schnorr.Verify v (Some <$> zs) = Ret b /\
    (b = true <->
     schnorr.prodExp g bs zs = Group_Mul g (Group_Exp g y challenge) t) /\
    ((forall a a', Group_Mul g a a' = Group_Mul g a' a) ->
     (b = true <->
      schnorr.prodExp g bs zs = Group_Mul g t (Group_Exp g y challenge))).
Proof.
  intros Hlen v.
  exists (schnorr.prodExp g bs zs =? Group_Mul g (Group_Exp g y challenge) t).
  split; [by apply (Verify_returns v t y challenge bs zs) |].
  split; [apply Z.eqb_eq |].
  intros Hcomm. rewrite (Hcomm t). apply Z.eqb_eq.
Qed.

Lemma Verify_body_short (v : schnorr.Verifier) (proofData : list bigInt) (acc : Z) :
  (length proofData < length (schnorr.v_bases v))%nat ->
  schnorr.Verify_body v proofData (length proofData) acc = Panic IndexOutOfRange.
Proof.
  intros L. unfold schnorr.Verify_body.
  destruct (lookup_lt_is_Some_2 (schnorr.v_bases v) (length proofData)) as [b Eb]; [lia |].
  by rewrite (index_lookup _ _ _ Eb), index_ge.
Qed.

Lemma Verify_body_nil (v : schnorr.Verifier) (proofData : list bigInt)
    (k : nat) (acc : Z) (b z : bigInt) :
  schnorr.v_bases v !! k = Some b ->
  proofData !! k = Some z ->
  b = None \/ z = None ->
  schnorr.Verify_body v proofData k acc = Panic NilDereference.
Proof.
  intros Eb Ez Hnil. unfold schnorr.Verify_body.
  rewrite (index_lookup _ _ _ Eb), (index_lookup _ _ _ Ez). simpl.
  destruct Hnil as [-> | ->]; [done | by destruct b].
Qed.

(** The loop of [Verify] over a response vector that ends before the bases. *)
Lemma Verify_loop_short (v : schnorr.Verifier) (proofData : list bigInt) :
  (length proofData < length (schnorr.v_bases v))%nat ->
  forall n k acc,
    (k + n)%nat = length (schnorr.v_bases v) -> (k <= length proofData)%nat ->
    (exists p, for_range (seq k n) (schnorr.Verify_body v proofData) acc = Panic p) /\
    (Forall is_Some (schnorr.v_bases v) -> Forall is_Some proofData ->
     for_range (seq k n) (schnorr.Verify_body v proofData) acc = Panic IndexOutOfRange).
Proof.
  intros Hlen. induction n as [| n IH]; intros k acc Hk Hle; [lia |].
  simpl. destruct (decide (k = length proofData)) as [-> | Hne].
  - rewrite Verify_body_short by done. simpl. eauto.
  - destruct (lookup_lt_is_Some_2 (schnorr.v_bases v) k) as [b Eb]; [lia |].
    destruct (lookup_lt_is_Some_2 proofData k) as [z Ez]; [lia |].
    destruct b as [b |], z as [z |].
    + rewrite (Verify_body_step v _ k acc b z) by done. simpl. apply IH; lia.
    + rewrite (Verify_body_nil v _ k acc _ _ Eb Ez) by auto. simpl.
      split; [eauto |]. intros _ Hz.
      rewrite Forall_lookup in Hz. by destruct (Hz _ _ Ez).
    + rewrite (Verify_body_nil v _ k acc _ _ Eb Ez) by auto. simpl.
      split; [eauto |]. intros Hb _.
      rewrite Forall_lookup in Hb. by destruct (Hb _ _ Eb).
    + rewrite (Verify_body_nil v _ k acc _ _ Eb Ez) by auto. simpl.
      split; [eauto |]. intros Hb _.
      rewrite Forall_lookup in Hb. by destruct (Hb _ _ Eb).
Qed.

(** C9.  [Verify] does not check the length of its response vector: with a
    response vector strictly shorter than the stored bases it reads past the
    end and panics, so it returns no boolean at all (in particular not false).
    With non-nil bases and responses the panic is the index out of range. *)
Theorem schnorr_Verify_short_response_panics (v : schnorr.Verifier) (proofData : list bigInt) :
  (length proofData < length (schnorr.v_bases v))%nat ->
  (exists p, schnorr.Verify v proofData = Panic p) /\
  (Forall is_Some (schnorr.v_bases v) -> Forall is_Some proofData ->
   schnorr.Verify v proofData = Panic IndexOutOfRange).
Proof.
  intros Hlen.
  destruct (Verify_loop_short v proofData Hlen (length (schnorr.v_bases v)) 0%nat 1)
    as [[p Hp] Hidx]; [lia | lia |].
  unfold schnorr.Verify. split.
  - exists p. by rewrite Hp.
  - intros Hb Hz. by rewrite Hidx.
Qed.

(** Calls out of order.  Neither object has a field for the state of the
    protocol: what a call does depends on the fields it reads alone. *)

Lemma Prover_GetProofData_body_no_masking (p : schnorr.Prover) (challenge x : bigInt)
    (k : nat) (cur : list bigInt) :
  schnorr.p_randomVals p = [] ->
  schnorr.p_secrets p !! k = Some x ->
  exists e, schnorr.GetProofData_body p challenge k cur = Panic e.
Proof.
  intros Hr Ex. unfold schnorr.GetProofData_body.
  rewrite (index_lookup _ _ _ Ex), bind_Ret, Hr.
  destruct challenge as [c |]; cbn [deref]; [rewrite bind_Ret | by eexists].
  destruct x as [x |]; cbn [deref]; [rewrite bind_Ret | by eexists].
  rewrite index_ge by (simpl; lia). by eexists.
Qed.

(** [GetProofData] on a prover as [NewProver] returns it, before
    [GetProofRandomData]: [randomVals] is the nil slice, so the first
    iteration reads past its end; with no base there is no iteration and the
    empty response is returned. *)
Lemma Prover_GetProofData_fresh (g : Grp) (secrets bases : list bigInt) (y challenge : bigInt)
    (p : schnorr.Prover) :
  schnorr.NewProver g secrets bases y = Val p ->
  (bases = [] -> schnorr.GetProofData p challenge = Ret []) /\
  (bases <> [] -> exists e, schnorr.GetProofData p challenge = Panic e).
Proof.
  unfold schnorr.NewProver. destruct (decide _) as [| Hlen]; [done |].
  intros [= <-]. unfold schnorr.GetProofData. cbn [schnorr.p_bases]. split.
  - by intros ->.
  - intros Hne. destruct bases as [| b bases]; [done |].
    destruct secrets as [| x secrets]; [by destruct Hlen |].
    cbn [length]. rewrite for_range_seq_S.
    edestruct (Prover_GetProofData_body_no_masking) as [e ->]; [| | by exists e];
      [reflexivity | reflexivity].
Qed.

(** [Verify] before the challenge or the proof random data is set: a nil
    field reaches the group arithmetic, unless the loop has panicked before. *)
Lemma Verifier_Verify_unset (v : schnorr.Verifier) (proofData : list bigInt) :
  schnorr.v_challenge v = None \/ schnorr.v_y v = None \/
  schnorr.v_proofRandomData v = None ->
  exists e, schnorr.Verify v proofData = Panic e.
Proof.
  intros Hnil. unfold schnorr.Verify.
  destruct (for_range _ _ _) as [left | e]; [rewrite bind_Ret | by eexists].
  destruct (schnorr.v_y v) as [y |]; [| by eexists].
  destruct (schnorr.v_challenge v) as [c |]; [| by eexists].
  destruct (schnorr.v_proofRandomData v) as [t |]; [| by eexists].
  by destruct Hnil as [? | [? | ?]].
Qed.

Lemma Prover_GetProofRandomData_body_inv (p : schnorr.Prover) (k : nat)
    (t t' : Z) (cur cur' : list bigInt) (s s' : R) :
  schnorr.GetProofRandomData_body p k (t, cur, s) = Ret (t', cur', s') ->
  exists r, cur' = <[k := Some r]> cur /\ (k < length cur)%nat.
Proof.
  unfold schnorr.GetProofRandomData_body.
  destruct (GetRandomInt _ s) as [[r s1] | e]; [rewrite bind_Ret | done].
  unfold assign. destruct (decide (k < length cur)%nat) as [Hk | Hk]; [| done].
  rewrite bind_Ret. destruct (index _ k) as [b |]; [rewrite bind_Ret | done].
  destruct b as [b |]; [| done]. cbn [deref]. rewrite bind_Ret.
  intros [= <- <- <-]. eauto.
Qed.

(** The loop of [GetProofRandomData], when it returns, has stored a masking
    at every index from [k] on. *)
Lemma Prover_GetProofRandomData_loop (p : schnorr.Prover) :
  forall m k t cur s t' cur' s',
    for_range (seq k m) (schnorr.GetProofRandomData_body p) (t, cur, s)
    = Ret (t', cur', s') ->
    length cur' = length cur /\
    (forall j, (j < k)%nat -> cur' !! j = cur !! j) /\
    (forall i, (k <= i < k + m)%nat -> exists r, cur' !! i = Some (Some r)).
Proof.
  induction m as [| m IH]; intros k t cur s t' cur' s' Hloop.
  - injection Hloop as <- <- <-. split; [done | split; [done |]]. intros i Hi. lia.
  - rewrite for_range_seq_S in Hloop.
    destruct (schnorr.GetProofRandomData_body p k (t, cur, s)) as [[[t1 cur1] s1] | e] eqn:Eb;
      [| done].
    rewrite bind_Ret in Hloop.
    destruct (Prover_GetProofRandomData_body_inv _ _ _ _ _ _ _ _ Eb) as (r & -> & Hk).
    destruct (IH _ _ _ _ _ _ _ Hloop) as (Hl & Hlow & Hset).
    rewrite length_insert in Hl. split; [done | split].
    + intros j Hj. rewrite Hlow by lia. by rewrite list_lookup_insert_ne by lia.
    + intros i Hi. destruct (decide (i = k)) as [-> | Hne].
      * exists r. rewrite Hlow by lia. by apply list_lookup_insert_eq.
      * apply Hset. lia.
Qed.

Lemma Prover_GetProofData_body_step (p : schnorr.Prover) (c x r : Z) (k : nat)
    (cur : list bigInt) :
  schnorr.p_secrets p !! k = Some (Some x) ->
  schnorr.p_randomVals p !! k = Some (Some r) ->
  (k < length cur)%nat ->
  schnorr.GetProofData_body p (Some c) k cur
  = Ret (<[k := Some (Group_Add (schnorr.p_Group p)
                        (Group_Mul (schnorr.p_Group p) c x) r)]> cur).
Proof.
  intros Ex Er Hk. unfold schnorr.GetProofData_body.
  rewrite (index_lookup _ _ _ Ex), bind_Ret. cbn [deref]. rewrite !bind_Ret.
  rewrite (index_lookup _ _ _ Er), !bind_Ret. by apply assign_lt.
Qed.

(** The loop of [GetProofData] with a secret and a masking at every index:
    [z_i = r_i + challenge * x_i] in the exponent arithmetic of the group. *)
Lemma Prover_GetProofData_loop (p : schnorr.Prover) (c : Z) (n : nat) :
  (forall i, (i < n)%nat ->
     exists x r, schnorr.p_secrets p !! i = Some (Some x) /\
                 schnorr.p_randomVals p !! i = Some (Some r)) ->
  forall m k cur, (k + m)%nat = n -> length cur = n ->
    exists cur',
      for_range (seq k m) (schnorr.GetProofData_body p (Some c)) cur = Ret cur' /\
      length cur' = n /\
      (forall j, (j < k)%nat -> cur' !! j = cur !! j) /\
      (forall i x r, (k <= i < n)%nat ->
         schnorr.p_secrets p !! i = Some (Some x) ->
         schnorr.p_randomVals p !! i = Some (Some r) ->
         cur' !! i = Some (Some (Group_Add (schnorr.p_Group p)
                                   (Group_Mul (schnorr.p_Group p) c x) r))).
Proof.
  intros Hset. induction m as [| m IH]; intros k cur Hk Hcur.
  - exists cur. split; [done | split; [done | split; [done |]]].
    intros i x r Hi. lia.
  - destruct (Hset k) as (x & r & Ex & Er); [lia |].
    destruct (IH (S k) (<[k := Some (Group_Add (schnorr.p_Group p)
                                       (Group_Mul (schnorr.p_Group p) c x) r)]> cur))
      as (cur' & Hloop & Hl & Hlow & Hout); [lia | by rewrite length_insert |].
    exists cur'. split; [| split; [done | split]].
    + by rewrite for_range_seq_S, (Prover_GetProofData_body_step p c x r), bind_Ret by (done || lia).
    + intros j Hj. rewrite Hlow by lia. by rewrite list_lookup_insert_ne by lia.
    + intros i x' r' Hi Ex' Er'. destruct (decide (i = k)) as [-> | Hne].
      * rewrite Ex in Ex'. injection Ex' as <-. rewrite Er in Er'. injection Er' as <-.
        rewrite Hlow by lia. apply list_lookup_insert_eq. lia.
      * apply Hout; [lia | done | done].
Qed.

(** After [GetProofRandomData], [GetProofData] answers every challenge,
    however often it is called, from the maskings the prover retains. *)
Lemma Prover_GetProofData_retained (p p' : schnorr.Prover) (xs : list Z)
    (s s' : R) (t : bigInt) :
  schnorr.p_secrets p = Some <$> xs ->
  length xs = length (schnorr.p_bases p) ->
  schnorr.GetProofRandomData p s = Ret (t, p', s') ->
  forall c : Z,
    exists zs,
      schnorr.GetProofData p' (Some c) = Ret zs /\
      length zs = length xs /\
      forall i x, xs !! i = Some x ->
        exists r, schnorr.p_randomVals p' !! i = Some (Some r) /\
          zs !! i = Some (Some (Group_Add (schnorr.p_Group p)
                                  (Group_Mul (schnorr.p_Group p) c x) r)).
Proof.
  intros Hx Hlen Hrun c. unfold schnorr.GetProofRandomData in Hrun.
  destruct (for_range _ _ _) as [[[t1 rvs] s1] | e] eqn:Eloop; [| done].
  rewrite bind_Ret in Hrun. injection Hrun as <- <- <-.
  destruct (Prover_GetProofRandomData_loop _ _ _ _ _ _ _ _ _ Eloop) as (Hl & _ & Hset).
  rewrite length_replicate in Hl.
  unfold schnorr.GetProofData. cbn [schnorr.p_bases].
  edestruct (Prover_GetProofData_loop
               {| schnorr.p_Group := schnorr.p_Group p; schnorr.p_secrets := schnorr.p_secrets p;
                  schnorr.p_bases := schnorr.p_bases p; schnorr.p_randomVals := rvs;
                  schnorr.p_y := schnorr.p_y p |} c (length (schnorr.p_bases p)))
    with (m := length (schnorr.p_bases p)) (k := 0%nat)
    as (zs & Hloop & Hzl & _ & Hout).
  - intros i Hi. cbn [schnorr.p_secrets schnorr.p_randomVals].
    destruct (lookup_lt_is_Some_2 xs i) as [x Ex]; [lia |].
    destruct (Hset i) as [r Er]; [lia |].
    exists x, r. by rewrite Hx, list_lookup_fmap, Ex.
  - lia.
  - apply length_replicate.
  - exists zs. split; [exact Hloop |]. split; [lia |].
    intros i x Ex. destruct (Hset i) as [r Er].
    { apply lookup_lt_Some in Ex. lia. }
    exists r. split; [done |]. cbn [schnorr.p_Group] in Hout. apply Hout.
    + apply lookup_lt_Some in Ex. lia.
    + cbn [schnorr.p_secrets]. by rewrite Hx, list_lookup_fmap, Ex.
    + done.
Qed.

End schnorr_properties.

(** ** The multiplication proof *)

Section multiplication_properties.
Context {QR Primes R : Type} {qr : QRSpecialRSA QR Primes} {sampler : Sampler R}.

Lemma ComputeCommit_returns (g : QR) (G H' a r : Z) :
  df.ComputeCommit g G H' (Some a) (Some r)
  = Ret (QR_Mul g (QR_Exp g G a) (QR_Exp g H' r)).
Proof. reflexivity. Qed.

Lemma rhs_returns (g : QR) (c challenge d : Z) :
  df.rhs g (Some c) (Some challenge) (Some d)
  = Ret (QR_Mul g d (QR_Exp g c challenge)).
Proof. reflexivity. Qed.

Lemma mulAdd_returns (a b c : Z) :
  df.mulAdd (Some a) (Some b) (Some c) = Ret (c + a * b).
Proof. unfold df.mulAdd. simpl. f_equal. lia. Qed.

(** C1.  For a verifier whose three receivers hold the commitments [c1], [c2],
    [c3] and whose proof random data [d1], [d2], [d3] and challenge are set,
    [Verify] returns a boolean for every response (u1, u, v1, v2, v3), and the
    boolean is true exactly when the three equations hold:
    [G^u1 * H^v1 = d1 * c1^challenge], [G^u * H^v2 = d2 * c2^challenge] and
    [c1^u * H^v3 = d3 * c3^challenge], where [H^v3] for a negative [v3] is
    [H^|v3|] inverted.  As in the code, [G] and [H] of the first two equations
    and the group of every right-hand side are those of the first receiver,
    and the left-hand side of the third equation is computed with the group
    and the [H] of the third receiver. *)
Theorem MultiplicationVerifier_Verify_accepts_iff
    (receiver1 receiver2 receiver3 : df.Receiver) (challengeSpaceSize : Z)
    (c1 c2 c3 d1 d2 d3 challenge u1 u v1 v2 v3 : Z) :
  let v := df.MultiplicationVerifier_SetChallenge
             (df.MultiplicationVerifier_SetProofRandomData
                (df.NewMultiplicationVerifier
                   (df.SetCommitment receiver1 (Some c1))
                   (df.SetCommitment receiver2 (Some c2))
                   (df.SetCommitment receiver3 (Some c3))
                   challengeSpaceSize)
                (Some d1) (Some d2) (Some d3))
             (Some challenge) in
  let g := df.r_QRSpecialRSA receiver1 in
  let G := df.r_G receiver1 in
  let H' := df.r_H receiver1 in
  let g3 := df.r_QRSpecialRSA receiver3 in
  let H3 := df.r_H receiver3 in
  exists b : bool,
    df.MultiplicationVerifier_Verify v (Some u1) (Some u) (Some v1) (Some v2) (Some v3)
    = Ret b /\
    (b = true <->
     QR_Mul g (QR_Exp g G u1) (QR_Exp g H' v1) = QR_Mul g d1 (QR_Exp g c1 challenge) /\
     QR_Mul g (QR_Exp g G u) (QR_Exp g H' v2) = QR_Mul g d2 (QR_Exp g c2 challenge) /\
     QR_Mul g3 (QR_Exp g3 c1 u) (df.signedExp g3 H3 v3) = QR_Mul g d3 (QR_Exp g c3 challenge)).
Proof.
  intros v g G H' g3 H3. eexists. split.
  - unfold df.MultiplicationVerifier_Verify, df.Receiver_ComputeCommit. simpl.
    rewrite Cmp_abs, !Cmp_eqb. reflexivity.
  - unfold df.signedExp. subst g G H' g3 H3.
    rewrite 2 Bool.andb_true_iff, 3 Z.eqb_eq.
    destruct (v3 <? 0); simpl; tauto.
Qed.

(** [GetProofData] with the witnesses and the maskings in place. *)
Lemma MultiplicationProver_GetProofData_returns (p : @df.MultiplicationProver QR)
    (challenge x1 r1 x2 r2 r3 y1 y s1 s2 s3 : Z) :
  df.GetDecommitMsg (df.mp_committer1 p) = (Some x1, Some r1) ->
  df.GetDecommitMsg (df.mp_committer2 p) = (Some x2, Some r2) ->
  (df.GetDecommitMsg (df.mp_committer3 p)).2 = Some r3 ->
  df.mp_y1 p = Some y1 -> df.mp_y p = Some y ->
  df.mp_s1 p = Some s1 -> df.mp_s2 p = Some s2 -> df.mp_s3 p = Some s3 ->
  df.MultiplicationProver_GetProofData p (Some challenge)
  = Ret (Some (y1 + challenge * x1), Some (y + challenge * x2),
         Some (s1 + challenge * r1), Some (s2 + challenge * r2),
         Some (s3 + challenge * (r3 - x2 * r1))).
Proof.
  intros E1 E2 E3 Ey1 Ey Es1 Es2 Es3.
  unfold df.MultiplicationProver_GetProofData.
  rewrite E1, E2. destruct (df.GetDecommitMsg (df.mp_committer3 p)) as [a3 r3'].
  simpl in E3. subst r3'.
  rewrite Ey1, Ey, Es1, Es2, Es3, !mulAdd_returns. cbn -[df.mulAdd].
  by rewrite mulAdd_returns.
Qed.

(** C5.  With the witnesses (x1,r1), (x2,r2) and the randomness r3 of the three
    committers and the retained maskings y1, y, s1, s2, s3, [GetProofData]
    returns, for every challenge, u1 = y1 + challenge*x1, u = y + challenge*x2,
    v1 = s1 + challenge*r1, v2 = s2 + challenge*r2 and
    v3 = s3 + challenge*(r3 - x2*r1), integers of [Z] with no reduction. *)
Theorem MultiplicationProver_GetProofData_formulas (p : @df.MultiplicationProver QR)
    (challenge x1 r1 x2 r2 r3 y1 y s1 s2 s3 : Z) :
  df.GetDecommitMsg (df.mp_committer1 p) = (Some x1, Some r1) ->
  df.GetDecommitMsg (df.mp_committer2 p) = (Some x2, Some r2) ->
  (df.GetDecommitMsg (df.mp_committer3 p)).2 = Some r3 ->
  df.mp_y1 p = Some y1 -> df.mp_y p = Some y ->
  df.mp_s1 p = Some s1 -> df.mp_s2 p = Some s2 -> df.mp_s3 p = Some s3 ->
  df.MultiplicationProver_GetProofData p (Some challenge)
  = Ret (Some (y1 + challenge * x1), Some (y + challenge * x2),
         Some (s1 + challenge * r1), Some (s2 + challenge * r2),
         Some (s3 + challenge * (r3 - x2 * r1))).
Proof. apply MultiplicationProver_GetProofData_returns. Qed.

(** Calls out of order.  Neither object has a field for the state of the
    protocol: what a call does depends on the fields it reads alone. *)

(** [GetProofData] before [GetProofRandomData]: the maskings are nil. *)
Lemma MultiplicationProver_GetProofData_fresh (committer1 committer2 committer3 : @df.Committer QR)
    (challengeSpaceSize : Z) (challenge : bigInt) :
  df.MultiplicationProver_GetProofData
    (df.NewMultiplicationProver committer1 committer2 committer3 challengeSpaceSize)
    challenge
  = Panic NilDereference.
Proof.
  unfold df.MultiplicationProver_GetProofData, df.NewMultiplicationProver, df.GetDecommitMsg,
    df.mulAdd.
  cbn [df.mp_committer1 df.mp_committer2 df.mp_committer3 df.mp_y1].
  by destruct challenge, (df.c_committedValue committer1).
Qed.

Lemma ComputeCommit_cases (g : QR) (G H' : Z) (a r : bigInt) :
  (exists z, df.ComputeCommit g G H' a r = Ret z) \/
  df.ComputeCommit g G H' a r = Panic NilDereference.
Proof. destruct a, r; simpl; eauto. Qed.

Lemma rhs_cases (g : QR) (c challenge d : bigInt) :
  (exists z, df.rhs g c challenge d = Ret z /\ is_Some challenge /\ is_Some d) \/
  df.rhs g c challenge d = Panic NilDereference.
Proof. destruct c, challenge, d; simpl; eauto. Qed.

(** [Verify] before the challenge or the proof random data is set: a nil
    field reaches the group arithmetic. *)
Lemma MultiplicationVerifier_Verify_unset (v : @df.MultiplicationVerifier QR)
    (u1 u v1 v2 v3 : bigInt) :
  df.mv_challenge v = None \/ df.mv_d1 v = None \/ df.mv_d2 v = None \/ df.mv_d3 v = None ->
  df.MultiplicationVerifier_Verify v u1 u v1 v2 v3 = Panic NilDereference.
Proof.
  intros Hnil. unfold df.MultiplicationVerifier_Verify, df.Receiver_ComputeCommit.
  destruct (ComputeCommit_cases (df.r_QRSpecialRSA (df.mv_receiver1 v))
              (df.r_G (df.mv_receiver1 v)) (df.r_H (df.mv_receiver1 v)) u1 v1)
    as [[l1 ->] | ->]; [rewrite bind_Ret | done].
  destruct (rhs_cases (df.r_QRSpecialRSA (df.mv_receiver1 v))
              (df.r_Commitment (df.mv_receiver1 v)) (df.mv_challenge v) (df.mv_d1 v))
    as [(r1 & -> & [ch Hch] & [d1 Hd1]) | ->]; [rewrite bind_Ret | done].
  destruct (ComputeCommit_cases (df.r_QRSpecialRSA (df.mv_receiver1 v))
              (df.r_G (df.mv_receiver1 v)) (df.r_H (df.mv_receiver1 v)) u v2)
    as [[l2 ->] | ->]; [rewrite bind_Ret | done].
  destruct (rhs_cases (df.r_QRSpecialRSA (df.mv_receiver1 v))
              (df.r_Commitment (df.mv_receiver2 v)) (df.mv_challenge v) (df.mv_d2 v))
    as [(r2 & -> & _ & [d2 Hd2]) | ->]; [rewrite bind_Ret | done].
  destruct (df.r_Commitment (df.mv_receiver1 v)) as [c1 |]; [| done].
  destruct u as [u |]; [| done]. destruct v3 as [v3 |]; [| done].
  cbn [deref]. rewrite !bind_Ret.
  destruct (rhs_cases (df.r_QRSpecialRSA (df.mv_receiver1 v))
              (df.r_Commitment (df.mv_receiver3 v)) (df.mv_challenge v) (df.mv_d3 v))
    as [(r3 & -> & _ & [d3 Hd3]) | ->]; [| done].
  rewrite Hch, Hd1, Hd2, Hd3 in Hnil. by destruct Hnil as [? | [? | [? | ?]]].
Qed.

(** [GetProofRandomData] leaves the five maskings in the prover. *)
Lemma MultiplicationProver_GetProofRandomData_maskings (p p' : @df.MultiplicationProver QR)
    (s s' : R) (d1 d2 d3 : bigInt) :
  df.MultiplicationProver_GetProofRandomData p s = Ret (d1, d2, d3, p', s') ->
  df.mp_committer1 p' = df.mp_committer1 p /\
  df.mp_committer2 p' = df.mp_committer2 p /\
  df.mp_committer3 p' = df.mp_committer3 p /\
  exists y1 y s1 s2 s3,
    df.mp_y1 p' = Some y1 /\ df.mp_y p' = Some y /\
    df.mp_s1 p' = Some s1 /\ df.mp_s2 p' = Some s2 /\ df.mp_s3 p' = Some s3.
Proof.
  unfold df.MultiplicationProver_GetProofRandomData.
  destruct (GetRandomInt _ s) as [[y1 t1] | e]; [rewrite bind_Ret | done].
  destruct (GetRandomInt _ t1) as [[y t2] | e]; [rewrite bind_Ret | done].
  destruct (GetRandomInt _ t2) as [[s1 t3] | e]; [rewrite bind_Ret | done].
  destruct (GetRandomInt _ t3) as [[s2 t4] | e]; [rewrite bind_Ret | done].
  destruct (GetRandomInt _ t4) as [[s3 t5] | e]; [rewrite bind_Ret | done].
  destruct (df.Committer_ComputeCommit _ (Some y1) _) as [e1 | e]; [rewrite bind_Ret | done].
  destruct (df.Committer_ComputeCommit _ (Some y) _) as [e2 | e]; [rewrite bind_Ret | done].
  destruct (df.GetDecommitMsg (df.mp_committer1 p)) as [a1 r1].
  destruct (df.Committer_ComputeCommit _ a1 r1) as [c1 | e]; [rewrite bind_Ret | done].
  intros [= <- <- <- <- <-]. cbn. repeat split. by exists y1, y, s1, s2, s3.
Qed.

End multiplication_properties.

(** ** The positive-number proof *)

Section positive_properties.
Context {QR Primes R : Type} {qr : QRSpecialRSA QR Primes} {sampler : Sampler R}.
Context {SP SV : Type} {square : @df.SquareProof QR Primes R SP SV}.

(** C10.  [SetProofRandomData] returns a non-nil error exactly when the slice
    does not have 8 elements, and whenever it returns a non-nil error the
    verifier, with every square sub-verifier in it, is unchanged. *)
Theorem PositiveVerifier_SetProofRandomData_error_iff
    (v : df.PositiveVerifier) (proofRandomData : list bigInt) :
  ((exists msg v', df.PositiveVerifier_SetProofRandomData v proofRandomData
                   = Ret (Some msg, v'))
   <-> length proofRandomData ≠ 8%nat) /\
  (forall msg v', df.PositiveVerifier_SetProofRandomData v proofRandomData
                  = Ret (Some msg, v') ->
     v' = v /\ df.pv_squareVerifiers v' = df.pv_squareVerifiers v).
Proof.
  unfold df.PositiveVerifier_SetProofRandomData.
  destruct (decide (length proofRandomData ≠ 8%nat)) as [Hne | Heq].
  - split.
    + split; [done | eauto].
    + intros msg v' E. by inversion E.
  - destruct (for_range _ _ _) as [svs | e]; simpl.
    + split.
      * split; [| done]. by intros (msg & v' & E).
      * by intros msg v' E.
    + split.
      * split; [| done]. by intros (msg & v' & E).
      * by intros msg v' E.
Qed.

Lemma PositiveProver_GetProofRandomData_body_step (k : nat) (prd : list bigInt)
    (provers : list (option SP)) (s s1 : R) (sp sp' : SP) (d1 d2 : bigInt) :
  provers !! k = Some (Some sp) ->
  df.SquareProver_GetProofRandomData sp s = Ret (d1, d2, sp', s1) ->
  (2 * k + 1 < length prd)%nat ->
  df.PositiveProver_GetProofRandomData_body k (prd, provers, s)
  = Ret (<[(2 * k + 1)%nat := d2]> (<[(2 * k)%nat := d1]> prd),
         <[k := Some sp']> provers, s1).
Proof.
  intros Ek Esp Hlen. unfold df.PositiveProver_GetProofRandomData_body.
  rewrite (index_lookup _ _ _ Ek), bind_Ret. unfold deref at 1. rewrite bind_Ret, Esp, bind_Ret.
  rewrite assign_lt, bind_Ret by lia.
  rewrite assign_lt, bind_Ret by (rewrite length_insert; lia).
  reflexivity.
Qed.

(** The loop of the prover's [GetProofRandomData], from sub-prover
    [length done] on: it returns when the sub-provers do, writes the two
    outputs of sub-prover [i] at [2*i] and [2*i+1], and leaves the positions
    below untouched. *)
Lemma PositiveProver_GetProofRandomData_loop (todo : list SP) :
  forall (done : list SP) (prd : list bigInt) (s : R) records todo' s',
    df.subproofs_GetProofRandomData todo s = Ret (records, todo', s') ->
    (2 * (length done + length todo) <= length prd)%nat ->
    exists prd',
      for_range (seq (length done) (length todo)) df.PositiveProver_GetProofRandomData_body
        (prd, Some <$> (done ++ todo), s)
      = Ret (prd', Some <$> (done ++ todo'), s') /\
      length prd' = length prd /\
      (forall j, (j < 2 * length done)%nat -> prd' !! j = prd !! j) /\
      (forall i d1 d2, records !! i = Some (d1, d2) ->
         prd' !! (2 * (length done + i))%nat = Some d1 /\
         prd' !! (2 * (length done + i) + 1)%nat = Some d2).
Proof.
  induction todo as [| sp rest IH]; intros done prd s records todo' s' Hrun Hlen.
  - simpl in Hrun. injection Hrun as <- <- <-. exists prd.
    repeat split; done.
  - simpl in Hrun.
    destruct (df.SquareProver_GetProofRandomData sp s) as [[[[d1 d2] sp'] s1] | e] eqn:Esp;
      [| done]. simpl in Hrun.
    destruct (df.subproofs_GetProofRandomData rest s1) as [[[recs rest'] s2] | e] eqn:Erest;
      [| done]. simpl in Hrun. injection Hrun as <- <- <-.
    cbn [length] in Hlen.
    destruct (IH (done ++ [sp']) (<[(2 * length done + 1)%nat := d2]>
                                   (<[(2 * length done)%nat := d1]> prd)) s1
                 recs rest' s2 Erest) as (prd' & Hloop & Hl & Hlow & Hrec).
    { rewrite !length_insert, length_app. cbn [length]. lia. }
    exists prd'. rewrite !length_insert in Hl.
    rewrite length_app in Hloop, Hlow, Hrec. cbn [length] in Hloop, Hlow, Hrec.
    rewrite <- !(assoc_L (++)) in Hloop.
    split; [| split; [done | split]].
    + cbn [length]. rewrite for_range_seq_S.
      rewrite (PositiveProver_GetProofRandomData_body_step _ _ _ _ s1 sp sp' d1 d2);
        [| by rewrite list_lookup_fmap, list_lookup_middle | done | lia].
      rewrite bind_Ret, <- list_fmap_insert, insert_app_r_alt, Nat.sub_diag by lia.
      replace (S (length done)) with (length done + 1)%nat by lia.
      exact Hloop.
    + intros j Hj. rewrite Hlow by lia.
      rewrite !list_lookup_insert_ne by lia. done.
    + intros [| i] e1 e2 Hi.
      * injection Hi as <- <-. rewrite Nat.add_0_r.
        rewrite !Hlow by lia. split.
        -- rewrite list_lookup_insert_ne by lia.
           apply list_lookup_insert_eq. lia.
        -- apply list_lookup_insert_eq. rewrite length_insert. lia.
      * destruct (Hrec i e1 e2 Hi) as [E1 E2].
        replace (length done + S i)%nat with (length done + 1 + i)%nat by lia.
        done.
Qed.

Lemma PositiveProver_GetProofData_body_step (p : df.PositiveProver)
    (challenges pd : list bigInt) (k : nat) (sp : SP) (c s1 s21 s22 : bigInt) :
  df.pp_squareProvers p !! k = Some (Some sp) ->
  challenges !! k = Some c ->
  df.SquareProver_GetProofData sp c = Ret (s1, s21, s22) ->
  (3 * k + 2 < length pd)%nat ->
  df.PositiveProver_GetProofData_body p challenges k pd
  = Ret (<[(3 * k + 2)%nat := s22]> (<[(3 * k + 1)%nat := s21]> (<[(3 * k)%nat := s1]> pd))).
Proof.
  intros Ek Ec Esp Hlen. unfold df.PositiveProver_GetProofData_body.
  rewrite (index_lookup _ _ _ Ek), bind_Ret, (index_lookup _ _ _ Ec), bind_Ret.
  unfold deref at 1. rewrite bind_Ret, Esp, bind_Ret.
  rewrite assign_lt, bind_Ret by lia.
  rewrite assign_lt, bind_Ret by (rewrite length_insert; lia).
  rewrite assign_lt by (rewrite !length_insert; lia).
  reflexivity.
Qed.

(** The loop of the prover's [GetProofData] from sub-prover [k] on: the three
    outputs of sub-prover [i] go to [3*i], [3*i+1] and [3*i+2]. *)
Lemma PositiveProver_GetProofData_loop (p : df.PositiveProver)
    (challenges : list bigInt) (sps : list SP) :
  df.pp_squareProvers p = Some <$> sps ->
  (forall i sp, sps !! i = Some sp ->
     exists c r, challenges !! i = Some c /\ df.SquareProver_GetProofData sp c = Ret r) ->
  forall n k pd,
    (k + n)%nat = length sps -> (3 * length sps <= length pd)%nat ->
    exists pd',
      for_range (seq k n) (df.PositiveProver_GetProofData_body p challenges) pd = Ret pd' /\
      length pd' = length pd /\
      (forall j, (j < 3 * k)%nat -> pd' !! j = pd !! j) /\
      (forall i sp c s1 s21 s22, (k <= i)%nat ->
         sps !! i = Some sp -> challenges !! i = Some c ->
         df.SquareProver_GetProofData sp c = Ret (s1, s21, s22) ->
         pd' !! (3 * i)%nat = Some s1 /\ pd' !! (3 * i + 1)%nat = Some s21 /\
         pd' !! (3 * i + 2)%nat = Some s22).
Proof.
  intros Hp Hret. induction n as [| n IH]; intros k pd Hk Hlen.
  - exists pd. rewrite for_range_nil. split; [done | split; [done | split; [done |]]].
    intros i sp c s1 s21 s22 Hi Esp. apply lookup_lt_Some in Esp. lia.
  - destruct (lookup_lt_is_Some_2 sps k) as [sp Esp]; [lia |].
    destruct (Hret k sp Esp) as (c & [[s1 s21] s22] & Ec & Ecall).
    destruct (IH (S k) (<[(3 * k + 2)%nat := s22]>
                         (<[(3 * k + 1)%nat := s21]> (<[(3 * k)%nat := s1]> pd))))
      as (pd' & Hloop & Hl & Hlow & Hout); [lia | by rewrite !length_insert |].
    exists pd'. rewrite !length_insert in Hl.
    split; [| split; [done | split]].
    + rewrite for_range_seq_S.
      rewrite (PositiveProver_GetProofData_body_step p _ _ k sp c s1 s21 s22);
        [| by rewrite Hp, list_lookup_fmap, Esp | done | done | lia].
      by rewrite bind_Ret.
    + intros j Hj. rewrite Hlow by lia. by rewrite !list_lookup_insert_ne by lia.
    + intros i sp' c' t1 t21 t22 Hi Esp' Ec' Ecall'.
      destruct (decide (i = k)) as [-> | Hne].
      * rewrite Esp in Esp'. injection Esp' as <-.
        rewrite Ec in Ec'. injection Ec' as <-.
        rewrite Ecall in Ecall'. injection Ecall' as <- <- <-.
        rewrite !Hlow by lia. repeat split.
        -- rewrite !list_lookup_insert_ne by lia. apply list_lookup_insert_eq. lia.
        -- rewrite list_lookup_insert_ne by lia.
           apply list_lookup_insert_eq. rewrite length_insert. lia.
        -- apply list_lookup_insert_eq. rewrite !length_insert. lia.
      * apply (Hout i sp' c'); [lia | done | done | done].
Qed.

Lemma PositiveVerifier_SetProofRandomData_body_step (prd : list bigInt) (k : nat)
    (svs : list (option SV)) (sv : SV) (d1 d2 : bigInt) :
  svs !! k = Some (Some sv) ->
  prd !! (2 * k)%nat = Some d1 -> prd !! (2 * k + 1)%nat = Some d2 ->
  df.PositiveVerifier_SetProofRandomData_body prd k svs
  = Ret (<[k := Some (df.SquareVerifier_SetProofRandomData sv d1 d2)]> svs).
Proof.
  intros Ek E1 E2. unfold df.PositiveVerifier_SetProofRandomData_body.
  by rewrite (index_lookup _ _ _ Ek), bind_Ret, (index_lookup _ _ _ E1), bind_Ret,
    (index_lookup _ _ _ E2), bind_Ret.
Qed.

(** The loop of the verifier's [SetProofRandomData] from sub-verifier [k] on:
    sub-verifier [i] is given the elements at [2*i] and [2*i+1]. *)
Lemma PositiveVerifier_SetProofRandomData_loop (prd : list bigInt) :
  forall n k (svs : list (option SV)),
    (k + n)%nat = length svs -> Forall is_Some svs ->
    (2 * length svs <= length prd)%nat ->
    exists svs',
      for_range (seq k n) (df.PositiveVerifier_SetProofRandomData_body prd) svs = Ret svs' /\
      length svs' = length svs /\
      (forall j, (j < k)%nat -> svs' !! j = svs !! j) /\
      (forall i sv, (k <= i)%nat -> svs !! i = Some (Some sv) ->
         exists d1 d2, prd !! (2 * i)%nat = Some d1 /\ prd !! (2 * i + 1)%nat = Some d2 /\
           svs' !! i = Some (Some (df.SquareVerifier_SetProofRandomData sv d1 d2))).
Proof.
  induction n as [| n IH]; intros k svs Hk Hsome Hlen.
  - exists svs. rewrite for_range_nil. split; [done | split; [done | split; [done |]]].
    intros i sv Hi Esv. apply lookup_lt_Some in Esv. lia.
  - destruct (lookup_lt_is_Some_2 svs k) as [x Ex]; [lia |].
    destruct (Forall_lookup_1 _ _ _ _ Hsome Ex) as [sv ->].
    destruct (lookup_lt_is_Some_2 prd (2 * k)) as [d1 E1]; [lia |].
    destruct (lookup_lt_is_Some_2 prd (2 * k + 1)) as [d2 E2]; [lia |].
    destruct (IH (S k) (<[k := Some (df.SquareVerifier_SetProofRandomData sv d1 d2)]> svs))
      as (svs' & Hloop & Hl & Hlow & Hout).
    { rewrite length_insert. lia. }
    { apply Forall_insert; [done | by eexists]. }
    { by rewrite length_insert. }
    exists svs'. rewrite length_insert in Hl.
    split; [| split; [done | split]].
    + rewrite for_range_seq_S.
      by rewrite (PositiveVerifier_SetProofRandomData_body_step prd k svs sv d1 d2), bind_Ret.
    + intros j Hj. rewrite Hlow by lia. by rewrite list_lookup_insert_ne by lia.
    + intros i sv' Hi Esv'. destruct (decide (i = k)) as [-> | Hne].
      * rewrite Ex in Esv'. injection Esv' as <-. exists d1, d2.
        repeat split; try done. rewrite Hlow by lia.
        apply list_lookup_insert_eq. lia.
      * apply Hout; [lia |]. by rewrite list_lookup_insert_ne by lia.
Qed.

Lemma PositiveVerifier_Verify_body_false (v : df.PositiveVerifier) (pd : list bigInt)
    (k : nat) (calls : list nat) :
  (k < length (df.pv_squareVerifiers v))%nat ->
  df.PositiveVerifier_Verify_body v pd k (false, calls) = Ret (false, calls).
Proof.
  intros Hk. destruct (lookup_lt_is_Some_2 _ _ Hk) as [x Ex].
  unfold df.PositiveVerifier_Verify_body. by rewrite (index_lookup _ _ _ Ex).
Qed.

(** Once [verified] is false it stays false and no sub-verifier is called. *)
Lemma PositiveVerifier_Verify_loop_false (v : df.PositiveVerifier) (pd : list bigInt)
    (calls : list nat) :
  forall n k, (k + n <= length (df.pv_squareVerifiers v))%nat ->
    for_range (seq k n) (df.PositiveVerifier_Verify_body v pd) (false, calls)
    = Ret (false, calls).
Proof.
  induction n as [| n IH]; intros k Hk; [done |].
  rewrite for_range_seq_S, PositiveVerifier_Verify_body_false, bind_Ret by lia.
  apply IH. lia.
Qed.

Lemma PositiveVerifier_Verify_body_true (v : df.PositiveVerifier) (pd : list bigInt)
    (k : nat) (calls : list nat) (r : bool * list nat) :
  df.PositiveVerifier_Verify_body v pd k (true, calls) = Ret r ->
  r.2 = calls ++ [k] /\ (r.1 = true <-> df.accepts_at v pd k).
Proof.
  unfold df.PositiveVerifier_Verify_body, df.accepts_at, index.
  destruct (df.pv_squareVerifiers v !! k) as [x |]; [| done]. rewrite bind_Ret.
  destruct (pd !! (3 * k)%nat) as [s1 |]; [| done]. rewrite bind_Ret.
  destruct (pd !! (3 * k + 1)%nat) as [s21 |]; [| done]. rewrite bind_Ret.
  destruct (pd !! (3 * k + 2)%nat) as [s22 |]; [| done]. rewrite bind_Ret.
  destruct x as [sv |]; [| done]. unfold deref. rewrite bind_Ret.
  destruct (df.SquareVerifier_Verify sv s1 s21 s22) as [ok | e] eqn:Eok; [| done].
  rewrite bind_Ret. intros [= <-]. split; [done |]. simpl. split.
  - intros ->. by exists sv, s1, s21, s22.
  - intros (sv' & t1 & t21 & t22 & [= <-] & [= <-] & [= <-] & [= <-] & Et).
    rewrite Eok in Et. by injection Et.
Qed.

(** The loop of [Verify] ends with [verified] true exactly when every
    sub-verifier from [k] on accepts its three elements. *)
Lemma PositiveVerifier_Verify_loop_true (v : df.PositiveVerifier) (pd : list bigInt) :
  forall n k calls, (k + n)%nat = length (df.pv_squareVerifiers v) ->
    (exists calls', for_range (seq k n) (df.PositiveVerifier_Verify_body v pd) (true, calls)
                    = Ret (true, calls'))
    <-> (forall i, (k <= i < k + n)%nat -> df.accepts_at v pd i).
Proof.
  induction n as [| n IH]; intros k calls Hk.
  - rewrite for_range_nil. split; [intros _ i Hi; lia | eauto].
  - rewrite for_range_seq_S.
    destruct (df.PositiveVerifier_Verify_body v pd k (true, calls)) as [[ok calls1] | e] eqn:Eb.
    + destruct (PositiveVerifier_Verify_body_true _ _ _ _ _ Eb) as [_ Hok]. simpl in Hok.
      rewrite bind_Ret. destruct ok.
      * rewrite (IH (S k) calls1) by lia. split.
        -- intros Hall i Hi. destruct (decide (i = k)) as [-> | Hne].
           ++ by apply Hok.
           ++ apply Hall. lia.
        -- intros Hall i Hi. apply Hall. lia.
      * rewrite PositiveVerifier_Verify_loop_false by lia. split.
        -- by intros [calls' [=]].
        -- intros Hall. assert (false = true) as [=]. apply Hok, Hall. lia.
    + rewrite bind_Panic. split.
      * by intros [calls' [=]].
      * intros Hall. destruct (Hall k) as (sv & s1 & s21 & s22 & E0 & E1 & E2 & E3 & Et);
          [lia |].
        revert Eb. unfold df.PositiveVerifier_Verify_body.
        rewrite (index_lookup _ _ _ E0), bind_Ret, (index_lookup _ _ _ E1), bind_Ret,
          (index_lookup _ _ _ E2), bind_Ret, (index_lookup _ _ _ E3), bind_Ret.
        unfold deref. by rewrite bind_Ret, Et.
Qed.

Lemma PositiveVerifier_Verify_true_iff (v : df.PositiveVerifier) (pd : list bigInt) :
  length pd = 12%nat ->
  df.PositiveVerifier_Verify v pd = Ret true
  <-> (forall i, (i < length (df.pv_squareVerifiers v))%nat -> df.accepts_at v pd i).
Proof.
  intros Hlen. unfold df.PositiveVerifier_Verify, df.PositiveVerifier_Verify_calls.
  rewrite decide_False by (intros Hne; by apply Hne).
  pose proof (PositiveVerifier_Verify_loop_true v pd
                (length (df.pv_squareVerifiers v)) 0 [] eq_refl) as Hloop.
  destruct (for_range _ _ _) as [[ok calls] | e]; simpl.
  - split.
    + intros [= ->] i Hi. apply Hloop; [eauto | lia].
    + intros Hall. destruct Hloop as [_ [calls' [= -> _]]]; [| done].
      intros i Hi. apply Hall. lia.
  - split; [done |]. intros Hall. destruct Hloop as [_ [calls' [=]]].
    intros i Hi. apply Hall. lia.
Qed.

(** The prover's [GetProofRandomData]: two elements per sub-proof, those of
    sub-proof [i] at [2*i] and [2*i+1]. *)
Lemma PositiveProver_GetProofRandomData_layout (p : df.PositiveProver) (s : R)
    (sps : list SP) records sps' s' :
  df.pp_squareProvers p = Some <$> sps ->
  df.subproofs_GetProofRandomData sps s = Ret (records, sps', s') ->
  exists prd p',
    df.PositiveProver_GetProofRandomData p s = Ret (prd, p', s') /\
    df.pp_squareProvers p' = Some <$> sps' /\
    length prd = (2 * length sps)%nat /\
    (forall i d1 d2, records !! i = Some (d1, d2) ->
       prd !! (2 * i)%nat = Some d1 /\ prd !! (2 * i + 1)%nat = Some d2).
Proof.
  intros Hp Hrun.
  destruct (PositiveProver_GetProofRandomData_loop sps [] (replicate (length sps * 2) None)
              s records sps' s' Hrun) as (prd & Hloop & Hl & _ & Hrec).
  { rewrite length_replicate. simpl. lia. }
  simpl in Hloop.
  eexists prd, _. unfold df.PositiveProver_GetProofRandomData.
  rewrite Hp, length_fmap, Hloop, bind_Ret.
  split; [reflexivity |]. split; [reflexivity |].
  split; [rewrite Hl, length_replicate; lia |].
  intros i d1 d2 Hi. apply (Hrec i d1 d2 Hi).
Qed.

(** The verifier's [SetProofRandomData] on eight elements and at most four
    sub-verifiers: sub-verifier [i] is given the elements at [2*i] and
    [2*i+1]. *)
Lemma PositiveVerifier_SetProofRandomData_layout (v : df.PositiveVerifier)
    (prd : list bigInt) (svs : list SV) :
  df.pv_squareVerifiers v = Some <$> svs ->
  length prd = 8%nat -> (length svs <= 4)%nat ->
  exists v',
    df.PositiveVerifier_SetProofRandomData v prd = Ret (None, v') /\
    length (df.pv_squareVerifiers v') = length svs /\
    (forall i sv, svs !! i = Some sv ->
       exists d1 d2,
         prd !! (2 * i)%nat = Some d1 /\ prd !! (2 * i + 1)%nat = Some d2 /\
         df.pv_squareVerifiers v' !! i
         = Some (Some (df.SquareVerifier_SetProofRandomData sv d1 d2))).
Proof.
  intros Hv Hprd Hsvs.
  destruct (PositiveVerifier_SetProofRandomData_loop prd (length svs) 0 (Some <$> svs))
    as (svs' & Hloop & Hl & _ & Hout).
  { by rewrite length_fmap. }
  { apply Forall_fmap, Forall_true. by eexists. }
  { rewrite length_fmap. lia. }
  eexists {| df.pv_squareVerifiers := svs' |}.
  unfold df.PositiveVerifier_SetProofRandomData.
  rewrite decide_False by (intros Hne; by apply Hne).
  rewrite Hv, length_fmap, Hloop, bind_Ret. simpl.
  split; [reflexivity |]. split; [by rewrite Hl, length_fmap |].
  intros i sv Hi. apply Hout; [lia |]. by rewrite list_lookup_fmap, Hi.
Qed.

(** The random data goes from the prover to the verifier in the same order:
    with four sub-proofs on each side, what sub-prover [i] returned is what
    sub-verifier [i] is given. *)
Theorem Positive_random_data_mirrored (p : df.PositiveProver) (s : R) (sps : list SP)
    records sps' s' (v : df.PositiveVerifier) (svs : list SV) :
  df.pp_squareProvers p = Some <$> sps -> length sps = 4%nat ->
  df.subproofs_GetProofRandomData sps s = Ret (records, sps', s') ->
  df.pv_squareVerifiers v = Some <$> svs -> length svs = 4%nat ->
  exists prd p' v',
    df.PositiveProver_GetProofRandomData p s = Ret (prd, p', s') /\
    df.PositiveVerifier_SetProofRandomData v prd = Ret (None, v') /\
    forall i sv d1 d2, svs !! i = Some sv -> records !! i = Some (d1, d2) ->
      df.pv_squareVerifiers v' !! i
      = Some (Some (df.SquareVerifier_SetProofRandomData sv d1 d2)).
Proof.
  intros Hp Hn Hrun Hv Hm.
  destruct (PositiveProver_GetProofRandomData_layout p s sps records sps' s' Hp Hrun)
    as (prd & p' & Eprd & _ & Hl & Hlay).
  destruct (PositiveVerifier_SetProofRandomData_layout v prd svs Hv) as (v' & Ev & _ & Hset);
    [lia | lia |].
  exists prd, p', v'. split; [done |]. split; [done |].
  intros i sv d1 d2 Esv Erec.
  destruct (Hset i sv Esv) as (e1 & e2 & E1 & E2 & E3).
  destruct (Hlay i d1 d2 Erec) as [F1 F2].
  rewrite F1 in E1. rewrite F2 in E2. injection E1 as <-. injection E2 as <-. done.
Qed.

(** C8.  The flat sequences and their index layout.
    - The prover's [GetProofRandomData] returns [2] elements per sub-proof,
      the two outputs of sub-proof [i] at [2*i] and [2*i+1].
    - The prover's [GetProofData] returns [3] elements per sub-proof, the
      three outputs of sub-proof [i] at [3*i], [3*i+1] and [3*i+2] (it reads
      [challenges[i]], so there is a challenge for every sub-proof).
    - The verifier's [SetProofRandomData] gives sub-verifier [i] the elements
      at [2*i] and [2*i+1] of its 8-element slice.
    - The verifier's [Verify] accepts a 12-element slice exactly when every
      sub-verifier [i] accepts the elements at [3*i], [3*i+1], [3*i+2]. *)
Theorem Positive_flat_layout :
  (forall (p : df.PositiveProver) (s : R) (sps : list SP) records sps' s',
     df.pp_squareProvers p = Some <$> sps ->
     df.subproofs_GetProofRandomData sps s = Ret (records, sps', s') ->
     exists prd p',
       df.PositiveProver_GetProofRandomData p s = Ret (prd, p', s') /\
       df.pp_squareProvers p' = Some <$> sps' /\
       length prd = (2 * length sps)%nat /\
       (forall i d1 d2, records !! i = Some (d1, d2) ->
          prd !! (2 * i)%nat = Some d1 /\ prd !! (2 * i + 1)%nat = Some d2)) /\
  (forall (p : df.PositiveProver) (challenges : list bigInt) (sps : list SP),
     df.pp_squareProvers p = Some <$> sps ->
     (forall i sp, sps !! i = Some sp ->
        exists c r, challenges !! i = Some c /\ df.SquareProver_GetProofData sp c = Ret r) ->
     exists pd,
       df.PositiveProver_GetProofData p challenges = Ret pd /\
       length pd = (3 * length sps)%nat /\
       (forall i sp c s1 s21 s22,
          sps !! i = Some sp -> challenges !! i = Some c ->
          df.SquareProver_GetProofData sp c = Ret (s1, s21, s22) ->
          pd !! (3 * i)%nat = Some s1 /\ pd !! (3 * i + 1)%nat = Some s21 /\
          pd !! (3 * i + 2)%nat = Some s22)) /\
  (forall (v : df.PositiveVerifier) (prd : list bigInt) (svs : list SV),
     df.pv_squareVerifiers v = Some <$> svs ->
     length prd = 8%nat -> (length svs <= 4)%nat ->
     exists v',
       df.PositiveVerifier_SetProofRandomData v prd = Ret (None, v') /\
       length (df.pv_squareVerifiers v') = length svs /\
       (forall i sv, svs !! i = Some sv ->
          exists d1 d2,
            prd !! (2 * i)%nat = Some d1 /\ prd !! (2 * i + 1)%nat = Some d2 /\
            df.pv_squareVerifiers v' !! i
            = Some (Some (df.SquareVerifier_SetProofRandomData sv d1 d2)))) /\
  (forall (v : df.PositiveVerifier) (pd : list bigInt) (svs : list SV),
     df.pv_squareVerifiers v = Some <$> svs ->
     length pd = 12%nat ->
     (df.PositiveVerifier_Verify v pd = Ret true <->
      forall i sv, svs !! i = Some sv ->
        exists s1 s21 s22,
          pd !! (3 * i)%nat = Some s1 /\ pd !! (3 * i + 1)%nat = Some s21 /\
          pd !! (3 * i + 2)%nat = Some s22 /\
          df.SquareVerifier_Verify sv s1 s21 s22 = Ret true)).
Proof.
  split; [| split; [| split]].
  - intros p s sps records sps' s'. apply PositiveProver_GetProofRandomData_layout.
  - intros p challenges sps Hp Hret.
    destruct (PositiveProver_GetProofData_loop p challenges sps Hp Hret (length sps) 0
                (replicate (length sps * 3) None)) as (pd & Hloop & Hl & _ & Hout).
    { lia. } { rewrite length_replicate. lia. }
    exists pd. unfold df.PositiveProver_GetProofData.
    rewrite Hp, length_fmap. split; [done |].
    split; [rewrite Hl, length_replicate; lia |].
    intros i sp c s1 s21 s22. apply Hout. lia.
  - intros v prd svs. apply PositiveVerifier_SetProofRandomData_layout.
  - intros v pd svs Hv Hpd.
    rewrite (PositiveVerifier_Verify_true_iff v pd Hpd). unfold df.accepts_at.
    rewrite Hv, length_fmap. split.
    + intros Hall i sv Hi.
      destruct (Hall i) as (sv' & s1 & s21 & s22 & E0 & E1 & E2 & E3 & Et).
      { by apply lookup_lt_Some in Hi. }
      rewrite list_lookup_fmap, Hi in E0. injection E0 as <-.
      by exists s1, s21, s22.
    + intros Hall i Hi.
      destruct (lookup_lt_is_Some_2 svs i Hi) as [sv Esv].
      destruct (Hall i sv Esv) as (s1 & s21 & s22 & E1 & E2 & E3 & Et).
      exists sv, s1, s21, s22. by rewrite list_lookup_fmap, Esv.
Qed.

(** The loop of the check multiplies the big commitments in order. *)
Lemma NewPositiveVerifier_check_loop (g : QR) (bs : list Z) :
  forall m k acc, (k + m <= length bs)%nat ->
    for_range (seq k m) (df.NewPositiveVerifier_check g (Some <$> bs)) acc
    = Ret (fold_left (QR_Mul g) (take m (drop k bs)) acc).
Proof.
  induction m as [| m IH]; intros k acc Hk; [done |].
  destruct (lookup_lt_is_Some_2 bs k) as [b Eb]; [lia |].
  assert (df.NewPositiveVerifier_check g (Some <$> bs) k acc = Ret (QR_Mul g acc b)) as Hb.
  { unfold df.NewPositiveVerifier_check. by rewrite (index_fmap_Some _ _ _ Eb). }
  rewrite for_range_seq_S, Hb, bind_Ret, (drop_S _ _ _ Eb). cbn [take fold_left].
  apply IH. lia.
Qed.

(** An error that leaves a loop is one its body returned. *)
Lemma for_range_res_Err {S : Type} (P : string -> Prop) (body : nat -> S -> go (res S)) :
  (forall i s msg, body i s = Ret (Err msg) -> P msg) ->
  forall idx s msg, for_range_res idx body s = Ret (Err msg) -> P msg.
Proof.
  intros Hbody. induction idx as [| i idx IH]; intros s msg; [done |].
  simpl. destruct (body i s) as [[s1 | msg1] | e] eqn:Eb; simpl.
  - apply IH.
  - intros [= <-]. by apply (Hbody i s).
  - done.
Qed.

Lemma NewPositiveVerifier_receivers_Err (receiver : df.Receiver) (bigs : list bigInt)
    (i : nat) (receivers : list (option df.Receiver)) (msg : string) :
  df.NewPositiveVerifier_receivers receiver bigs i receivers = Ret (Err msg) ->
  msg = "error when calling NewReceiverFromParams"%string.
Proof.
  unfold df.NewPositiveVerifier_receivers.
  destruct (index bigs i) as [comm | e]; [| done]. rewrite bind_Ret.
  destruct (df.NewReceiverFromParams _ _ _ _) as [rc | m].
  - destruct (assign _ _ _); [| done]. by rewrite bind_Ret.
  - by intros [= <-].
Qed.

Lemma NewPositiveVerifier_verifiers_Err (receivers : list (option df.Receiver))
    (smalls : list bigInt) (css : Z) (i : nat) (svs : list (option SV)) (msg : string) :
  df.NewPositiveVerifier_verifiers receivers smalls css i svs = Ret (Err msg) ->
  msg = "error when creating SquareVerifier"%string.
Proof.
  unfold df.NewPositiveVerifier_verifiers.
  destruct (index receivers i) as [rc | e]; [| done]. rewrite bind_Ret.
  destruct (index smalls i) as [small | e]; [| done]. rewrite bind_Ret.
  destruct (deref rc) as [rc' | e]; [| done]. rewrite bind_Ret.
  destruct (df.NewSquareVerifier _ _ _) as [sv | m].
  - destruct (assign _ _ _); [| done]. by rewrite bind_Ret.
  - by intros [= <-].
Qed.

(** The loop that builds the receivers, from index [k] on, when
    [NewReceiverFromParams] gives [rc0]: receiver [i] is [rc0] holding the big
    commitment [i]. *)
Lemma NewPositiveVerifier_receivers_loop (receiver rc0 : df.Receiver) (bigs : list bigInt) :
  df.NewReceiverFromParams (QR_GetPrimes (df.r_QRSpecialRSA receiver))
    (df.r_G receiver) (df.r_H receiver) (df.r_K receiver) = Val rc0 ->
  forall m k (cur : list (option df.Receiver)),
    (k + m)%nat = length bigs -> length cur = length bigs ->
    exists cur',
      for_range_res (seq k m) (df.NewPositiveVerifier_receivers receiver bigs) cur
      = Ret (Val cur') /\
      length cur' = length bigs /\
      (forall j, (j < k)%nat -> cur' !! j = cur !! j) /\
      (forall i b, (k <= i)%nat -> bigs !! i = Some b ->
         cur' !! i = Some (Some (df.SetCommitment rc0 b))).
Proof.
  intros Hnew. induction m as [| m IH]; intros k cur Hk Hcur.
  - exists cur. split; [done | split; [done | split; [done |]]].
    intros i b Hi Eb. apply lookup_lt_Some in Eb. lia.
  - destruct (lookup_lt_is_Some_2 bigs k) as [comm Ec]; [lia |].
    destruct (IH (S k) (<[k := Some (df.SetCommitment rc0 comm)]> cur))
      as (cur' & Hloop & Hl & Hlow & Hout); [lia | by rewrite length_insert |].
    exists cur'. split; [| split; [done | split]].
    + assert (df.NewPositiveVerifier_receivers receiver bigs k cur
              = Ret (Val (<[k := Some (df.SetCommitment rc0 comm)]> cur))) as Hb.
      { unfold df.NewPositiveVerifier_receivers.
        rewrite (index_lookup _ _ _ Ec), bind_Ret, Hnew.
        by rewrite assign_lt, !bind_Ret by lia. }
      cbn [seq for_range_res]. by rewrite Hb, bind_Ret.
    + intros j Hj. rewrite Hlow by lia. by rewrite list_lookup_insert_ne by lia.
    + intros i b Hi Eb. destruct (decide (i = k)) as [-> | Hne].
      * rewrite Ec in Eb. injection Eb as <-. rewrite Hlow by lia.
        apply list_lookup_insert_eq. lia.
      * apply Hout; [lia | done].
Qed.

(** The loop that builds the sub-verifiers, from index [k] on, when
    [NewSquareVerifier] succeeds on every receiver and small commitment. *)
Lemma NewPositiveVerifier_verifiers_loop (receivers : list (option df.Receiver))
    (smalls : list bigInt) (css : Z) :
  length receivers = length smalls ->
  (forall i, (i < length smalls)%nat ->
     exists rc small sv, receivers !! i = Some (Some rc) /\ smalls !! i = Some small /\
       df.NewSquareVerifier rc small css = Val sv) ->
  forall m k (cur : list (option SV)),
    (k + m)%nat = length smalls -> length cur = length smalls ->
    exists cur',
      for_range_res (seq k m) (df.NewPositiveVerifier_verifiers receivers smalls css) cur
      = Ret (Val cur') /\
      length cur' = length smalls /\
      (forall j, (j < k)%nat -> cur' !! j = cur !! j) /\
      (forall i rc small sv, (k <= i)%nat ->
         receivers !! i = Some (Some rc) -> smalls !! i = Some small ->
         df.NewSquareVerifier rc small css = Val sv ->
         cur' !! i = Some (Some sv)).
Proof.
  intros Hlen Hnew. induction m as [| m IH]; intros k cur Hk Hcur.
  - exists cur. split; [done | split; [done | split; [done |]]].
    intros i rc small sv Hi _ Es. apply lookup_lt_Some in Es. lia.
  - destruct (Hnew k) as (rc & small & sv & Er & Es & Esv); [lia |].
    destruct (IH (S k) (<[k := Some sv]> cur))
      as (cur' & Hloop & Hl & Hlow & Hout); [lia | by rewrite length_insert |].
    exists cur'. split; [| split; [done | split]].
    + assert (df.NewPositiveVerifier_verifiers receivers smalls css k cur
              = Ret (Val (<[k := Some sv]> cur))) as Hb.
      { unfold df.NewPositiveVerifier_verifiers.
        rewrite (index_lookup _ _ _ Er), bind_Ret, (index_lookup _ _ _ Es), bind_Ret.
        unfold deref. rewrite bind_Ret, Esv.
        by rewrite assign_lt, !bind_Ret by lia. }
      cbn [seq for_range_res]. by rewrite Hb, bind_Ret.
    + intros j Hj. rewrite Hlow by lia. by rewrite list_lookup_insert_ne by lia.
    + intros i rc' small' sv' Hi Er' Es' Esv'. destruct (decide (i = k)) as [-> | Hne].
      * rewrite Er in Er'. injection Er' as <-. rewrite Es in Es'. injection Es' as <-.
        rewrite Esv in Esv'. injection Esv' as <-. rewrite Hlow by lia.
        apply list_lookup_insert_eq. lia.
      * apply (Hout i rc' small'); [lia | done | done | done].
Qed.

(** What [NewPositiveVerifier] does once the check has passed. *)
Lemma NewPositiveVerifier_unfold (receiver : df.Receiver) (c : Z)
    (smalls : list bigInt) (bs : list Z) (css : Z) :
  length smalls = length bs ->
  df.NewPositiveVerifier receiver (Some c) smalls (Some <$> bs) css
  = if negb (c =? df.product (df.r_QRSpecialRSA receiver) bs) then
      Ret (Err "squareProvers are not properly instantiated")
    else
      receivers ← for_range_res (seq 0 (length (Some <$> bs)))
                    (df.NewPositiveVerifier_receivers receiver (Some <$> bs))
                    (replicate (length smalls) None);
      match receivers with
      | Err msg => Ret (Err msg)
      | Val receivers =>
          squareVerifiers ← for_range_res (seq 0 (length receivers))
                              (df.NewPositiveVerifier_verifiers receivers smalls css)
                              (replicate (length smalls) None);
          match squareVerifiers with
          | Err msg => Ret (Err msg)
          | Val squareVerifiers =>
              Ret (Val {| df.pv_squareVerifiers := squareVerifiers;
                          df.pv_proofRandomData := [] |})
          end
      end.
Proof.
  intros Hlen. unfold df.NewPositiveVerifier.
  rewrite NewPositiveVerifier_check_loop, bind_Ret by lia.
  rewrite drop_0, take_ge by lia. unfold deref. rewrite bind_Ret, Cmp_eqb.
  reflexivity.
Qed.

(** [NewPositiveVerifier] given as many big as small sub-commitments: the
    error of the check is returned exactly when the product of the big
    sub-commitments differs from the outer commitment, whatever the
    constructors of the receivers and of the sub-verifiers would do; when
    they succeed, an error is returned exactly when the product differs, and
    otherwise the verifier is returned with one square sub-verifier per
    sub-commitment, sub-verifier [i] built from the receiver holding big
    commitment [i] and small commitment [i]. *)
Lemma NewPositiveVerifier_same_length (receiver : df.Receiver) (c : Z)
    (smalls : list bigInt) (bs : list Z) (css : Z) :
  length smalls = length bs ->
  let g := df.r_QRSpecialRSA receiver in
  let result := df.NewPositiveVerifier receiver (Some c) smalls (Some <$> bs) css in
  (result = Ret (Err "squareProvers are not properly instantiated")
   <-> df.product g bs ≠ c) /\
  (forall rc0 : df.Receiver,
     df.NewReceiverFromParams (QR_GetPrimes g)
       (df.r_G receiver) (df.r_H receiver) (df.r_K receiver) = Val rc0 ->
     (forall i b small, bs !! i = Some b -> smalls !! i = Some small ->
        exists sv, df.NewSquareVerifier (df.SetCommitment rc0 (Some b)) small css = Val sv) ->
     ((exists msg, result = Ret (Err msg)) <-> df.product g bs ≠ c) /\
     (df.product g bs = c ->
      exists v, result = Ret (Val v) /\
        length (df.pv_squareVerifiers v) = length smalls /\
        forall i b small sv, bs !! i = Some b -> smalls !! i = Some small ->
          df.NewSquareVerifier (df.SetCommitment rc0 (Some b)) small css = Val sv ->
          df.pv_squareVerifiers v !! i = Some (Some sv))).
Proof.
  intros Hlen g result. subst result.
  rewrite (NewPositiveVerifier_unfold receiver c smalls bs css Hlen). fold g.
  destruct (Z.eqb_spec c (df.product g bs)) as [Heq | Hne]; cbn [negb].
  - (* the check passes *)
    split.
    + split; [| intros Hp; by destruct Hp].
      intros Hres. exfalso.
      destruct (for_range_res _ (df.NewPositiveVerifier_receivers _ _) _)
        as [[receivers | msg] | e] eqn:E2; [| | done].
      * rewrite bind_Ret in Hres.
        destruct (for_range_res _ (df.NewPositiveVerifier_verifiers _ _ _) _)
          as [[svs | msg] | e] eqn:E3; [done | | done].
        rewrite bind_Ret in Hres. injection Hres as ->.
        apply (for_range_res_Err
                 (fun m => m = "error when creating SquareVerifier"%string)) in E3;
          [done |]. intros i s0 m. apply NewPositiveVerifier_verifiers_Err.
      * rewrite bind_Ret in Hres. injection Hres as ->.
        apply (for_range_res_Err
                 (fun m => m = "error when calling NewReceiverFromParams"%string)) in E2;
          [done |]. intros i s0 m. apply NewPositiveVerifier_receivers_Err.
    + intros rc0 Hnew Hsv.
      destruct (NewPositiveVerifier_receivers_loop receiver rc0 (Some <$> bs) Hnew
                  (length (Some <$> bs)) 0 (replicate (length smalls) None))
        as (receivers & Hloop2 & Hl2 & _ & Hout2).
      { lia. } { by rewrite length_replicate, length_fmap. }
      rewrite length_fmap in Hl2.
      destruct (NewPositiveVerifier_verifiers_loop receivers smalls css) with
        (m := length receivers) (k := 0%nat) (cur := replicate (length smalls) (@None SV))
        as (svs & Hloop3 & Hl3 & _ & Hout3).
      { lia. }
      { intros i Hi. destruct (lookup_lt_is_Some_2 bs i) as [b Eb]; [lia |].
        destruct (lookup_lt_is_Some_2 smalls i Hi) as [small Es].
        destruct (Hsv i b small Eb Es) as [sv Esv].
        exists (df.SetCommitment rc0 (Some b)), small, sv. split; [| done].
        apply Hout2; [lia |]. by rewrite list_lookup_fmap, Eb. }
      { lia. } { by rewrite length_replicate. }
      rewrite Hloop2, bind_Ret, Hloop3, bind_Ret. split.
      * split; [by intros [msg [=]] | intros Hp; by destruct Hp].
      * intros _. eexists. split; [reflexivity |]. split; [done |].
        intros i b small sv Eb Es Esv. apply (Hout3 i (df.SetCommitment rc0 (Some b)) small).
        -- lia.
        -- apply Hout2; [lia |]. by rewrite list_lookup_fmap, Eb.
        -- done.
        -- done.
  - (* the check fails *)
    split.
    + split; [intros _ Hp; by apply Hne | done].
    + intros rc0 _ _. split.
      * split; [intros _ Hp; by apply Hne | eauto].
      * intros Hp. by destruct Hne.
Qed.

(** The loop that builds the receivers over a range that fits both slices. *)
Lemma NewPositiveVerifier_receivers_prefix (receiver rc0 : df.Receiver) (bigs : list bigInt) :
  df.NewReceiverFromParams (QR_GetPrimes (df.r_QRSpecialRSA receiver))
    (df.r_G receiver) (df.r_H receiver) (df.r_K receiver) = Val rc0 ->
  forall m k (cur : list (option df.Receiver)),
    (k + m <= length bigs)%nat -> (k + m <= length cur)%nat ->
    exists cur',
      for_range_res (seq k m) (df.NewPositiveVerifier_receivers receiver bigs) cur
      = Ret (Val cur') /\
      length cur' = length cur.
Proof.
  intros Hnew. induction m as [| m IH]; intros k cur Hk Hcur.
  - by exists cur.
  - destruct (lookup_lt_is_Some_2 bigs k) as [comm Ec]; [lia |].
    destruct (IH (S k) (<[k := Some (df.SetCommitment rc0 comm)]> cur))
      as (cur' & Hloop & Hl); [lia | rewrite length_insert; lia |].
    exists cur'. rewrite length_insert in Hl. split; [| done].
    assert (df.NewPositiveVerifier_receivers receiver bigs k cur
            = Ret (Val (<[k := Some (df.SetCommitment rc0 comm)]> cur))) as Hb.
    { unfold df.NewPositiveVerifier_receivers.
      rewrite (index_lookup _ _ _ Ec), bind_Ret, Hnew.
      by rewrite assign_lt, !bind_Ret by lia. }
    cbn [seq for_range_res]. by rewrite Hb, bind_Ret.
Qed.

(** The check of [NewPositiveVerifier] with at least as many big as small
    sub-commitments: the loop of the check multiplies the first
    [len(smallCommitments)] big sub-commitments, and the error of the check is
    returned exactly when their product differs from the outer commitment. *)
Lemma NewPositiveVerifier_check_error_iff (receiver : df.Receiver) (c : Z)
    (smalls : list bigInt) (bs : list Z) (css : Z) :
  (length smalls <= length bs)%nat ->
  df.NewPositiveVerifier receiver (Some c) smalls (Some <$> bs) css
  = Ret (Err "squareProvers are not properly instantiated")
  <-> df.product (df.r_QRSpecialRSA receiver) (take (length smalls) bs) ≠ c.
Proof.
  intros Hlen. unfold df.NewPositiveVerifier.
  rewrite NewPositiveVerifier_check_loop, bind_Ret, drop_0 by lia.
  cbn [deref]. rewrite bind_Ret, Cmp_eqb. fold (df.product (df.r_QRSpecialRSA receiver)
                                                  (take (length smalls) bs)).
  destruct (Z.eqb_spec c (df.product (df.r_QRSpecialRSA receiver) (take (length smalls) bs)))
    as [Heq | Hne]; cbn [negb].
  - split; [| intros Hp; by destruct Hp].
    intros Hres. exfalso.
    destruct (for_range_res _ (df.NewPositiveVerifier_receivers _ _) _)
      as [[receivers | msg] | e] eqn:E2; [| | done].
    + rewrite bind_Ret in Hres.
      destruct (for_range_res _ (df.NewPositiveVerifier_verifiers _ _ _) _)
        as [[svs | msg] | e] eqn:E3; [done | | done].
      rewrite bind_Ret in Hres. injection Hres as ->.
      apply (for_range_res_Err
               (fun m => m = "error when creating SquareVerifier"%string)) in E3;
        [done |]. intros i s0 m. apply NewPositiveVerifier_verifiers_Err.
    + rewrite bind_Ret in Hres. injection Hres as ->.
      apply (for_range_res_Err
               (fun m => m = "error when calling NewReceiverFromParams"%string)) in E2;
        [done |]. intros i s0 m. apply NewPositiveVerifier_receivers_Err.
  - split; [intros _ Hp; by apply Hne | done].
Qed.

(** With fewer big than small sub-commitments the loop of the check reads
    past the end of the big ones. *)
Lemma NewPositiveVerifier_fewer_bigs (receiver : df.Receiver) (c : bigInt)
    (smalls : list bigInt) (bs : list Z) (css : Z) :
  (length bs < length smalls)%nat ->
  df.NewPositiveVerifier receiver c smalls (Some <$> bs) css = Panic IndexOutOfRange.
Proof.
  intros Hlen. unfold df.NewPositiveVerifier.
  replace (length smalls) with (length bs + S (length smalls - S (length bs)))%nat by lia.
  rewrite seq_app, for_range_app, NewPositiveVerifier_check_loop, bind_Ret by lia.
  rewrite for_range_seq_S.
  match goal with
  | |- context [df.NewPositiveVerifier_check ?g ?b ?k ?a ≫= _] =>
      assert (df.NewPositiveVerifier_check g b k a = Panic IndexOutOfRange) as ->; [| done]
  end.
  unfold df.NewPositiveVerifier_check.
  rewrite index_ge; [done |]. rewrite length_fmap. lia.
Qed.

(** With more big than small sub-commitments whose first
    [len(smallCommitments)] multiply to the outer commitment, the loop over
    the big ones writes past the end of the receivers. *)
Lemma NewPositiveVerifier_more_bigs (receiver rc0 : df.Receiver) (c : Z)
    (smalls : list bigInt) (bs : list Z) (css : Z) :
  (length smalls < length bs)%nat ->
  df.product (df.r_QRSpecialRSA receiver) (take (length smalls) bs) = c ->
  df.NewReceiverFromParams (QR_GetPrimes (df.r_QRSpecialRSA receiver))
    (df.r_G receiver) (df.r_H receiver) (df.r_K receiver) = Val rc0 ->
  df.NewPositiveVerifier receiver (Some c) smalls (Some <$> bs) css = Panic IndexOutOfRange.
Proof.
  intros Hlen <- Hnew. unfold df.NewPositiveVerifier.
  rewrite NewPositiveVerifier_check_loop, bind_Ret, drop_0 by lia.
  cbn [deref]. rewrite bind_Ret, Cmp_eqb. unfold df.product. rewrite Z.eqb_refl.
  cbn [negb]. rewrite length_fmap.
  replace (length bs) with (length smalls + S (length bs - S (length smalls)))%nat at 1 by lia.
  rewrite seq_app, for_range_res_app.
  destruct (NewPositiveVerifier_receivers_prefix receiver rc0 (Some <$> bs) Hnew
              (length smalls) 0 (replicate (length smalls) None)) as (cur' & -> & Hl).
  { rewrite length_fmap. lia. } { rewrite length_replicate. lia. }
  rewrite bind_Ret. cbn [seq for_range_res Nat.add].
  destruct (lookup_lt_is_Some_2 (Some <$> bs) (length smalls)) as [comm Ec].
  { rewrite length_fmap. lia. }
  assert (df.NewPositiveVerifier_receivers receiver (Some <$> bs) (length smalls) cur'
          = Panic IndexOutOfRange) as ->; [| done].
  unfold df.NewPositiveVerifier_receivers.
  rewrite (index_lookup _ _ _ Ec), bind_Ret, Hnew, assign_ge; [done |].
  rewrite Hl, length_replicate. lia.
Qed.

(** C4 (amended).  The number of sub-proofs is the number of small
    sub-commitments, and the loop of the check runs over that many big ones.
    - With fewer big than small sub-commitments the constructor panics in the
      loop of the check and returns no error.
    - With at least as many big as small ones, the error of the check is
      returned exactly when the product of the first [len(smallCommitments)]
      big sub-commitments differs from the outer commitment; the big
      sub-commitments after them are not multiplied in.
    - With more big than small ones whose first [len(smallCommitments)]
      multiply to the outer commitment, the constructor panics once
      [NewReceiverFromParams] has succeeded.
    - With as many big as small ones, the product is that of all the supplied
      big sub-commitments: the error of the check is returned exactly when it
      differs from the outer commitment, before any receiver or sub-verifier
      is built; when [NewReceiverFromParams] and [NewSquareVerifier] succeed,
      an error is returned exactly when the product differs, and when it
      equals the outer commitment the verifier is returned with one square
      sub-verifier per sub-commitment (four for the prover's four),
      sub-verifier [i] built from the receiver holding big commitment [i] and
      small commitment [i]. *)
Theorem NewPositiveVerifier_rejects_iff (receiver : df.Receiver) (c : Z)
    (smalls : list bigInt) (bs : list Z) (css : Z) :
  let g := df.r_QRSpecialRSA receiver in
  let result := df.NewPositiveVerifier receiver (Some c) smalls (Some <$> bs) css in
  ((length bs < length smalls)%nat -> result = Panic IndexOutOfRange) /\
  ((length smalls <= length bs)%nat ->
   (result = Ret (Err "squareProvers are not properly instantiated")
    <-> df.product g (take (length smalls) bs) ≠ c)) /\
  ((length smalls < length bs)%nat ->
   df.product g (take (length smalls) bs) = c ->
   forall rc0 : df.Receiver,
     df.NewReceiverFromParams (QR_GetPrimes g)
       (df.r_G receiver) (df.r_H receiver) (df.r_K receiver) = Val rc0 ->
     result = Panic IndexOutOfRange) /\
  (length smalls = length bs ->
   (result = Ret (Err "squareProvers are not properly instantiated")
    <-> df.product g bs ≠ c) /\
   (forall rc0 : df.Receiver,
      df.NewReceiverFromParams (QR_GetPrimes g)
        (df.r_G receiver) (df.r_H receiver) (df.r_K receiver) = Val rc0 ->
      (forall i b small, bs !! i = Some b -> smalls !! i = Some small ->
         exists sv, df.NewSquareVerifier (df.SetCommitment rc0 (Some b)) small css = Val sv) ->
      ((exists msg, result = Ret (Err msg)) <-> df.product g bs ≠ c) /\
      (df.product g bs = c ->
       exists v, result = Ret (Val v) /\
         length (df.pv_squareVerifiers v) = length smalls /\
         forall i b small sv, bs !! i = Some b -> smalls !! i = Some small ->
           df.NewSquareVerifier (df.SetCommitment rc0 (Some b)) small css = Val sv ->
           df.pv_squareVerifiers v !! i = Some (Some sv)))).
Proof.
  intros g result. split; [| split; [| split]].
  - apply NewPositiveVerifier_fewer_bigs.
  - apply NewPositiveVerifier_check_error_iff.
  - intros Hlen Hprod rc0 Hnew.
    by apply (NewPositiveVerifier_more_bigs receiver rc0).
  - apply NewPositiveVerifier_same_length.
Qed.

(** C2 (amended).  [Verify] returns false for every slice that does not have 12
    elements.  With four sub-verifiers and a 12-element slice it returns true
    exactly when all four sub-verifications accept, and it returns whenever
    the four sub-verifications return.  The loop visits the four
    sub-verifiers, but [verified && verifier.Verify(...)] evaluates its right
    operand only while [verified] is true: when [Verify] returns true the four
    sub-verifiers have been called, and when it returns false the calls stop
    at the first sub-verifier that rejects. *)
Theorem PositiveVerifier_Verify_and_short_circuit
    (sv0 sv1 sv2 sv3 : SV) (prd : list bigInt)
    (a0 b0 c0 a1 b1 c1 a2 b2 c2 a3 b3 c3 : bigInt) :
  let v := {| df.pv_squareVerifiers := [Some sv0; Some sv1; Some sv2; Some sv3];
              df.pv_proofRandomData := prd |} in
  let proofData := [a0; b0; c0; a1; b1; c1; a2; b2; c2; a3; b3; c3] in
  let V := [df.SquareVerifier_Verify sv0 a0 b0 c0; df.SquareVerifier_Verify sv1 a1 b1 c1;
            df.SquareVerifier_Verify sv2 a2 b2 c2; df.SquareVerifier_Verify sv3 a3 b3 c3] in
  (forall short : list bigInt,
     length short ≠ 12%nat -> df.PositiveVerifier_Verify v short = Ret false) /\
  (df.PositiveVerifier_Verify v proofData = Ret true <-> Forall (fun r => r = Ret true) V) /\
  (Forall (fun r => exists b : bool, r = Ret b) V ->
   exists b : bool, df.PositiveVerifier_Verify v proofData = Ret b) /\
  (forall (b : bool) (calls : list nat),
     df.PositiveVerifier_Verify_calls v proofData = Ret (b, calls) ->
     if b then calls = [0; 1; 2; 3]%nat
     else exists k : nat,
            calls = seq 0 (S k) /\ V !! k = Some (Ret false) /\
            forall j : nat, (j < k)%nat -> V !! j = Some (Ret true)).
Proof.
  intros v proofData V. split; [| split; [| split]].
  - intros short Hs. unfold df.PositiveVerifier_Verify, df.PositiveVerifier_Verify_calls.
    by rewrite decide_True.
  - unfold df.PositiveVerifier_Verify, df.PositiveVerifier_Verify_calls. subst V. simpl.
    rewrite !Forall_cons.
    destruct (df.SquareVerifier_Verify sv0 a0 b0 c0) as [[|] | e0]; simpl;
      [| intuition discriminate | intuition discriminate].
    destruct (df.SquareVerifier_Verify sv1 a1 b1 c1) as [[|] | e1]; simpl;
      [| intuition discriminate | intuition discriminate].
    destruct (df.SquareVerifier_Verify sv2 a2 b2 c2) as [[|] | e2]; simpl;
      [| intuition discriminate | intuition discriminate].
    destruct (df.SquareVerifier_Verify sv3 a3 b3 c3) as [[|] | e3]; simpl;
      intuition (discriminate || auto).
  - unfold df.PositiveVerifier_Verify, df.PositiveVerifier_Verify_calls. subst V. simpl.
    rewrite !Forall_cons.
    intros ([x0 E0] & [x1 E1] & [x2 E2] & [x3 E3] & _).
    rewrite E0. destruct x0; simpl; [| eauto].
    rewrite E1. destruct x1; simpl; [| eauto].
    rewrite E2. destruct x2; simpl; [| eauto].
    rewrite E3. simpl. eauto.
  - intros b calls. unfold df.PositiveVerifier_Verify_calls. subst V. simpl.
    destruct (df.SquareVerifier_Verify sv0 a0 b0 c0) as [[|] | e0]; simpl;
      [| intros [= <- <-]; exists 0%nat; repeat split; intros; lia | done].
    destruct (df.SquareVerifier_Verify sv1 a1 b1 c1) as [[|] | e1]; simpl;
      [| intros [= <- <-]; exists 1%nat; repeat split;
         intros [|?] ?; simpl; done || lia
       | done].
    destruct (df.SquareVerifier_Verify sv2 a2 b2 c2) as [[|] | e2]; simpl;
      [| intros [= <- <-]; exists 2%nat; repeat split;
         intros [|[|?]] ?; simpl; done || lia
       | done].
    destruct (df.SquareVerifier_Verify sv3 a3 b3 c3) as [[|] | e3]; simpl;
      [ by intros [= <- <-]
      | intros [= <- <-]; exists 3%nat; repeat split;
        intros [|[|[|?]]] ?; simpl; done || lia
      | done].
Qed.

End positive_properties.

(** ** getCommitRandoms *)

Section getCommitRandoms_properties.
Context {R : Type} {sampler : Sampler R}.

Lemma load_lookup (h : heap) (p : nat) (z : Z) : h !! p = Some z -> df.load h p = Ret z.
Proof. intros E. unfold df.load. by rewrite E. Qed.

Lemma sumZ_app (xs ys : list Z) : df.sumZ (xs ++ ys) = df.sumZ xs + df.sumZ ys.
Proof. unfold df.sumZ. induction xs as [| x xs IH]; simpl; lia. Qed.

Lemma sumZ_opp (xs : list Z) : df.sumZ (Z.opp <$> xs) = - df.sumZ xs.
Proof.
  unfold df.sumZ. induction xs as [| x xs IH]; [done |].
  rewrite fmap_cons. cbn [foldr]. lia.
Qed.

(** With a zero boundary the first draw cannot return: the interval
    [[0, 0)] is empty. *)
Lemma getCommitRandoms_body_zero `{!SamplerSpec R} (nRoots : Z) (i : nat)
    (rs : list (option nat)) (a : Z) (zs : list Z) (s : R) :
  exists e, df.getCommitRandoms_body nRoots 1 i (rs, a :: 0 :: zs, s) = Panic e.
Proof.
  unfold df.getCommitRandoms_body. rewrite (load_lookup _ 1 0), bind_Ret by done.
  destruct (GetRandomInt 0 s) as [[z s'] | e] eqn:Ez.
  - apply GetRandomInt_range in Ez. lia.
  - by exists e.
Qed.

Lemma getCommitRandoms_pre (r nRoots : Z) (s : R) :
  0 <= nRoots ->
  df.getCommitRandoms (Some r) nRoots s
  = '(rs, h, s) ← for_range (seq 0 (Z.to_nat nRoots)) (df.getCommitRandoms_body nRoots 1)
                    (replicate (Z.to_nat nRoots) None, [Z.abs r; Z.abs r], s);
    z ← df.load h 0;
    if Cmp z r =? 0 then mret (rs, h, s)
    else
      h ← for_range (seq 0 (Z.to_nat nRoots)) (df.getCommitRandoms_neg rs) h;
      mret (rs, h, s).
Proof.
  intros Hn. unfold df.getCommitRandoms. cbn [deref]. rewrite bind_Ret.
  cbn [df.new length app]. rewrite (load_lookup _ 0 (Z.abs r)), bind_Ret by done.
  cbn [length app]. destruct (Z.ltb_spec nRoots 0); [lia | done].
Qed.

(** One iteration before the last: the draw [z] is stored in a fresh cell
    whose pointer goes to [rs[k]], and [boundary] decreases by [z] in place. *)
Lemma getCommitRandoms_body_inner (nRoots : Z) (k : nat) (rs : list (option nat))
    (a b z : Z) (zs : list Z) (s s' : R) :
  Z.of_nat k < nRoots - 1 -> (k < length rs)%nat ->
  GetRandomInt b s = Ret (z, s') ->
  df.getCommitRandoms_body nRoots 1 k (rs, a :: b :: zs, s)
  = Ret (<[k := Some (2 + length zs)%nat]> rs, a :: (b - z) :: zs ++ [z], s').
Proof.
  intros Hk Hrs Ez. unfold df.getCommitRandoms_body.
  rewrite (load_lookup _ 1 b), bind_Ret, Ez, bind_Ret by done.
  cbn [df.new length]. destruct (Z.ltb_spec (Z.of_nat k) (nRoots - 1)); [| lia].
  rewrite assign_lt, bind_Ret by done.
  rewrite (load_lookup _ 1 b), bind_Ret by done.
  rewrite (load_lookup _ (S (S (length zs))) z), bind_Ret.
  - reflexivity.
  - by apply list_lookup_middle.
Qed.

(** The last iteration: the draw is discarded and the pointer [boundary]
    itself goes to [rs[k]]. *)
Lemma getCommitRandoms_body_last (nRoots : Z) (k : nat) (rs : list (option nat))
    (a b z : Z) (zs : list Z) (s s' : R) :
  Z.of_nat k = nRoots - 1 -> (k < length rs)%nat ->
  GetRandomInt b s = Ret (z, s') ->
  df.getCommitRandoms_body nRoots 1 k (rs, a :: b :: zs, s)
  = Ret (<[k := Some 1%nat]> rs, a :: b :: zs ++ [z], s').
Proof.
  intros Hk Hrs Ez. unfold df.getCommitRandoms_body.
  rewrite (load_lookup _ 1 b), bind_Ret, Ez, bind_Ret by done.
  cbn [df.new length]. destruct (Z.ltb_spec (Z.of_nat k) (nRoots - 1)); [lia |].
  by rewrite assign_lt, bind_Ret.
Qed.

Lemma seq_insert_next (k m : nat) (x : option nat) :
  <[k := x]> ((Some <$> seq 2 k) ++ replicate (S m) None)
  = (Some <$> seq 2 k) ++ x :: replicate m None.
Proof.
  rewrite insert_app_r_alt by (rewrite length_fmap, length_seq; lia).
  by rewrite length_fmap, length_seq, Nat.sub_diag.
Qed.

(** The first loop, from iteration [k] on, with [zs] the draws stored so far
    and [b] the current boundary: the cells of the draws and the boundary
    keep the sum, the draws are nonnegative and the boundary stays positive. *)
Lemma getCommitRandoms_loop `{!SamplerSpec R} (nRoots a : Z) :
  forall m k zs b s,
    Z.of_nat (k + S m) = nRoots -> length zs = k ->
    0 < b -> Forall (fun z => 0 <= z) zs ->
    exists zs' b' zl s',
      for_range (seq k (S m)) (df.getCommitRandoms_body nRoots 1)
        ((Some <$> seq 2 k) ++ replicate (S m) None, a :: b :: zs, s)
      = Ret ((Some <$> seq 2 (k + m)) ++ [Some 1%nat], a :: b' :: zs' ++ [zl], s') /\
      length zs' = (k + m)%nat /\
      df.sumZ zs' + b' = df.sumZ zs + b /\
      0 < b' /\ Forall (fun z => 0 <= z) zs'.
Proof.
  induction m as [| m IH]; intros k zs b s Hk Hzs Hb Hpos.
  - destruct (GetRandomInt_returns b s Hb) as (z & s' & Ez).
    exists zs, b, z, s'. rewrite Nat.add_0_r.
    split; [| split; [done | split; [done | split; [done | done]]]].
    rewrite for_range_seq_S, (getCommitRandoms_body_last nRoots k _ a b z zs s s'),
      bind_Ret, for_range_nil, seq_insert_next; [done | lia | | done].
    rewrite length_app, length_fmap, length_seq, length_replicate. lia.
  - destruct (GetRandomInt_returns b s Hb) as (z & s1 & Ez).
    pose proof (GetRandomInt_range b s z s1 Ez) as Hz.
    destruct (IH (S k) (zs ++ [z]) (b - z) s1) as (zs' & b' & zl & s' & Hloop & Hl & Hsum & Hb' & Hpos').
    { lia. } { rewrite length_app. simpl. lia. } { lia. }
    { apply Forall_app. split; [done |]. apply Forall_singleton. lia. }
    exists zs', b', zl, s'.
    replace (k + S m)%nat with (S k + m)%nat by lia.
    split; [| split; [done | split; [| done]]].
    + rewrite for_range_seq_S, (getCommitRandoms_body_inner nRoots k _ a b z zs s s1),
        bind_Ret, seq_insert_next; [| lia | | done].
      * rewrite Hzs. rewrite (seq_S k 2), fmap_app in Hloop.
        rewrite <- (assoc_L (++)) in Hloop. exact Hloop.
      * rewrite length_app, length_fmap, length_seq, length_replicate. lia.
    + rewrite Hsum, sumZ_app. unfold df.sumZ. simpl. lia.
Qed.

(** The second loop negates the cells the slice points to, one after the
    other. *)
Lemma getCommitRandoms_neg_loop (ptrs : list nat) :
  forall (pre : list nat) (h : heap),
    Forall (fun p => (p < length h)%nat) ptrs ->
    for_range (seq (length pre) (length ptrs))
      (df.getCommitRandoms_neg (Some <$> (pre ++ ptrs))) h
    = Ret (fold_left df.negCell ptrs h).
Proof.
  induction ptrs as [| p rest IH]; intros pre h Hvalid; [done |].
  apply Forall_cons in Hvalid as [Hp Hrest].
  destruct (lookup_lt_is_Some_2 h p Hp) as [v Ev].
  assert (df.getCommitRandoms_neg (Some <$> (pre ++ p :: rest)) (length pre) h
          = Ret (df.negCell h p)) as Hb.
  { unfold df.getCommitRandoms_neg, df.negCell. rewrite Ev.
    rewrite (index_lookup _ _ (Some p)), bind_Ret
      by (by rewrite list_lookup_fmap, list_lookup_middle).
    cbn [deref]. by rewrite bind_Ret, (load_lookup _ _ _ Ev), bind_Ret. }
  cbn [length]. rewrite for_range_seq_S, Hb, bind_Ret. cbn [fold_left].
  specialize (IH (pre ++ [p]) (df.negCell h p)).
  rewrite length_app, <- (assoc_L (++)) in IH. cbn [length app] in IH.
  replace (length pre + 1)%nat with (S (length pre)) in IH by lia.
  apply IH. unfold df.negCell, df.store. by rewrite length_insert.
Qed.

(** Negating through pointers that are pairwise distinct negates each of
    their cells once and leaves the others alone. *)
Lemma negCell_fold_lookup (ptrs : list nat) :
  NoDup ptrs ->
  forall (h : heap) (q : nat),
    fold_left df.negCell ptrs h !! q
    = if decide (q ∈ ptrs) then Z.opp <$> (h !! q) else h !! q.
Proof.
  induction 1 as [| p rest Hp Hnd IH]; intros h q.
  - cbn [fold_left]. by rewrite decide_False by apply not_elem_of_nil.
  - cbn [fold_left]. rewrite IH. unfold df.negCell, df.store.
    destruct (decide (q = p)) as [-> | Hne].
    + rewrite (decide_False (P := p ∈ rest)) by done.
      rewrite decide_True by apply list_elem_of_here.
      destruct (h !! p) as [v |] eqn:Ev.
      * rewrite list_lookup_insert_eq by (by apply lookup_lt_Some in Ev). done.
      * rewrite list_insert_ge by (by apply lookup_ge_None). by rewrite Ev.
    + rewrite list_lookup_insert_ne by done.
      destruct (decide (q ∈ rest)) as [Hin | Hnin].
      * by rewrite decide_True by (by apply list_elem_of_further).
      * rewrite decide_False; [done |]. rewrite elem_of_cons. tauto.
Qed.

Lemma shares_fmap_Some (h : heap) (ptrs : list nat) :
  df.shares h (Some <$> ptrs) = (fun p => h !! p) <$> ptrs.
Proof. unfold df.shares. by rewrite <- list_fmap_compose. Qed.

(** The cells of the draws, after the two cells of [rAbs] and [boundary]. *)
Lemma lookup_draws (a b zl : Z) (zs : list Z) :
  (fun p => (a :: b :: zs ++ [zl]) !! p) <$> seq 2 (length zs) = Some <$> zs.
Proof.
  apply list_eq. intros i. rewrite !list_lookup_fmap.
  destruct (decide (i < length zs)%nat) as [Hi | Hi].
  - rewrite lookup_seq_lt by done. cbn [fmap option_fmap option_map].
    change ((a :: b :: zs ++ [zl]) !! (2 + i)%nat) with ((zs ++ [zl]) !! i).
    rewrite lookup_app_l by done.
    by destruct (lookup_lt_is_Some_2 zs i Hi) as [v ->].
  - rewrite lookup_seq_ge, lookup_ge_None_2 by lia. done.
Qed.

(** The values behind the returned slice before any negation: the draws in
    order, then the last boundary. *)
Lemma shares_before_neg (a b zl : Z) (zs : list Z) :
  df.shares (a :: b :: zs ++ [zl]) (Some <$> (seq 2 (length zs) ++ [1%nat]))
  = Some <$> (zs ++ [b]).
Proof. by rewrite shares_fmap_Some, !fmap_app, lookup_draws. Qed.

(** The values behind the returned slice after the second loop: each
    negated once, because the pointers are pairwise distinct. *)
Lemma shares_after_neg (a b zl : Z) (zs : list Z) :
  let ptrs := seq 2 (length zs) ++ [1%nat] in
  df.shares (fold_left df.negCell ptrs (a :: b :: zs ++ [zl])) (Some <$> ptrs)
  = Some <$> (Z.opp <$> (zs ++ [b])).
Proof.
  intros ptrs. rewrite shares_fmap_Some.
  assert (NoDup ptrs) as Hnd.
  { apply NoDup_app. split; [apply NoDup_seq |]. split; [| apply NoDup_singleton].
    intros p Hp Hp1. apply elem_of_seq in Hp. apply list_elem_of_singleton in Hp1. lia. }
  rewrite (list_fmap_ext _ (fun p => Z.opp <$> ((a :: b :: zs ++ [zl]) !! p))).
  - pose proof (shares_before_neg a b zl zs) as Hb.
    rewrite shares_fmap_Some in Hb. fold ptrs in Hb.
    transitivity (fmap Z.opp <$> ((fun p => (a :: b :: zs ++ [zl]) !! p) <$> ptrs)).
    + by rewrite <- list_fmap_compose.
    + rewrite Hb. by rewrite <- !list_fmap_compose.
  - intros i p Hp. rewrite (negCell_fold_lookup ptrs Hnd).
    rewrite decide_True; [done |]. by apply list_elem_of_lookup_2 in Hp.
Qed.

(** C3, at [r = 0].  The claim promises [nRoots] shares that sum to [r] for
    every [r], zero included, and so does the comment of the function.  With
    [r = 0] and [nRoots >= 1] the call does not return, whatever the sampler,
    as long as the sampler keeps its contract: the boundary starts at
    [|r| = 0] and the first iteration draws from the empty interval
    [[0, 0)]. *)
Theorem getCommitRandoms_zero_panics `{!SamplerSpec R} (nRoots : Z) (s : R) :
  1 <= nRoots ->
  exists e, df.getCommitRandoms (Some 0) nRoots s = Panic e.
Proof.
  intros Hn. rewrite getCommitRandoms_pre by lia.
  destruct (Z.to_nat nRoots) as [| m] eqn:En; [lia |].
  rewrite for_range_seq_S. change (Z.abs 0) with 0.
  destruct (getCommitRandoms_body_zero nRoots 0 (replicate (S m) None) 0 [] s) as [e ->].
  by exists e.
Qed.

(** The run of [getCommitRandoms] for [r <> 0] and [nRoots >= 1]: the shares
    behind the slice it returns. *)
Lemma getCommitRandoms_returns `{!SamplerSpec R} (r nRoots : Z) (s : R) :
  r <> 0 -> 1 <= nRoots ->
  exists rs h s' vals,
    df.getCommitRandoms (Some r) nRoots s = Ret (rs, h, s') /\
    length rs = Z.to_nat nRoots /\
    df.shares h rs = Some <$> vals /\
    df.sumZ vals = r /\
    Forall (fun x => if 0 <? r then 0 <= x else x <= 0) vals.
Proof.
  intros Hr Hn. rewrite getCommitRandoms_pre by lia.
  destruct (Z.to_nat nRoots) as [| m] eqn:En; [lia |].
  destruct (getCommitRandoms_loop nRoots (Z.abs r) m 0 [] (Z.abs r) s)
    as (zs & b & zl & s' & Hloop & Hl & Hsum & Hb & Hpos); [lia | done | lia | done |].
  change (for_range (seq 0 (S m)) (df.getCommitRandoms_body nRoots 1)
            (replicate (S m) None, [Z.abs r; Z.abs r], s)
          = Ret ((Some <$> seq 2 m) ++ [Some 1%nat], Z.abs r :: b :: zs ++ [zl], s'))
    in Hloop.
  rewrite Hloop, bind_Ret.
  rewrite (load_lookup _ 0 (Z.abs r)), bind_Ret, Cmp_eqb by done.
  cbn [Nat.add] in Hl. unfold df.sumZ at 2 in Hsum. cbn [foldr] in Hsum.
  assert ((Some <$> seq 2 m) ++ [Some 1%nat] = Some <$> (seq 2 (length zs) ++ [1%nat])) as Hrs.
  { by rewrite Hl, fmap_app. }
  assert (Forall (fun z => 0 <= z) (zs ++ [b])) as Hall.
  { apply Forall_app. split; [done |]. apply Forall_singleton. lia. }
  destruct (Z.eqb_spec (Z.abs r) r) as [Heq | Hne].
  - exists ((Some <$> seq 2 m) ++ [Some 1%nat]), (Z.abs r :: b :: zs ++ [zl]), s', (zs ++ [b]).
    split; [done |]. split.
    { rewrite length_app, length_fmap, length_seq. simpl. lia. }
    split; [rewrite Hrs; apply shares_before_neg |]. split.
    { rewrite sumZ_app. unfold df.sumZ at 2. cbn [foldr]. lia. }
    destruct (Z.ltb_spec 0 r); [done | lia].
  - rewrite Hrs.
    replace (S m) with (length (seq 2 (length zs) ++ [1%nat]))
      by (rewrite length_app, length_seq; simpl; lia).
    rewrite (getCommitRandoms_neg_loop (seq 2 (length zs) ++ [1%nat]) []), bind_Ret.
    + eexists _, _, s', (Z.opp <$> (zs ++ [b])).
      split; [reflexivity |]. split.
      { rewrite length_fmap, length_app, length_seq. simpl. lia. }
      split; [apply shares_after_neg |]. split.
      { rewrite sumZ_opp, sumZ_app. unfold df.sumZ at 2. cbn [foldr]. lia. }
      destruct (Z.ltb_spec 0 r); [lia |].
      apply Forall_fmap. eapply Forall_impl; [exact Hall |]. simpl. intros x Hx. lia.
    + apply Forall_app. split.
      * apply Forall_forall. intros p Hp. apply elem_of_seq in Hp.
        cbn [length]. rewrite length_app. simpl. lia.
      * apply Forall_singleton. simpl. lia.
Qed.

(** C3, for [r <> 0].  With [nRoots >= 1] and a sampler that keeps its
    contract, the call returns [nRoots] pointers whose integers sum exactly to
    [r], each with the sign of [r] or zero: nonnegative draws and a positive
    last boundary that sum to [|r|], all negated when [r] is negative. *)
Theorem getCommitRandoms_shares_sum `{!SamplerSpec R} (r nRoots : Z) (s : R) :
  r <> 0 -> 1 <= nRoots ->
  exists rs h s' vals,
    df.getCommitRandoms (Some r) nRoots s = Ret (rs, h, s') /\
    length rs = Z.to_nat nRoots /\
    df.shares h rs = Some <$> vals /\
    df.sumZ vals = r /\
    Forall (fun x => if 0 <? r then 0 <= x else x <= 0) vals.
Proof. apply getCommitRandoms_returns. Qed.

End getCommitRandoms_properties.

(** ** The order of the calls *)

Section order_properties.
Context {Grp QR Primes R : Type}.
Context {schnorrGroup : SchnorrGroup Grp} {qr : QRSpecialRSA QR Primes} {sampler : Sampler R}.
Context {SP SV : Type} {square : @df.SquareProof QR Primes R SP SV}.

(** C7 (amended).  No proof pair keeps the state of the protocol, and no
    operation returns a usage error; what a call out of order does depends on
    the fields it reads.
    - Representation proof: [GetProofData] on a new prover, before
      [GetProofRandomData], panics when there is a base (nil [randomVals]) and
      returns the empty response when there is none; [Verify] with the
      challenge, [y] or the proof random data unset panics; after
      [GetProofRandomData], [GetProofData] answers every challenge, also a
      second one, from the retained maskings.
    - Multiplication proof: [GetProofData] on a new prover and [Verify] with
      the challenge or a proof random datum unset panic on the nil pointer;
      after [GetProofRandomData], [GetProofData] answers every challenge from
      the retained maskings.
    - Positive proof: [Verify] of a 12-element slice makes no check of its
      own, in whatever state the verifier is: it accepts exactly when every
      sub-verifier accepts its three elements. *)
Theorem calls_out_of_order_run_on_stored_fields :
  (forall (g : Grp) (secrets bases : list bigInt) (y challenge : bigInt) (p : schnorr.Prover),
     schnorr.NewProver g secrets bases y = Val p ->
     (bases = [] -> schnorr.GetProofData p challenge = Ret []) /\
     (bases <> [] -> exists e, schnorr.GetProofData p challenge = Panic e)) /\
  (forall (v : @schnorr.Verifier Grp) (proofData : list bigInt),
     schnorr.v_challenge v = None \/ schnorr.v_y v = None \/
     schnorr.v_proofRandomData v = None ->
     exists e, schnorr.Verify v proofData = Panic e) /\
  (forall (p p' : @schnorr.Prover Grp) (xs : list Z) (s s' : R) (t : bigInt),
     schnorr.p_secrets p = Some <$> xs ->
     length xs = length (schnorr.p_bases p) ->
     schnorr.GetProofRandomData p s = Ret (t, p', s') ->
     forall c : Z,
       exists zs,
         schnorr.GetProofData p' (Some c) = Ret zs /\
         length zs = length xs /\
         forall i x, xs !! i = Some x ->
           exists r, schnorr.p_randomVals p' !! i = Some (Some r) /\
             zs !! i = Some (Some (Group_Add (schnorr.p_Group p)
                                     (Group_Mul (schnorr.p_Group p) c x) r))) /\
  (forall (committer1 committer2 committer3 : @df.Committer QR)
          (challengeSpaceSize : Z) (challenge : bigInt),
     df.MultiplicationProver_GetProofData
       (df.NewMultiplicationProver committer1 committer2 committer3 challengeSpaceSize)
       challenge
     = Panic NilDereference) /\
  (forall (v : @df.MultiplicationVerifier QR) (u1 u v1 v2 v3 : bigInt),
     df.mv_challenge v = None \/ df.mv_d1 v = None \/
     df.mv_d2 v = None \/ df.mv_d3 v = None ->
     df.MultiplicationVerifier_Verify v u1 u v1 v2 v3 = Panic NilDereference) /\
  (forall (p p' : @df.MultiplicationProver QR) (s s' : R) (d1 d2 d3 : bigInt)
          (x1 r1 x2 r2 r3 : Z),
     df.GetDecommitMsg (df.mp_committer1 p) = (Some x1, Some r1) ->
     df.GetDecommitMsg (df.mp_committer2 p) = (Some x2, Some r2) ->
     (df.GetDecommitMsg (df.mp_committer3 p)).2 = Some r3 ->
     df.MultiplicationProver_GetProofRandomData p s = Ret (d1, d2, d3, p', s') ->
     exists y1 y s1 s2 s3 : Z,
       forall c : Z,
         df.MultiplicationProver_GetProofData p' (Some c)
         = Ret (Some (y1 + c * x1), Some (y + c * x2),
                Some (s1 + c * r1), Some (s2 + c * r2),
                Some (s3 + c * (r3 - x2 * r1)))) /\
  (forall (v : df.PositiveVerifier) (proofData : list bigInt),
     length proofData = 12%nat ->
     (df.PositiveVerifier_Verify v proofData = Ret true <->
      forall i, (i < length (df.pv_squareVerifiers v))%nat -> df.accepts_at v proofData i)).
Proof.
  split; [| split; [| split; [| split; [| split; [| split]]]]].
  - intros g secrets bases y challenge p. apply Prover_GetProofData_fresh.
  - intros v proofData. apply Verifier_Verify_unset.
  - intros p p' xs s s' t. apply Prover_GetProofData_retained.
  - intros committer1 committer2 committer3 css challenge.
    apply MultiplicationProver_GetProofData_fresh.
  - intros v u1 u v1 v2 v3. by apply MultiplicationVerifier_Verify_unset.
  - intros p p' s s' d1 d2 d3 x1 r1 x2 r2 r3 E1 E2 E3 Hrun.
    destruct (MultiplicationProver_GetProofRandomData_maskings _ _ _ _ _ _ _ Hrun)
      as (C1 & C2 & C3 & y1 & y & s1 & s2 & s3 & Ey1 & Ey & Es1 & Es2 & Es3).
    exists y1, y, s1, s2, s3. intros c.
    apply MultiplicationProver_GetProofData_returns; by rewrite ?C1, ?C2, ?C3.
  - intros v proofData. apply PositiveVerifier_Verify_true_iff.
Qed.

End order_properties.

(** ** The prover of the representation proof *)

Section schnorr_prover_properties.
Context {Grp R : Type} {schnorrGroup : SchnorrGroup Grp} {sampler : Sampler R}.

(** [Verify] reads the response only at the indices of the stored bases: a
    response longer than the bases is judged as its first [len(bases)]
    elements are, whatever follows them.  No length check is made in this
    direction either. *)
Theorem schnorr_Verify_ignores_surplus (v : schnorr.Verifier) (proofData surplus : list bigInt) :
  (length (schnorr.v_bases v) <= length proofData)%nat ->
  schnorr.Verify v (proofData ++ surplus) = schnorr.Verify v proofData.
Proof.
  intros Hlen. unfold schnorr.Verify.
  rewrite (for_range_ext _ (schnorr.Verify_body v (proofData ++ surplus))
             (schnorr.Verify_body v proofData)); [done |].
  intros i acc Hi. apply elem_of_seq in Hi. unfold schnorr.Verify_body, index.
  by rewrite lookup_app_l by lia.
Qed.

(** One iteration of the loop of [GetProofRandomData] over a non-nil base,
    with [Q > 0]. *)
Lemma Prover_GetProofRandomData_body_step `{!SamplerSpec R} (p : schnorr.Prover) (k : nat)
    (t b : Z) (cur : list bigInt) (s : R) :
  schnorr.p_bases p !! k = Some (Some b) -> (k < length cur)%nat ->
  0 < Group_Q (schnorr.p_Group p) ->
  exists r s',
    0 <= r < Group_Q (schnorr.p_Group p) /\
    schnorr.GetProofRandomData_body p k (t, cur, s)
    = Ret (Group_Mul (schnorr.p_Group p) t (Group_Exp (schnorr.p_Group p) b r),
           <[k := Some r]> cur, s').
Proof.
  intros Eb Hk HQ. destruct (GetRandomInt_returns _ s HQ) as (r & s' & Er).
  exists r, s'. split; [by apply (GetRandomInt_range _ _ _ _ Er) |].
  unfold schnorr.GetProofRandomData_body.
  by rewrite Er, bind_Ret, assign_lt, bind_Ret, (index_lookup _ _ _ Eb), bind_Ret by done.
Qed.

(** The loop of [GetProofRandomData] from base [k] on: it draws one masking
    per base, stores it at the index of the base and multiplies the power of
    the base into [t]. *)
Lemma Prover_GetProofRandomData_returns `{!SamplerSpec R} (p : schnorr.Prover) (bs : list Z) :
  schnorr.p_bases p = Some <$> bs -> 0 < Group_Q (schnorr.p_Group p) ->
  forall m k t cur s, (k + m)%nat = length bs -> length cur = length bs ->
    exists rs s',
      for_range (seq k m) (schnorr.GetProofRandomData_body p) (t, cur, s)
      = Ret (fold_left (fun a bz => Group_Mul (schnorr.p_Group p) a
                                      (Group_Exp (schnorr.p_Group p) bz.1 bz.2))
               (zip (drop k bs) rs) t,
             take k cur ++ (Some <$> rs), s') /\
      length rs = m /\
      Forall (fun r => 0 <= r < Group_Q (schnorr.p_Group p)) rs.
Proof.
  intros Hb HQ. induction m as [| m IH]; intros k t cur s Hk Hcur.
  - exists [], s. rewrite for_range_nil, zip_with_nil_r, app_nil_r, take_ge by lia. done.
  - destruct (lookup_lt_is_Some_2 bs k) as [b Eb]; [lia |].
    destruct (Prover_GetProofRandomData_body_step p k t b cur s) as (r & s1 & Hr & Hbody);
      [by rewrite Hb, list_lookup_fmap, Eb | lia | done |].
    destruct (IH (S k) (Group_Mul (schnorr.p_Group p) t (Group_Exp (schnorr.p_Group p) b r))
                (<[k := Some r]> cur) s1) as (rs & s' & Hloop & Hl & Hrs);
      [lia | by rewrite length_insert |].
    exists (r :: rs), s'. split; [| split; [simpl; lia | by apply Forall_cons]].
    rewrite for_range_seq_S, Hbody, bind_Ret, Hloop, (drop_S _ _ _ Eb).
    rewrite (take_S_r _ _ (Some r)) by (apply list_lookup_insert_eq; lia).
    rewrite take_insert_ge by lia. by rewrite <- (assoc_L (++)).
Qed.

(** The prover of the representation proof, from its construction to the
    response.
    - [NewProver] returns its error when the numbers of secrets and bases
      differ.
    - With as many secrets as bases and [Q > 0], [NewProver] returns the
      prover; [GetProofRandomData] draws one masking [r_i] in [[0, Q)] per
      base, returns [t], the product of the [g_i^r_i] built from 1, and keeps
      the maskings; [GetProofData] then returns, for every challenge [c],
      one response per base, [Add(Mul(c, x_i), r_i)] in the arithmetic of the
      group.
    - With [Q <= 0] and a base, [GetProofRandomData] does not return: the
      interval of the first draw is empty. *)
Theorem schnorr_Prover_transcript `{!SamplerSpec R} (g : Grp) (xs bs : list Z) (y : bigInt)
    (s : R) :
  (length xs ≠ length bs ->
   schnorr.NewProver g (Some <$> xs) (Some <$> bs) y
   = Err "number of secrets and representation bases shoud be the same") /\
  (length xs = length bs -> 0 < Group_Q g ->
   exists (rs : list Z) (s' : R),
     let p := {| schnorr.p_Group := g; schnorr.p_secrets := Some <$> xs;
                 schnorr.p_bases := Some <$> bs; schnorr.p_randomVals := [];
                 schnorr.p_y := y |} in
     let p' := {| schnorr.p_Group := g; schnorr.p_secrets := Some <$> xs;
                  schnorr.p_bases := Some <$> bs; schnorr.p_randomVals := Some <$> rs;
                  schnorr.p_y := y |} in
     schnorr.NewProver g (Some <$> xs) (Some <$> bs) y = Val p /\
     length rs = length bs /\
     Forall (fun r => 0 <= r < Group_Q g) rs /\
     schnorr.GetProofRandomData p s = Ret (Some (schnorr.prodExp g bs rs), p', s') /\
     forall c : Z,
       schnorr.GetProofData p' (Some c)
       = Ret (Some <$> zip_with (fun x r => Group_Add g (Group_Mul g c x) r) xs rs)) /\
  (Group_Q g <= 0 -> bs <> [] -> length xs = length bs ->
   forall p, schnorr.NewProver g (Some <$> xs) (Some <$> bs) y = Val p ->
     exists e, schnorr.GetProofRandomData p s = Panic e).
Proof.
  split; [| split].
  - intros Hne. unfold schnorr.NewProver. rewrite decide_True; [done |].
    by rewrite !length_fmap.
  - intros Hlen HQ.
    set (p := {| schnorr.p_Group := g; schnorr.p_secrets := Some <$> xs;
                 schnorr.p_bases := Some <$> bs; schnorr.p_randomVals := [];
                 schnorr.p_y := y |}).
    destruct (Prover_GetProofRandomData_returns p bs eq_refl HQ (length bs) 0 1
                (replicate (length bs) None) s) as (rs & s' & Hloop & Hl & Hrs);
      [done | by rewrite length_replicate |].
    exists rs, s'. cbn zeta. fold p.
    set (p' := {| schnorr.p_Group := g; schnorr.p_secrets := Some <$> xs;
                  schnorr.p_bases := Some <$> bs; schnorr.p_randomVals := Some <$> rs;
                  schnorr.p_y := y |}).
    split; [| split; [done | split; [done | split]]].
    + unfold schnorr.NewProver. rewrite decide_False; [done |].
      rewrite !length_fmap. intros Hne. by apply Hne.
    + unfold schnorr.GetProofRandomData. cbn [schnorr.p_bases p].
      rewrite length_fmap. cbn [schnorr.p_Group p] in Hloop. rewrite Hloop, bind_Ret.
      by rewrite drop_0.
    + intros c.
      destruct (Prover_GetProofData_loop p' c (length bs)) with
        (m := length bs) (k := 0%nat) (cur := replicate (length bs) (@None Z))
        as (zs & Hz & Hzl & _ & Hout).
      * intros i Hi. destruct (lookup_lt_is_Some_2 xs i) as [x Ex]; [lia |].
        destruct (lookup_lt_is_Some_2 rs i) as [r Er]; [lia |].
        exists x, r. cbn [schnorr.p_secrets schnorr.p_randomVals p'].
        by rewrite !list_lookup_fmap, Ex, Er.
      * done.
      * by rewrite length_replicate.
      * unfold schnorr.GetProofData. cbn [schnorr.p_bases p']. rewrite length_fmap, Hz.
        f_equal. apply list_eq. intros i.
        rewrite list_lookup_fmap, lookup_zip_with.
        destruct (decide (i < length bs)%nat) as [Hi | Hi].
        -- destruct (lookup_lt_is_Some_2 xs i) as [x Ex]; [lia |].
           destruct (lookup_lt_is_Some_2 rs i) as [r Er]; [lia |].
           rewrite (Hout i x r); [by rewrite Ex, Er | lia | |];
             cbn [schnorr.p_secrets schnorr.p_randomVals p'];
             by rewrite list_lookup_fmap, ?Ex, ?Er.
        -- rewrite (lookup_ge_None_2 zs), (lookup_ge_None_2 xs) by lia. done.
  - intros HQ Hbs Hlen p Hp. unfold schnorr.NewProver in Hp.
    rewrite decide_False in Hp by (rewrite !length_fmap; intros Hne; by apply Hne).
    injection Hp as <-. unfold schnorr.GetProofRandomData. cbn [schnorr.p_bases].
    destruct bs as [| b bs]; [done |]. rewrite fmap_cons. cbn [length].
    rewrite for_range_seq_S.
    match goal with
    | |- context [schnorr.GetProofRandomData_body ?p ?k ?st ≫= _] =>
        assert (exists e, schnorr.GetProofRandomData_body p k st = Panic e) as [e ->]
    end.
    { unfold schnorr.GetProofRandomData_body. cbn [schnorr.p_Group].
      destruct (GetRandomInt (Group_Q g) s) as [[r s1] | e] eqn:Er.
      - apply GetRandomInt_range in Er. lia.
      - by exists e. }
    by exists e.
Qed.

End schnorr_prover_properties.

(** ** Challenges and the random data of the multiplication proof *)

Section challenge_properties.
Context {Grp QR Primes R : Type}.
Context {schnorrGroup : SchnorrGroup Grp} {qr : QRSpecialRSA QR Primes} {sampler : Sampler R}.

(** A bound [2^e] of math/big is positive, also for [e <= 0], where it is 1. *)
Lemma exp2_pos (e : Z) : 0 < df.exp2 e.
Proof. unfold df.exp2. destruct (Z.leb_spec e 0); [lia |]. apply Z.pow_pos_nonneg; lia. Qed.

(** [GetChallenge] is [SetChallenge] of a fresh draw.
    - Representation proof: with [Q > 0] the challenge lies in [[0, Q)], is
      returned and is stored in the verifier, whose other fields are kept;
      with [Q <= 0] the call does not return.
    - Multiplication proof: the call always returns; the challenge lies in
      [[0, 2^challengeSpaceSize)], and it is 0 when [challengeSpaceSize <= 0],
      where the bound [2^challengeSpaceSize] of math/big is 1. *)
Theorem GetChallenge_sets_a_draw_in_range `{!SamplerSpec R} :
  (forall (v : @schnorr.Verifier Grp) (s : R),
     (0 < Group_Q (schnorr.v_Group v) ->
      exists c s', 0 <= c < Group_Q (schnorr.v_Group v) /\
        schnorr.GetChallenge v s = Ret (Some c, schnorr.SetChallenge v (Some c), s')) /\
     (Group_Q (schnorr.v_Group v) <= 0 -> exists e, schnorr.GetChallenge v s = Panic e)) /\
  (forall (v : @df.MultiplicationVerifier QR) (s : R),
     exists c s',
       df.MultiplicationVerifier_GetChallenge v s
       = Ret (Some c, df.MultiplicationVerifier_SetChallenge v (Some c), s') /\
       (if df.mv_challengeSpaceSize v <=? 0 then c = 0
        else 0 <= c < 2 ^ df.mv_challengeSpaceSize v)).
Proof.
  split.
  - intros v s. split.
    + intros HQ. destruct (GetRandomInt_returns _ s HQ) as (c & s' & Ec).
      exists c, s'. split; [by apply (GetRandomInt_range _ _ _ _ Ec) |].
      unfold schnorr.GetChallenge. by rewrite Ec.
    + intros HQ. unfold schnorr.GetChallenge.
      destruct (GetRandomInt _ s) as [[c s'] | e] eqn:Ec.
      * apply GetRandomInt_range in Ec. lia.
      * by exists e.
  - intros v s.
    destruct (GetRandomInt_returns _ s (exp2_pos (df.mv_challengeSpaceSize v))) as (c & s' & Ec).
    exists c, s'. split.
    + unfold df.MultiplicationVerifier_GetChallenge. by rewrite Ec.
    + apply GetRandomInt_range in Ec. unfold df.exp2 in Ec.
      destruct (df.mv_challengeSpaceSize v <=? 0); lia.
Qed.

(** [GetProofRandomData] on a new prover whose first committer holds its
    witness, with [T > 0]: the five maskings and the three commitments. *)
Lemma MultiplicationProver_GetProofRandomData_returns `{!SamplerSpec R}
    (committer1 committer2 committer3 : @df.Committer QR) (challengeSpaceSize x1 r1 : Z)
    (s : R) :
  df.GetDecommitMsg committer1 = (Some x1, Some r1) ->
  0 < df.c_T committer1 ->
  let g := df.c_QRSpecialRSA committer1 in
  let G := df.c_G committer1 in
  let H' := df.c_H committer1 in
  let b1 := df.exp2 (QR_NBitLen g + challengeSpaceSize) * df.c_T committer1 in
  let b2 := df.exp2 (df.c_B committer1 + 2 * QR_NBitLen g + challengeSpaceSize) in
  let c1 := QR_Mul g (QR_Exp g G x1) (QR_Exp g H' r1) in
  exists (y1 y s1 s2 s3 : Z) (s' : R),
    (0 <= y1 < b1 /\ 0 <= y < b1) /\
    (0 <= s1 < b2 /\ 0 <= s2 < b2 /\ 0 <= s3 < b2) /\
    df.MultiplicationProver_GetProofRandomData
      (df.NewMultiplicationProver committer1 committer2 committer3 challengeSpaceSize) s
    = Ret (Some (QR_Mul g (QR_Exp g G y1) (QR_Exp g H' s1)),
           Some (QR_Mul g (QR_Exp g G y) (QR_Exp g H' s2)),
           Some (QR_Mul g (QR_Exp g c1 y) (QR_Exp g H' s3)),
           {| df.mp_committer1 := committer1; df.mp_committer2 := committer2;
              df.mp_committer3 := committer3;
              df.mp_challengeSpaceSize := challengeSpaceSize;
              df.mp_y1 := Some y1; df.mp_s1 := Some s1; df.mp_y := Some y;
              df.mp_s2 := Some s2; df.mp_s3 := Some s3 |},
           s').
Proof.
  intros Hw HT g0 G H' b1 b2 c1.
  assert (0 < b2) as Hb2 by apply exp2_pos.
  assert (0 < b1) as Hb1.
  { apply Z.mul_pos_pos; [apply exp2_pos | done]. }
  destruct (GetRandomInt_returns b1 s Hb1) as (y1 & t1 & E1).
  destruct (GetRandomInt_returns b1 t1 Hb1) as (y & t2 & E2).
  destruct (GetRandomInt_returns b2 t2 Hb2) as (s1 & t3 & E3).
  destruct (GetRandomInt_returns b2 t3 Hb2) as (s2 & t4 & E4).
  destruct (GetRandomInt_returns b2 t4 Hb2) as (s3 & t5 & E5).
  exists y1, y, s1, s2, s3, t5.
  pose proof (GetRandomInt_range _ _ _ _ E1). pose proof (GetRandomInt_range _ _ _ _ E2).
  pose proof (GetRandomInt_range _ _ _ _ E3). pose proof (GetRandomInt_range _ _ _ _ E4).
  pose proof (GetRandomInt_range _ _ _ _ E5).
  split; [done |]. split; [done |].
  unfold df.MultiplicationProver_GetProofRandomData.
  cbn [df.mp_committer1 df.mp_committer2 df.mp_committer3 df.mp_challengeSpaceSize
       df.NewMultiplicationProver].
  fold g0. fold b1. fold b2.
  rewrite E1, bind_Ret, E2, bind_Ret, E3, bind_Ret, E4, bind_Ret, E5, bind_Ret.
  rewrite Hw. unfold df.Committer_ComputeCommit.
  rewrite !ComputeCommit_returns, !bind_Ret. reflexivity.
Qed.

(** [GetProofRandomData] of the multiplication proof, on a new prover whose
    first committer holds its witness (x1, r1).
    - With [T > 0] it returns.  The maskings [y1], [y] are drawn from
      [[0, T * 2^(bitlen(N) + challengeSpaceSize))] and [s1], [s2], [s3] from
      [[0, 2^(B + 2*bitlen(N) + challengeSpaceSize))]; they are kept in the
      prover, and the three values returned are [d1 = G^y1 * H^s1],
      [d2 = G^y * H^s2] and [d3 = c1^y * H^s3] with [c1 = G^x1 * H^r1], all
      computed with the group, [G] and [H] of the first committer.
    - With [T <= 0] the bound of the first draw is not positive and the call
      does not return. *)
Theorem MultiplicationProver_GetProofRandomData_commitments `{!SamplerSpec R}
    (committer1 committer2 committer3 : @df.Committer QR) (challengeSpaceSize x1 r1 : Z)
    (s : R) :
  df.GetDecommitMsg committer1 = (Some x1, Some r1) ->
  let g := df.c_QRSpecialRSA committer1 in
  let G := df.c_G committer1 in
  let H' := df.c_H committer1 in
  let b1 := df.exp2 (QR_NBitLen g + challengeSpaceSize) * df.c_T committer1 in
  let b2 := df.exp2 (df.c_B committer1 + 2 * QR_NBitLen g + challengeSpaceSize) in
  let c1 := QR_Mul g (QR_Exp g G x1) (QR_Exp g H' r1) in
  let p := df.NewMultiplicationProver committer1 committer2 committer3 challengeSpaceSize in
  (0 < df.c_T committer1 ->
   exists (y1 y s1 s2 s3 : Z) (s' : R),
     (0 <= y1 < b1 /\ 0 <= y < b1) /\
     (0 <= s1 < b2 /\ 0 <= s2 < b2 /\ 0 <= s3 < b2) /\
     df.MultiplicationProver_GetProofRandomData p s
     = Ret (Some (QR_Mul g (QR_Exp g G y1) (QR_Exp g H' s1)),
            Some (QR_Mul g (QR_Exp g G y) (QR_Exp g H' s2)),
            Some (QR_Mul g (QR_Exp g c1 y) (QR_Exp g H' s3)),
            {| df.mp_committer1 := committer1; df.mp_committer2 := committer2;
               df.mp_committer3 := committer3;
               df.mp_challengeSpaceSize := challengeSpaceSize;
               df.mp_y1 := Some y1; df.mp_s1 := Some s1; df.mp_y := Some y;
               df.mp_s2 := Some s2; df.mp_s3 := Some s3 |},
            s')) /\
  (df.c_T committer1 <= 0 ->
   exists e, df.MultiplicationProver_GetProofRandomData p s = Panic e).
Proof.
  intros Hw g G H' b1 b2 c1 p. split.
  - intros HT.
    apply (MultiplicationProver_GetProofRandomData_returns committer1 committer2 committer3
             challengeSpaceSize x1 r1 s Hw HT).
  - intros HT. unfold df.MultiplicationProver_GetProofRandomData.
    cbn [df.mp_committer1 df.mp_challengeSpaceSize p df.NewMultiplicationProver].
    fold g. fold b1.
    destruct (GetRandomInt b1 s) as [[y1 t1] | e] eqn:E1.
    + apply GetRandomInt_range in E1.
      assert (b1 <= 0); [| lia].
      apply Z.mul_nonneg_nonpos; [| done].
      pose proof (exp2_pos (QR_NBitLen g + challengeSpaceSize)). lia.
    + by exists e.
Qed.

End challenge_properties.

(** ** The laws of the hidden-order group *)

Section group_laws.
Context {QR Primes : Type} {qr : QRSpecialRSA QR Primes}.
Context (g : QR) (elem : Z -> Prop) {laws : QRGroupLaws g elem}.

Local Abbreviation M := (QR_Mul g).
Local Abbreviation E := (QR_Exp g).

Local Ltac elem_tac :=
  repeat first [ assumption | lia | apply QR_elem_1 | apply QR_Mul_elem | apply QR_Exp_elem
               | apply QR_Inv_elem | apply Z.mul_nonneg_nonneg | apply Z.add_nonneg_nonneg ].

Lemma QR_Mul_1_r (a : Z) : elem a -> M a 1 = a.
Proof. intros Ha. rewrite QR_Mul_comm by elem_tac. by apply QR_Mul_1_l. Qed.

Lemma QR_Mul_interchange (a b c d : Z) :
  elem a -> elem b -> elem c -> elem d -> M (M a b) (M c d) = M (M a c) (M b d).
Proof.
  intros Ha Hb Hc Hd.
  rewrite (QR_Mul_assoc a b (M c d)) by elem_tac.
  rewrite <- (QR_Mul_assoc b c d) by elem_tac.
  rewrite (QR_Mul_comm b c) by elem_tac.
  rewrite (QR_Mul_assoc c b d) by elem_tac.
  by rewrite <- (QR_Mul_assoc a c (M b d)) by elem_tac.
Qed.

(** The opening of a commitment: the commitment to the masking times the
    commitment to the witness to the challenge. *)
Lemma commit_response (G H' x r y s c : Z) :
  elem G -> elem H' -> 0 <= x -> 0 <= r -> 0 <= y -> 0 <= s -> 0 <= c ->
  M (E G (y + c * x)) (E H' (s + c * r))
  = M (M (E G y) (E H' s)) (E (M (E G x) (E H' r)) c).
Proof.
  intros HG HH Hx Hr Hy Hs Hc.
  rewrite !QR_Exp_add, QR_Exp_Mul, !QR_Exp_mul by elem_tac.
  rewrite (Z.mul_comm x c), (Z.mul_comm r c).
  apply QR_Mul_interchange; elem_tac.
Qed.

Lemma commit_elem (G H' x r : Z) :
  elem G -> elem H' -> 0 <= x -> 0 <= r -> elem (M (E G x) (E H' r)).
Proof. intros. elem_tac. Qed.

(** The third opening, with [c1] as the base: the exponent of [H] may be
    negative, and is then applied through the inverse. *)
Lemma commit_response_signed (G H' x1 r1 x2 r3 y s3 c : Z) :
  elem G -> elem H' -> 0 <= x1 -> 0 <= r1 -> 0 <= x2 -> 0 <= r3 ->
  0 <= y -> 0 <= s3 -> 0 <= c ->
  let c1 := M (E G x1) (E H' r1) in
  M (E c1 (y + c * x2)) (df.signedExp g H' (s3 + c * (r3 - x2 * r1)))
  = M (M (E c1 y) (E H' s3)) (E (M (E G (x1 * x2)) (E H' r3)) c).
Proof.
  intros HG HH Hx1 Hr1 Hx2 Hr3 Hy Hs3 Hc c1.
  assert (elem c1) as Hc1 by (by apply commit_elem).
  set (v3 := s3 + c * (r3 - x2 * r1)).
  rewrite (QR_Exp_add c1) by elem_tac.
  rewrite (QR_Exp_Mul (E G (x1 * x2))), !QR_Exp_mul by elem_tac.
  assert (E c1 (c * x2) = M (E G (x1 * x2 * c)) (E H' (r1 * x2 * c))) as ->.
  { unfold c1. rewrite QR_Exp_Mul, !QR_Exp_mul by elem_tac.
    by rewrite <- !Z.mul_assoc, (Z.mul_comm c x2). }
  set (P := E c1 y). set (K := E G (x1 * x2 * c)).
  assert (elem P) as HP by (unfold P; elem_tac).
  assert (elem K) as HK by (unfold K; elem_tac).
  assert (M (E H' (r1 * x2 * c)) (df.signedExp g H' v3) = M (E H' s3) (E H' (r3 * c))) as Hexp.
  { unfold df.signedExp. destruct (Z.ltb_spec v3 0) as [Hneg | Hpos].
    - replace (r1 * x2 * c) with ((s3 + r3 * c) + Z.abs v3) by (unfold v3; lia).
      rewrite (QR_Exp_add H' (s3 + r3 * c)) by elem_tac.
      rewrite QR_Mul_assoc, QR_Mul_Inv, QR_Mul_1_r by elem_tac.
      by rewrite QR_Exp_add by elem_tac.
    - rewrite <- !QR_Exp_add by elem_tac. f_equal. unfold v3. lia. }
  assert (elem (df.signedExp g H' v3)) as HT.
  { unfold df.signedExp. destruct (Z.ltb_spec v3 0); elem_tac. }
  set (T := df.signedExp g H' v3) in *.
  rewrite (QR_Mul_assoc P) by elem_tac.
  rewrite (QR_Mul_assoc K) by elem_tac.
  rewrite Hexp.
  rewrite (QR_Mul_assoc P (E H' s3)) by elem_tac.
  f_equal.
  rewrite <- !QR_Mul_assoc by elem_tac. f_equal. apply QR_Mul_comm; elem_tac.
Qed.

Lemma sumZ_nonneg (zs : list Z) : Forall (fun z => 0 <= z) zs -> 0 <= df.sumZ zs.
Proof.
  unfold df.sumZ. induction 1 as [| z zs Hz _ IH]; cbn [foldr]; lia.
Qed.

(** The group product of commitments is the commitment to the sums. *)
Lemma product_commitments (G H' : Z) :
  elem G -> elem H' ->
  forall (xs zs : list Z) (acc : Z),
    length xs = length zs ->
    Forall (fun x => 0 <= x) xs -> Forall (fun z => 0 <= z) zs -> elem acc ->
    fold_left M (zip_with (fun x z => M (E G x) (E H' z)) xs zs) acc
    = M acc (M (E G (df.sumZ xs)) (E H' (df.sumZ zs))).
Proof.
  intros HG HH. induction xs as [| x xs IH]; intros zs acc Hlen Hxs Hzs Hacc.
  - destruct zs; [| done]. cbn [zip_with fold_left]. unfold df.sumZ. cbn [foldr].
    rewrite !(QR_Exp_0 (g := g)) by done.
    rewrite (QR_Mul_1_l (g := g)) by apply (QR_elem_1 (g := g)).
    by rewrite QR_Mul_1_r.
  - destruct zs as [| z zs]; [done |]. cbn [zip_with fold_left].
    apply Forall_cons in Hxs as [Hx Hxs]. apply Forall_cons in Hzs as [Hz Hzs].
    pose proof (sumZ_nonneg xs Hxs). pose proof (sumZ_nonneg zs Hzs).
    assert (elem (M (E G x) (E H' z))) as Hc
      by (apply (QR_Mul_elem (g := g)); by apply (QR_Exp_elem (g := g))).
    rewrite IH; [| by injection Hlen | done | done | by apply (QR_Mul_elem (g := g))].
    assert (elem (E G (df.sumZ xs))) by (by apply (QR_Exp_elem (g := g))).
    assert (elem (E H' (df.sumZ zs))) by (by apply (QR_Exp_elem (g := g))).
    assert (elem (E G x)) by (by apply (QR_Exp_elem (g := g))).
    assert (elem (E H' z)) by (by apply (QR_Exp_elem (g := g))).
    rewrite (QR_Mul_assoc (g := g)) by (done || by apply (QR_Mul_elem (g := g))).
    f_equal. rewrite QR_Mul_interchange by done.
    unfold df.sumZ. cbn [foldr]. fold (df.sumZ xs). fold (df.sumZ zs).
    by rewrite !(QR_Exp_add (g := g)) by done.
Qed.

End group_laws.

(** ** Completeness of the multiplication proof *)

Section multiplication_completeness.
Context {QR Primes R : Type} {qr : QRSpecialRSA QR Primes} {sampler : Sampler R}.
Context (g : QR) (elem : Z -> Prop) {laws : QRGroupLaws g elem}.

(** Completeness of the multiplication proof.  In a group that keeps the
    group laws, with [G] and [H] elements of it, nonnegative witnesses
    (x1, r1), (x2, r2), a nonnegative r3 and [T > 0]: for the commitments
    [c1 = G^x1 * H^r1], [c2 = G^x2 * H^r2] and [c3 = G^(x1*x2) * H^r3],
    [GetProofRandomData] on the new prover returns, [GetProofData] answers
    every nonnegative challenge, and [Verify] of the verifier that was given
    the random data and the challenge accepts the answer.  The integer
    [r3 - x2*r1] may be negative: the third equation is then checked through
    the inverse. *)
Theorem Multiplication_honest_response_accepted `{!SamplerSpec R}
    (G H' T K B x1 r1 x2 r2 r3 challengeSpaceSize challenge : Z) (s : R) :
  elem G -> elem H' -> 0 < T ->
  0 <= x1 -> 0 <= r1 -> 0 <= x2 -> 0 <= r2 -> 0 <= r3 -> 0 <= challenge ->
  let committer x r := df.mkCommitter g G H' T K B (Some x) (Some r) in
  let commitment x r := QR_Mul g (QR_Exp g G x) (QR_Exp g H' r) in
  let receiver x r := df.mkReceiver g G H' K (Some (commitment x r)) in
  let p := df.NewMultiplicationProver (committer x1 r1) (committer x2 r2)
             (committer (x1 * x2) r3) challengeSpaceSize in
  let v := df.NewMultiplicationVerifier (receiver x1 r1) (receiver x2 r2)
             (receiver (x1 * x2) r3) challengeSpaceSize in
  exists d1 d2 d3 p' s' u1 u v1 v2 v3,
    df.MultiplicationProver_GetProofRandomData p s = Ret (d1, d2, d3, p', s') /\
    df.MultiplicationProver_GetProofData p' (Some challenge) = Ret (u1, u, v1, v2, v3) /\
    df.MultiplicationVerifier_Verify
      (df.MultiplicationVerifier_SetChallenge
         (df.MultiplicationVerifier_SetProofRandomData v d1 d2 d3) (Some challenge))
      u1 u v1 v2 v3
    = Ret true.
Proof.
  intros HG HH HT Hx1 Hr1 Hx2 Hr2 Hr3 Hc committer commitment receiver p v.
  destruct (MultiplicationProver_GetProofRandomData_returns
              (committer x1 r1) (committer x2 r2) (committer (x1 * x2) r3)
              challengeSpaceSize x1 r1 s eq_refl HT)
    as (y1 & y & s1 & s2 & s3 & s' & [Hy1 Hy] & (Hs1 & Hs2 & Hs3) & Hrun).
  cbn [df.c_QRSpecialRSA df.c_G df.c_H df.c_T df.c_B committer] in Hrun, Hy1, Hy, Hs1, Hs2, Hs3.
  eexists _, _, _, _, s', _, _, _, _, _. split; [exact Hrun |]. split.
  - apply (MultiplicationProver_GetProofData_returns _ challenge x1 r1 x2 r2 r3 y1 y s1 s2 s3);
      reflexivity.
  - unfold df.MultiplicationVerifier_Verify, df.Receiver_ComputeCommit.
    cbn [df.mv_receiver1 df.mv_receiver2 df.mv_receiver3 df.mv_challenge df.mv_d1 df.mv_d2
         df.mv_d3 df.MultiplicationVerifier_SetChallenge
         df.MultiplicationVerifier_SetProofRandomData df.NewMultiplicationVerifier v
         df.r_QRSpecialRSA df.r_G df.r_H df.r_Commitment receiver].
    unfold df.ComputeCommit, df.rhs. cbn [deref mbind go_bind mret go_ret]. f_equal.
    unfold commitment. rewrite Cmp_abs, !Cmp_eqb, !Bool.andb_true_iff, !Z.eqb_eq.
    split; [split |].
    + apply (commit_response g elem); lia || done.
    + apply (commit_response g elem); lia || done.
    + pose proof (commit_response_signed g elem G H' x1 r1 x2 r3 y s3 challenge) as Heq.
      unfold df.signedExp in Heq. cbn zeta in Heq.
      destruct (s3 + challenge * (r3 - x2 * r1) <? 0); cbn [negb]; apply Heq; lia || done.
Qed.

End multiplication_completeness.

(** ** The positive-number proof: numbers of sub-proofs and lengths *)

Section positive_count_properties.
Context {QR Primes R : Type} {qr : QRSpecialRSA QR Primes} {sampler : Sampler R}.
Context {SP SV : Type} {square : @df.SquareProof QR Primes R SP SV}.

(** The loop of [Verify] over sub-verifiers that accept. *)
Lemma PositiveVerifier_Verify_loop_accepting (v : df.PositiveVerifier) (pd : list bigInt) :
  forall n k calls,
    (forall i, (k <= i < k + n)%nat -> df.accepts_at v pd i) ->
    for_range (seq k n) (df.PositiveVerifier_Verify_body v pd) (true, calls)
    = Ret (true, calls ++ seq k n).
Proof.
  induction n as [| n IH]; intros k calls Hall.
  - by rewrite for_range_nil, app_nil_r.
  - destruct (Hall k) as (sv & s1 & s21 & s22 & E0 & E1 & E2 & E3 & Et); [lia |].
    assert (df.PositiveVerifier_Verify_body v pd k (true, calls) = Ret (true, calls ++ [k])) as Hb.
    { unfold df.PositiveVerifier_Verify_body.
      rewrite (index_lookup _ _ _ E0), bind_Ret, (index_lookup _ _ _ E1), bind_Ret,
        (index_lookup _ _ _ E2), bind_Ret, (index_lookup _ _ _ E3), bind_Ret.
      unfold deref. by rewrite bind_Ret, Et. }
    rewrite for_range_seq_S, Hb, bind_Ret, IH by (intros i Hi; apply Hall; lia).
    by rewrite <- (assoc_L (++)).
Qed.

(** [Verify] of a 12-element slice by more than four sub-verifiers. *)
Lemma PositiveVerifier_Verify_more_than_four (v : df.PositiveVerifier) (pd : list bigInt) :
  length pd = 12%nat -> (4 < length (df.pv_squareVerifiers v))%nat ->
  ((forall i, (i < 4)%nat -> df.accepts_at v pd i) ->
   df.PositiveVerifier_Verify v pd = Panic IndexOutOfRange) /\
  (forall k, (k < 4)%nat -> (forall j, (j < k)%nat -> df.accepts_at v pd j) ->
     df.rejects_at v pd k -> df.PositiveVerifier_Verify v pd = Ret false) /\
  df.PositiveVerifier_Verify v pd <> Ret true.
Proof.
  intros Hpd Hn. split; [| split].
  - intros Hall. unfold df.PositiveVerifier_Verify, df.PositiveVerifier_Verify_calls.
    rewrite decide_False by (intros Hne; by apply Hne).
    replace (length (df.pv_squareVerifiers v))
      with (4 + S (length (df.pv_squareVerifiers v) - 5))%nat by lia.
    rewrite seq_app, for_range_app.
    rewrite PositiveVerifier_Verify_loop_accepting by (intros i Hi; apply Hall; lia).
    rewrite bind_Ret, for_range_seq_S.
    destruct (lookup_lt_is_Some_2 (df.pv_squareVerifiers v) 4) as [x Ex]; [lia |].
    assert (df.PositiveVerifier_Verify_body v pd (0 + 4) (true, [] ++ seq 0 4)
            = Panic IndexOutOfRange) as ->; [| done].
    unfold df.PositiveVerifier_Verify_body. cbn [Nat.add].
    rewrite (index_lookup _ _ _ Ex), bind_Ret, (index_ge pd (3 * 4)); [done | lia].
  - intros k Hk Hall (sv & s1 & s21 & s22 & E0 & E1 & E2 & E3 & Et).
    unfold df.PositiveVerifier_Verify, df.PositiveVerifier_Verify_calls.
    rewrite decide_False by (intros Hne; by apply Hne).
    replace (length (df.pv_squareVerifiers v))
      with (k + S (length (df.pv_squareVerifiers v) - S k))%nat by lia.
    rewrite seq_app, for_range_app.
    rewrite PositiveVerifier_Verify_loop_accepting by (intros i Hi; apply Hall; lia).
    rewrite bind_Ret, for_range_seq_S.
    assert (df.PositiveVerifier_Verify_body v pd (0 + k) (true, [] ++ seq 0 k)
            = Ret (false, ([] ++ seq 0 k) ++ [k])) as ->.
    { unfold df.PositiveVerifier_Verify_body. cbn [Nat.add].
      rewrite (index_lookup _ _ _ E0), bind_Ret, (index_lookup _ _ _ E1), bind_Ret,
        (index_lookup _ _ _ E2), bind_Ret, (index_lookup _ _ _ E3), bind_Ret.
      unfold deref. by rewrite bind_Ret, Et. }
    rewrite bind_Ret, PositiveVerifier_Verify_loop_false by lia. done.
  - intros Htrue. rewrite (PositiveVerifier_Verify_true_iff v pd Hpd) in Htrue.
    destruct (Htrue 4%nat Hn) as (sv & s1 & s21 & s22 & _ & E1 & _).
    apply lookup_lt_Some in E1. lia.
Qed.

(** The loop of [SetProofRandomData] over sub-verifiers [k] to [k+n-1] that
    are not nil, with the elements for them in the slice. *)
Lemma PositiveVerifier_SetProofRandomData_prefix (prd : list bigInt) :
  forall n k (svs : list (option SV)),
    (k + n <= length svs)%nat -> (2 * (k + n) <= length prd)%nat ->
    (forall i, (k <= i < k + n)%nat -> exists sv, svs !! i = Some (Some sv)) ->
    exists svs',
      for_range (seq k n) (df.PositiveVerifier_SetProofRandomData_body prd) svs = Ret svs' /\
      length svs' = length svs /\
      (forall j, (k + n <= j)%nat -> svs' !! j = svs !! j).
Proof.
  induction n as [| n IH]; intros k svs Hk Hlen Hsome.
  - exists svs. by rewrite for_range_nil.
  - destruct (Hsome k) as [sv Esv]; [lia |].
    destruct (lookup_lt_is_Some_2 prd (2 * k)) as [d1 E1]; [lia |].
    destruct (lookup_lt_is_Some_2 prd (2 * k + 1)) as [d2 E2]; [lia |].
    destruct (IH (S k) (<[k := Some (df.SquareVerifier_SetProofRandomData sv d1 d2)]> svs))
      as (svs' & Hloop & Hl & Hhigh).
    { rewrite length_insert. lia. } { lia. }
    { intros i Hi. rewrite list_lookup_insert_ne by lia. apply Hsome. lia. }
    exists svs'. rewrite length_insert in Hl. split; [| split; [done |]].
    + by rewrite for_range_seq_S,
        (PositiveVerifier_SetProofRandomData_body_step prd k svs sv d1 d2), bind_Ret.
    + intros j Hj. rewrite Hhigh by lia. by rewrite list_lookup_insert_ne by lia.
Qed.

(** The verifier with more than four sub-verifiers.  Neither
    [SetProofRandomData] nor [Verify] compares the number of sub-verifiers
    with the 8 and 12 elements they ask for.
    - [SetProofRandomData] of an 8-element slice serves the first four
      sub-verifiers and panics on the fifth, whose elements would be at the
      indices 8 and 9.
    - [Verify] of a 12-element slice never returns true: it panics on the
      index 12 when the first four sub-verifiers accept, and returns false when
      one of the first four rejects after the ones before it accepted (the
      later sub-verifiers are then not called and nothing is read past the
      end). *)
Theorem PositiveVerifier_more_than_four_subverifiers (v : df.PositiveVerifier) :
  (4 < length (df.pv_squareVerifiers v))%nat ->
  (forall prd : list bigInt,
     length prd = 8%nat ->
     (forall i, (i < 4)%nat -> exists sv, df.pv_squareVerifiers v !! i = Some (Some sv)) ->
     df.PositiveVerifier_SetProofRandomData v prd = Panic IndexOutOfRange) /\
  (forall pd : list bigInt,
     length pd = 12%nat ->
     ((forall i, (i < 4)%nat -> df.accepts_at v pd i) ->
      df.PositiveVerifier_Verify v pd = Panic IndexOutOfRange) /\
     (forall k, (k < 4)%nat -> (forall j, (j < k)%nat -> df.accepts_at v pd j) ->
        df.rejects_at v pd k -> df.PositiveVerifier_Verify v pd = Ret false) /\
     df.PositiveVerifier_Verify v pd <> Ret true).
Proof.
  intros Hn. split.
  - intros prd Hprd Hsome. unfold df.PositiveVerifier_SetProofRandomData.
    rewrite decide_False by (intros Hne; by apply Hne).
    replace (length (df.pv_squareVerifiers v))
      with (4 + S (length (df.pv_squareVerifiers v) - 5))%nat by lia.
    rewrite seq_app, for_range_app.
    destruct (PositiveVerifier_SetProofRandomData_prefix prd 4 0 (df.pv_squareVerifiers v))
      as (svs' & -> & Hl & Hhigh); [lia | lia | intros i Hi; apply Hsome; lia |].
    rewrite bind_Ret, for_range_seq_S. cbn [Nat.add].
    destruct (lookup_lt_is_Some_2 svs' 4) as [x Ex]; [lia |].
    assert (df.PositiveVerifier_SetProofRandomData_body prd 4 svs' = Panic IndexOutOfRange)
      as ->; [| done].
    unfold df.PositiveVerifier_SetProofRandomData_body.
    rewrite (index_lookup _ _ _ Ex), bind_Ret, (index_ge prd (2 * 4)); [done | lia].
  - intros pd Hpd. by apply PositiveVerifier_Verify_more_than_four.
Qed.

(** [NewPositiveVerifier] does not ask for four sub-commitments.  With no
    sub-commitment at all the product of the check is 1: for the commitment 1
    the verifier is returned with no sub-verifier, its [SetProofRandomData]
    accepts every 8-element slice and its [Verify] returns true on every
    12-element slice. *)
Theorem NewPositiveVerifier_without_subcommitments (receiver : df.Receiver) (css : Z) :
  exists v,
    df.NewPositiveVerifier receiver (Some 1) [] [] css = Ret (Val v) /\
    df.pv_squareVerifiers v = [] /\
    (forall prd, length prd = 8%nat ->
       df.PositiveVerifier_SetProofRandomData v prd = Ret (None, v)) /\
    (forall pd, length pd = 12%nat -> df.PositiveVerifier_Verify v pd = Ret true).
Proof.
  eexists. split; [reflexivity |]. split; [reflexivity |]. split.
  - intros prd Hprd. unfold df.PositiveVerifier_SetProofRandomData.
    by rewrite decide_False by (intros Hne; by apply Hne).
  - intros pd Hpd. unfold df.PositiveVerifier_Verify, df.PositiveVerifier_Verify_calls.
    by rewrite decide_False by (intros Hne; by apply Hne).
Qed.

(** When the product of the big sub-commitments is the outer commitment,
    [NewPositiveVerifier] does not return the error of its check. *)
Lemma NewPositiveVerifier_check_passes (receiver : df.Receiver) (c : Z)
    (smalls : list bigInt) (bs : list Z) (css : Z) :
  length smalls = length bs ->
  df.product (df.r_QRSpecialRSA receiver) bs = c ->
  df.NewPositiveVerifier receiver (Some c) smalls (Some <$> bs) css
  <> Ret (Err "squareProvers are not properly instantiated").
Proof.
  intros Hlen Hprod Hres.
  rewrite (NewPositiveVerifier_unfold receiver c smalls bs css Hlen) in Hres.
  rewrite Hprod, Z.eqb_refl in Hres. cbn [negb] in Hres.
  destruct (for_range_res _ (df.NewPositiveVerifier_receivers _ _) _)
    as [[receivers | msg] | e] eqn:E2; [| | done].
  - rewrite bind_Ret in Hres.
    destruct (for_range_res _ (df.NewPositiveVerifier_verifiers _ _ _) _)
      as [[svs | msg] | e] eqn:E3; [done | | done].
    rewrite bind_Ret in Hres. injection Hres as ->.
    apply (for_range_res_Err
             (fun m => m = "error when creating SquareVerifier"%string)) in E3;
      [done |]. intros i s0 m. apply NewPositiveVerifier_verifiers_Err.
  - rewrite bind_Ret in Hres. injection Hres as ->.
    apply (for_range_res_Err
             (fun m => m = "error when calling NewReceiverFromParams"%string)) in E2;
      [done |]. intros i s0 m. apply NewPositiveVerifier_receivers_Err.
Qed.

(** [NewPositiveVerifier] with different numbers of small and big
    sub-commitments; the number of sub-proofs is the number of small ones.
    - With fewer big than small commitments, the loop of the check reads past
      the end of the big ones and panics, whatever the outer commitment.
    - With more big than small commitments, the check multiplies only the
      first [len(smallCommitments)] big ones; when their product is the outer
      commitment and [NewReceiverFromParams] succeeds, the loop over all the
      big commitments writes past the end of the receivers and panics. *)
Theorem NewPositiveVerifier_length_mismatch (receiver : df.Receiver) (c : bigInt)
    (smalls : list bigInt) (bs : list Z) (css : Z) :
  ((length bs < length smalls)%nat ->
   df.NewPositiveVerifier receiver c smalls (Some <$> bs) css = Panic IndexOutOfRange) /\
  ((length smalls < length bs)%nat ->
   c = Some (df.product (df.r_QRSpecialRSA receiver) (take (length smalls) bs)) ->
   forall rc0 : df.Receiver,
     df.NewReceiverFromParams (QR_GetPrimes (df.r_QRSpecialRSA receiver))
       (df.r_G receiver) (df.r_H receiver) (df.r_K receiver) = Val rc0 ->
     df.NewPositiveVerifier receiver c smalls (Some <$> bs) css = Panic IndexOutOfRange).
Proof.
  split.
  - intros Hlen. unfold df.NewPositiveVerifier.
    replace (length smalls) with (length bs + S (length smalls - S (length bs)))%nat by lia.
    rewrite seq_app, for_range_app, NewPositiveVerifier_check_loop, bind_Ret by lia.
    rewrite for_range_seq_S.
    match goal with
    | |- context [df.NewPositiveVerifier_check ?g ?b ?k ?a ≫= _] =>
        assert (df.NewPositiveVerifier_check g b k a = Panic IndexOutOfRange) as ->; [| done]
    end.
    unfold df.NewPositiveVerifier_check.
    rewrite index_ge; [done |]. rewrite length_fmap. lia.
  - intros Hlen -> rc0 Hnew. unfold df.NewPositiveVerifier.
    rewrite NewPositiveVerifier_check_loop, bind_Ret, drop_0 by lia.
    cbn [deref]. rewrite bind_Ret, Cmp_eqb. unfold df.product. rewrite Z.eqb_refl.
    cbn [negb]. rewrite length_fmap.
    replace (length bs) with (length smalls + S (length bs - S (length smalls)))%nat at 1 by lia.
    rewrite seq_app, for_range_res_app.
    destruct (NewPositiveVerifier_receivers_prefix receiver rc0 (Some <$> bs) Hnew
                (length smalls) 0 (replicate (length smalls) None)) as (cur' & -> & Hl).
    { rewrite length_fmap. lia. } { rewrite length_replicate. lia. }
    rewrite bind_Ret. cbn [seq for_range_res Nat.add].
    destruct (lookup_lt_is_Some_2 (Some <$> bs) (length smalls)) as [comm Ec].
    { rewrite length_fmap. lia. }
    assert (df.NewPositiveVerifier_receivers receiver (Some <$> bs) (length smalls) cur'
            = Panic IndexOutOfRange) as ->; [| done].
    unfold df.NewPositiveVerifier_receivers.
    rewrite (index_lookup _ _ _ Ec), bind_Ret, Hnew, assign_ge; [done |].
    rewrite Hl, length_replicate. lia.
Qed.

(** The loop of the prover's [GetProofData] over a range of sub-provers that
    return. *)
Lemma PositiveProver_GetProofData_prefix (p : df.PositiveProver)
    (challenges : list bigInt) (sps : list SP) :
  df.pp_squareProvers p = Some <$> sps ->
  forall n k pd,
    (3 * (k + n) <= length pd)%nat ->
    (forall i, (k <= i < k + n)%nat ->
       exists sp c r, sps !! i = Some sp /\ challenges !! i = Some c /\
         df.SquareProver_GetProofData sp c = Ret r) ->
    exists pd',
      for_range (seq k n) (df.PositiveProver_GetProofData_body p challenges) pd = Ret pd' /\
      length pd' = length pd.
Proof.
  intros Hp. induction n as [| n IH]; intros k pd Hlen Hret.
  - by exists pd.
  - destruct (Hret k) as (sp & c & [[s1 s21] s22] & Esp & Ec & Ecall); [lia |].
    destruct (IH (S k) (<[(3 * k + 2)%nat := s22]>
                         (<[(3 * k + 1)%nat := s21]> (<[(3 * k)%nat := s1]> pd))))
      as (pd' & Hloop & Hl).
    { rewrite !length_insert. lia. } { intros i Hi. apply Hret. lia. }
    exists pd'. rewrite !length_insert in Hl. split; [| done].
    rewrite for_range_seq_S.
    rewrite (PositiveProver_GetProofData_body_step p _ _ k sp c s1 s21 s22);
      [| by rewrite Hp, list_lookup_fmap, Esp | done | done | lia].
    by rewrite bind_Ret.
Qed.

(** The prover's [GetProofData] and the number of challenges.  With fewer
    challenges than sub-provers the call panics: on the missing challenge
    (index out of range) when the sub-provers before it return.  With at
    least as many, the challenges after the first [len(squareProvers)] are
    never read. *)
Theorem PositiveProver_GetProofData_challenge_count (p : df.PositiveProver)
    (sps : list SP) (challenges : list bigInt) :
  df.pp_squareProvers p = Some <$> sps ->
  ((length challenges < length sps)%nat ->
   (exists e, df.PositiveProver_GetProofData p challenges = Panic e) /\
   ((forall i sp c, sps !! i = Some sp -> challenges !! i = Some c ->
       exists r, df.SquareProver_GetProofData sp c = Ret r) ->
    df.PositiveProver_GetProofData p challenges = Panic IndexOutOfRange)) /\
  (forall surplus : list bigInt,
     (length sps <= length challenges)%nat ->
     df.PositiveProver_GetProofData p (challenges ++ surplus)
     = df.PositiveProver_GetProofData p challenges).
Proof.
  intros Hp. split.
  - intros Hlen.
    destruct (lookup_lt_is_Some_2 sps (length challenges) Hlen) as [sp Esp].
    assert (forall pd, df.PositiveProver_GetProofData_body p challenges (length challenges) pd
                       = Panic IndexOutOfRange) as Hbody.
    { intros pd. unfold df.PositiveProver_GetProofData_body.
      rewrite Hp, (index_fmap_Some _ _ _ Esp), bind_Ret, index_ge; done. }
    unfold df.PositiveProver_GetProofData. rewrite Hp, length_fmap. split.
    + apply (for_range_panics_at _ (length challenges)).
      * intros pd. rewrite Hbody. by eexists.
      * apply elem_of_seq. lia.
    + intros Hret.
      replace (length sps)
        with (length challenges + S (length sps - S (length challenges)))%nat at 1 by lia.
      rewrite seq_app, for_range_app.
      destruct (PositiveProver_GetProofData_prefix p challenges sps Hp (length challenges) 0
                  (replicate (length sps * 3) None)) as (pd' & -> & _).
      { rewrite length_replicate. lia. }
      { intros i Hi. destruct (lookup_lt_is_Some_2 sps i) as [sp' Esp']; [lia |].
        destruct (lookup_lt_is_Some_2 challenges i) as [c Ec]; [lia |].
        destruct (Hret i sp' c Esp' Ec) as [r Er]. by exists sp', c, r. }
      by rewrite bind_Ret, for_range_seq_S, Hbody.
  - intros surplus Hlen. unfold df.PositiveProver_GetProofData.
    apply for_range_ext. intros i pd Hi. apply elem_of_seq in Hi.
    rewrite Hp, length_fmap in Hi.
    unfold df.PositiveProver_GetProofData_body, index.
    by rewrite lookup_app_l by lia.
Qed.

Lemma subverifiers_GetChallenge_length (svs : list SV) :
  forall s cs svs' s',
    df.subverifiers_GetChallenge svs s = Ret (cs, svs', s') ->
    length cs = length svs /\ length svs' = length svs.
Proof.
  induction svs as [| sv rest IH]; intros s cs svs' s' Hrun.
  - by injection Hrun as <- <- <-.
  - simpl in Hrun.
    destruct (df.SquareVerifier_GetChallenge sv s) as [[[c sv1] s1] | e]; [| done].
    simpl in Hrun.
    destruct (df.subverifiers_GetChallenge rest s1) as [[[cs1 rest1] s2] | e] eqn:Erest;
      [| done]. simpl in Hrun. injection Hrun as <- <- <-.
    destruct (IH _ _ _ _ Erest) as [Hc Hv]. cbn [length]. lia.
Qed.

(** The loop of [GetChallenges], from sub-verifier [length pre] on. *)
Lemma GetChallenges_loop (todo : list SV) :
  forall (pre : list SV) (cur : list bigInt) (s : R) cs todo' s',
    df.subverifiers_GetChallenge todo s = Ret (cs, todo', s') ->
    length cur = (length pre + length todo)%nat ->
    for_range (seq (length pre) (length todo)) df.GetChallenges_body
      (cur, Some <$> (pre ++ todo), s)
    = Ret (take (length pre) cur ++ cs, Some <$> (pre ++ todo'), s').
Proof.
  induction todo as [| sv rest IH]; intros pre cur s cs todo' s' Hrun Hlen.
  - injection Hrun as <- <- <-. cbn [length seq for_range] in *.
    by rewrite !app_nil_r, take_ge by lia.
  - simpl in Hrun.
    destruct (df.SquareVerifier_GetChallenge sv s) as [[[c sv1] s1] | e] eqn:Esv; [| done].
    simpl in Hrun.
    destruct (df.subverifiers_GetChallenge rest s1) as [[[cs1 rest1] s2] | e] eqn:Erest;
      [| done]. simpl in Hrun. injection Hrun as <- <- <-.
    cbn [length] in *.
    assert (df.GetChallenges_body (length pre) (cur, Some <$> (pre ++ sv :: rest), s)
            = Ret (<[length pre := c]> cur, Some <$> ((pre ++ [sv1]) ++ rest), s1)) as Hb.
    { unfold df.GetChallenges_body.
      rewrite (index_lookup _ _ (Some sv)), bind_Ret
        by (by rewrite list_lookup_fmap, list_lookup_middle).
      cbn [deref]. rewrite bind_Ret, Esv, bind_Ret, assign_lt, bind_Ret by lia.
      rewrite <- list_fmap_insert, insert_app_r_alt, Nat.sub_diag by lia.
      by rewrite <- (assoc_L (++)). }
    rewrite for_range_seq_S, Hb, bind_Ret.
    specialize (IH (pre ++ [sv1]) (<[length pre := c]> cur) s1 cs1 rest1 s2 Erest).
    rewrite length_app in IH. cbn [length] in IH.
    replace (length pre + 1)%nat with (S (length pre)) in IH by lia.
    rewrite IH by (rewrite length_insert; lia).
    rewrite (take_S_r _ _ c) by (apply list_lookup_insert_eq; lia).
    rewrite take_insert_ge by lia. by rewrite <- !(assoc_L (++)).
Qed.

(** The loop of [SetChallenges] over the sub-verifiers [todo], which follow
    [pre] and precede [post]. *)
Lemma SetChallenges_loop (challenges : list bigInt) (post : list SV) (todo : list SV) :
  forall (pre : list SV),
    (length pre + length todo <= length challenges)%nat ->
    for_range (seq (length pre) (length todo)) (df.SetChallenges_body challenges)
      (Some <$> (pre ++ todo ++ post))
    = Ret (Some <$> (pre ++ zip_with df.SquareVerifier_SetChallenge todo
                              (drop (length pre) challenges) ++ post)).
Proof.
  induction todo as [| sv rest IH]; intros pre Hlen; [done |].
  cbn [length] in *.
  destruct (lookup_lt_is_Some_2 challenges (length pre)) as [c Ec]; [lia |].
  assert (df.SetChallenges_body challenges (length pre) (Some <$> (pre ++ sv :: rest ++ post))
          = Ret (Some <$> ((pre ++ [df.SquareVerifier_SetChallenge sv c]) ++ rest ++ post)))
    as Hb.
  { unfold df.SetChallenges_body.
    rewrite (index_lookup _ _ (Some sv)), bind_Ret
      by (by rewrite list_lookup_fmap, list_lookup_middle).
    rewrite (index_lookup _ _ _ Ec), bind_Ret. cbn [deref]. rewrite bind_Ret.
    rewrite <- list_fmap_insert, insert_app_r_alt, Nat.sub_diag by lia.
    by rewrite <- (assoc_L (++)). }
  cbn [app]. rewrite for_range_seq_S, Hb, bind_Ret.
  specialize (IH (pre ++ [df.SquareVerifier_SetChallenge sv c])).
  rewrite length_app in IH. cbn [length] in IH.
  replace (length pre + 1)%nat with (S (length pre)) in IH by lia.
  rewrite IH by lia. rewrite (drop_S _ _ _ Ec). cbn [zip_with app].
  by rewrite <- !(assoc_L (++)).
Qed.

(** The challenges of the positive-number proof, for a verifier whose
    sub-verifiers are not nil.
    - [GetChallenges] returns one challenge per sub-verifier, the challenge of
      sub-verifier [i] at index [i], and leaves every sub-verifier as its own
      [GetChallenge] left it, the randomness source going from one to the
      next.
    - [SetChallenges] gives sub-verifier [i] the challenge at index [i]; the
      challenges after the last sub-verifier are not read.
    - [SetChallenges] with fewer challenges than sub-verifiers panics on the
      missing one. *)
Theorem Positive_challenges_layout (v : df.PositiveVerifier) (svs : list SV) :
  df.pv_squareVerifiers v = Some <$> svs ->
  (forall (s : R) cs svs' s',
     df.subverifiers_GetChallenge svs s = Ret (cs, svs', s') ->
     df.GetChallenges v s
     = Ret (cs, {| df.pv_squareVerifiers := Some <$> svs';
                   df.pv_proofRandomData := df.pv_proofRandomData v |}, s') /\
     length cs = length svs) /\
  (forall challenges : list bigInt,
     (length svs <= length challenges)%nat ->
     df.SetChallenges v challenges
     = Ret {| df.pv_squareVerifiers :=
                Some <$> zip_with df.SquareVerifier_SetChallenge svs challenges;
              df.pv_proofRandomData := df.pv_proofRandomData v |}) /\
  (forall challenges : list bigInt,
     (length challenges < length svs)%nat ->
     df.SetChallenges v challenges = Panic IndexOutOfRange).
Proof.
  intros Hv. split; [| split].
  - intros s cs svs' s' Hrun.
    destruct (subverifiers_GetChallenge_length _ _ _ _ _ Hrun) as [Hcs _].
    split; [| done]. unfold df.GetChallenges. rewrite Hv, length_fmap.
    pose proof (GetChallenges_loop svs [] (replicate (length svs) None) s cs svs' s' Hrun)
      as Hloop.
    cbn [length app take Nat.add] in Hloop.
    by rewrite Hloop, bind_Ret by (by rewrite length_replicate).
  - intros challenges Hlen. unfold df.SetChallenges. rewrite Hv, length_fmap.
    pose proof (SetChallenges_loop challenges [] svs []) as Hloop.
    cbn [length app drop Nat.add] in Hloop. rewrite !app_nil_r in Hloop.
    by rewrite Hloop, bind_Ret by lia.
  - intros challenges Hlen. unfold df.SetChallenges. rewrite Hv, length_fmap.
    replace (length svs)
      with (length challenges + S (length svs - S (length challenges)))%nat by lia.
    rewrite seq_app, for_range_app.
    pose proof (SetChallenges_loop challenges (drop (length challenges) svs)
                  (take (length challenges) svs) []) as Hloop.
    rewrite length_take in Hloop. cbn [length app drop Nat.add] in Hloop.
    replace (length challenges `min` length svs)%nat with (length challenges) in Hloop by lia.
    rewrite take_drop in Hloop. rewrite Hloop, bind_Ret by lia.
    rewrite for_range_seq_S. cbn [Nat.add].
    destruct (lookup_lt_is_Some_2 svs (length challenges) Hlen) as [sv Esv].
    match goal with
    | |- context [df.SetChallenges_body ?cs ?k ?st ≫= _] =>
        assert (df.SetChallenges_body cs k st = Panic IndexOutOfRange) as ->; [| done]
    end.
    unfold df.SetChallenges_body.
    rewrite (index_lookup _ _ (Some sv)), bind_Ret, index_ge; [done | lia |].
    rewrite list_lookup_fmap, lookup_app_r; rewrite length_zip_with, length_take, length_drop.
    + replace (length challenges - _)%nat with 0%nat by lia.
      by rewrite lookup_drop, Nat.add_0_r, Esv.
    + lia.
Qed.

Lemma PositiveProver_GetProofRandomData_lengths (p p' : df.PositiveProver) (s s' : R)
    (prd : list bigInt) :
  df.PositiveProver_GetProofRandomData p s = Ret (prd, p', s') ->
  length prd = (2 * length (df.pp_squareProvers p))%nat /\
  length (df.pp_squareProvers p') = length (df.pp_squareProvers p).
Proof.
  unfold df.PositiveProver_GetProofRandomData.
  destruct (for_range _ _ _) as [[[prd1 sps1] s1] | e] eqn:Eloop; [| done].
  rewrite bind_Ret. intros [= <- <- <-]. cbn [df.pp_squareProvers].
  apply (for_range_inv
           (fun st : list bigInt * list (option SP) * R =>
              length st.1.1 = (2 * length (df.pp_squareProvers p))%nat /\
              length st.1.2 = length (df.pp_squareProvers p))) in Eloop; [done | |].
  - intros i [[a b] c] [[a' b'] c'] Hbody [Ha Hb]. cbn [fst snd] in *.
    unfold df.PositiveProver_GetProofRandomData_body in Hbody.
    destruct (index b i) as [x |]; [| done]. rewrite bind_Ret in Hbody.
    destruct (deref x) as [sp |]; [| done]. rewrite bind_Ret in Hbody.
    destruct (df.SquareProver_GetProofRandomData sp c) as [[[[d1 d2] sp1] c1] |]; [| done].
    rewrite bind_Ret in Hbody.
    destruct (assign a _ d1) as [a1 |] eqn:E1; [| done]. rewrite bind_Ret in Hbody.
    destruct (assign a1 _ d2) as [a2 |] eqn:E2; [| done]. rewrite bind_Ret in Hbody.
    injection Hbody as <- <- <-.
    apply assign_length in E1, E2. rewrite length_insert. lia.
  - cbn [fst snd]. rewrite length_replicate. lia.
Qed.

Lemma PositiveProver_GetProofData_length (p : df.PositiveProver) (challenges pd : list bigInt) :
  df.PositiveProver_GetProofData p challenges = Ret pd ->
  length pd = (3 * length (df.pp_squareProvers p))%nat.
Proof.
  unfold df.PositiveProver_GetProofData. intros Eloop.
  apply (for_range_inv
           (fun st : list bigInt => length st = (3 * length (df.pp_squareProvers p))%nat))
    in Eloop; [done | |].
  - intros i a a' Hbody Ha.
    unfold df.PositiveProver_GetProofData_body in Hbody.
    destruct (index (df.pp_squareProvers p) i) as [x |]; [| done]. rewrite bind_Ret in Hbody.
    destruct (index challenges i) as [c |]; [| done]. rewrite bind_Ret in Hbody.
    destruct (deref x) as [sp |]; [| done]. rewrite bind_Ret in Hbody.
    destruct (df.SquareProver_GetProofData sp c) as [[[s1 s21] s22] |]; [| done].
    rewrite bind_Ret in Hbody.
    destruct (assign a _ s1) as [a1 |] eqn:E1; [| done]. rewrite bind_Ret in Hbody.
    destruct (assign a1 _ s21) as [a2 |] eqn:E2; [| done]. rewrite bind_Ret in Hbody.
    apply assign_length in E1, E2, Hbody. lia.
  - rewrite length_replicate. lia.
Qed.

(** The lengths of the prover's messages against the lengths the verifier
    asks for.  A prover with [n] sub-provers returns [2*n] elements of random
    data and [3*n] elements of response.  Unless [n = 4], the verifier's
    [SetProofRandomData] answers the random data with its error and is left
    unchanged, and its [Verify] returns false on the response, whatever the
    sub-verifiers are. *)
Theorem Positive_messages_fit_four_subproofs (p : df.PositiveProver) (v : df.PositiveVerifier) :
  let n := length (df.pp_squareProvers p) in
  (forall (s s' : R) (prd : list bigInt) (p' : df.PositiveProver),
     df.PositiveProver_GetProofRandomData p s = Ret (prd, p', s') ->
     length prd = (2 * n)%nat /\
     (n <> 4%nat ->
      df.PositiveVerifier_SetProofRandomData v prd
      = Ret (Some "the length of proofRandomData is not correct"%string, v))) /\
  (forall challenges pd : list bigInt,
     df.PositiveProver_GetProofData p challenges = Ret pd ->
     length pd = (3 * n)%nat /\
     (n <> 4%nat -> df.PositiveVerifier_Verify v pd = Ret false)).
Proof.
  intros n. split.
  - intros s s' prd p' Hrun.
    destruct (PositiveProver_GetProofRandomData_lengths _ _ _ _ _ Hrun) as [Hl _].
    split; [done |]. intros Hn. unfold df.PositiveVerifier_SetProofRandomData.
    rewrite decide_True; [done |]. fold n in Hl. lia.
  - intros challenges pd Hrun.
    pose proof (PositiveProver_GetProofData_length _ _ _ Hrun) as Hl.
    split; [done |]. intros Hn.
    unfold df.PositiveVerifier_Verify, df.PositiveVerifier_Verify_calls.
    rewrite decide_True; [done |]. fold n in Hl. lia.
Qed.

End positive_count_properties.

(** ** NewPositiveProver *)

Section NewPositiveProver_properties.
Context {QR Primes R : Type} {qr : QRSpecialRSA QR Primes} {sampler : Sampler R}.
Context {SP : Type} {setup : @df.PositiveSetup QR SP}.

(** An error of the first loop of [NewPositiveProver] is the one of
    [GetCommitMsgWithGivenR]. *)
Lemma NewPositiveProver_commit_Err (committer : df.Committer) (roots : list bigInt)
    (rs : list (option nat)) (h : heap) (i : nat)
    (st : list (option df.Committer) * list bigInt) (msg : string) :
  df.NewPositiveProver_commit committer roots rs h i st = Ret (Err msg) ->
  msg = "error when creating commit msg"%string.
Proof.
  unfold df.NewPositiveProver_commit. destruct st as [cms bigs].
  destruct (index rs i) as [rand | e]; [| done]. rewrite bind_Ret.
  destruct (index roots i) as [root | e]; [| done]. rewrite bind_Ret.
  destruct (deref root) as [q | e]; [| done]. rewrite bind_Ret.
  destruct (df.Committer_GetCommitMsgWithGivenR _ _ _) as [[[c err] cm] | e]; [| done].
  rewrite bind_Ret. destruct (assign bigs i c) as [bigs' | e]; [| done]. rewrite bind_Ret.
  destruct err as [m |].
  - by intros [= <-].
  - destruct (assign cms i (Some cm)); [| done]. by rewrite bind_Ret.
Qed.

(** An error of the second loop is the one of [NewSquareProver]. *)
Lemma NewPositiveProver_prover_Err (cms : list (option df.Committer)) (roots : list bigInt)
    (css : Z) (i : nat) (st : list bigInt * list (option SP)) (msg : string) :
  df.NewPositiveProver_prover cms roots css i st = Ret (Err msg) ->
  msg = "error in instantiating SquareProver"%string.
Proof.
  unfold df.NewPositiveProver_prover. destruct st as [smalls sps].
  destruct (index roots i) as [root | e]; [| done]. rewrite bind_Ret.
  destruct (index cms i) as [cm | e]; [| done]. rewrite bind_Ret.
  destruct (deref cm) as [cm' | e]; [| done]. rewrite bind_Ret.
  destruct (df.NewSquareProver _ _ _) as [sp | m].
  - destruct (assign smalls i _) as [smalls' | e]; [| done]. rewrite bind_Ret.
    destruct (assign sps i _); [| done]. by rewrite bind_Ret.
  - by intros [= <-].
Qed.

(** [NewPositiveProver] at its borders.
    - When the decomposition fails, the constructor returns its error
      "error when doing Lipmaa decomposition" and has drawn no randomness.
    - When the decomposition gives at least one root and [r = 0], the
      constructor does not return: [getCommitRandoms] draws from the empty
      interval [[0, 0)].
    - An error that the constructor returns is one of its three messages:
      that of the decomposition, of the commitment or of the square
      sub-prover. *)
Theorem NewPositiveProver_errors_and_edges `{!SamplerSpec R}
    (committer : df.Committer) (x : bigInt) (challengeSpaceSize : Z) (s : R) :
  (forall msg, df.lipmaaDecomposition x = Ret (Err msg) ->
     forall r, df.NewPositiveProver committer x r challengeSpaceSize s
               = Ret (Err "error when doing Lipmaa decomposition", s)) /\
  (forall roots, df.lipmaaDecomposition x = Ret (Val roots) -> roots <> [] ->
     exists e, df.NewPositiveProver committer x (Some 0) challengeSpaceSize s = Panic e) /\
  (forall r msg s',
     df.NewPositiveProver committer x r challengeSpaceSize s = Ret (Err msg, s') ->
     msg = "error when doing Lipmaa decomposition"%string \/
     msg = "error when creating commit msg"%string \/
     msg = "error in instantiating SquareProver"%string).
Proof.
  split; [| split].
  - intros msg Hdec r. unfold df.NewPositiveProver. by rewrite Hdec.
  - intros roots Hdec Hne. unfold df.NewPositiveProver. rewrite Hdec, bind_Ret.
    destruct roots as [| q roots]; [done |].
    rewrite getCommitRandoms_pre by lia.
    destruct (Z.to_nat _) as [| m] eqn:En; [cbn [length] in En; lia |].
    rewrite for_range_seq_S. change (Z.abs 0) with 0.
    destruct (getCommitRandoms_body_zero (Z.of_nat (length (q :: roots))) 0
                (replicate (S m) None) 0 [] s) as [e ->].
    by exists e.
  - intros r msg s'. unfold df.NewPositiveProver.
    destruct (df.lipmaaDecomposition x) as [[roots | m] | e]; [| | done].
    + rewrite bind_Ret.
      destruct (df.getCommitRandoms r _ s) as [[[rs h] s1] | e]; [| done].
      rewrite bind_Ret.
      destruct (for_range_res _ (df.NewPositiveProver_commit _ _ _ _) _)
        as [[[cms bigs] | m] | e] eqn:E1; [| | done].
      * rewrite bind_Ret.
        destruct (for_range_res _ (df.NewPositiveProver_prover _ _ _) _)
          as [[[smalls sps] | m] | e] eqn:E2; [done | | done].
        rewrite bind_Ret. intros [= <- <-]. right. right.
        apply (for_range_res_Err
                 (fun m => m = "error in instantiating SquareProver"%string)) in E2;
          [done |]. intros i st m'. apply NewPositiveProver_prover_Err.
      * rewrite bind_Ret. intros [= <- <-]. right. left.
        apply (for_range_res_Err
                 (fun m => m = "error when creating commit msg"%string)) in E1;
          [done |]. intros i st m'. apply NewPositiveProver_commit_Err.
    + rewrite bind_Ret. intros [= <- <-]. by left.
Qed.

(** The first loop of [NewPositiveProver], from root [k] on, when
    [GetCommitMsgWithGivenR] returns the commitment [f value randomness] and
    no error. *)
Lemma NewPositiveProver_commit_loop (committer : df.Committer) (f : Z -> Z -> Z)
    (qs zs : list Z) (rs : list (option nat)) (h : heap) :
  (forall a z, exists cm,
     df.Committer_GetCommitMsgWithGivenR
       (df.NewCommitter (df.c_QRSpecialRSA committer) (df.c_G committer) (df.c_H committer)
          (df.c_T committer) (df.c_K committer)) (Some a) (Some z)
     = Ret (Some (f a z), None, cm)) ->
  df.shares h rs = Some <$> zs -> length zs = length qs ->
  forall m k (cms : list (option df.Committer)) (bigs : list bigInt),
    (k + m)%nat = length qs -> length cms = length qs -> length bigs = length qs ->
    exists cms' bigs',
      for_range_res (seq k m) (df.NewPositiveProver_commit committer (Some <$> qs) rs h)
        (cms, bigs)
      = Ret (Val (cms', bigs')) /\
      length cms' = length qs /\ length bigs' = length qs /\
      (forall j, (j < k)%nat -> cms' !! j = cms !! j /\ bigs' !! j = bigs !! j) /\
      (forall i q z, (k <= i)%nat -> qs !! i = Some q -> zs !! i = Some z ->
         bigs' !! i = Some (Some (f (q * q) z)) /\ exists cm, cms' !! i = Some (Some cm)).
Proof.
  intros Hcommit Hshares Hzs. induction m as [| m IH]; intros k cms bigs Hk Hcms Hbigs.
  - exists cms, bigs. split; [done |]. split; [done |]. split; [done |]. split; [done |].
    intros i q z Hi Eq. apply lookup_lt_Some in Eq. lia.
  - destruct (lookup_lt_is_Some_2 qs k) as [q Eq]; [lia |].
    destruct (lookup_lt_is_Some_2 zs k) as [z Ez]; [lia |].
    destruct (Hcommit (q * q) z) as [cm Hcm].
    assert (exists p, rs !! k = Some p /\ p ≫= (h !!.) = Some z) as (p & Ep & Hp).
    { assert (df.shares h rs !! k = Some (Some z)) as Hs
        by (by rewrite Hshares, list_lookup_fmap, Ez).
      unfold df.shares in Hs. rewrite list_lookup_fmap in Hs.
      destruct (rs !! k) as [p |]; [| done]. exists p. split; [done |].
      by injection Hs. }
    assert (df.NewPositiveProver_commit committer (Some <$> qs) rs h k (cms, bigs)
            = Ret (Val (<[k := Some cm]> cms, <[k := Some (f (q * q) z)]> bigs))) as Hb.
    { unfold df.NewPositiveProver_commit.
      rewrite (index_lookup _ _ _ Ep), bind_Ret, (index_fmap_Some _ _ _ Eq), bind_Ret.
      cbn [deref]. rewrite bind_Ret, Hp, Hcm, bind_Ret.
      by rewrite (assign_lt bigs), bind_Ret, (assign_lt cms), bind_Ret by lia. }
    destruct (IH (S k) (<[k := Some cm]> cms) (<[k := Some (f (q * q) z)]> bigs))
      as (cms' & bigs' & Hloop & Hl1 & Hl2 & Hlow & Hout);
      [lia | by rewrite length_insert | by rewrite length_insert |].
    exists cms', bigs'. split; [| split; [done | split; [done | split]]].
    + cbn [seq for_range_res]. by rewrite Hb, bind_Ret.
    + intros j Hj. destruct (Hlow j) as [-> ->]; [lia |].
      by rewrite !list_lookup_insert_ne by lia.
    + intros i q' z' Hi Eq' Ez'. destruct (decide (i = k)) as [-> | Hne].
      * rewrite Eq in Eq'. injection Eq' as <-. rewrite Ez in Ez'. injection Ez' as <-.
        destruct (Hlow k) as [-> ->]; [lia |].
        rewrite !list_lookup_insert_eq by lia. eauto.
      * apply Hout; [lia | done | done].
Qed.

(** The second loop, when [NewSquareProver] succeeds. *)
Lemma NewPositiveProver_prover_loop (cms : list (option df.Committer)) (qs : list Z)
    (css : Z) :
  (forall cm q, exists sp, df.NewSquareProver cm (Some q) css = Val sp) ->
  (forall i, (i < length qs)%nat -> exists cm, cms !! i = Some (Some cm)) ->
  forall m k (smalls : list bigInt) (sps : list (option SP)),
    (k + m)%nat = length qs -> length smalls = length qs -> length sps = length qs ->
    exists smalls' sps',
      for_range_res (seq k m) (df.NewPositiveProver_prover cms (Some <$> qs) css)
        (smalls, sps)
      = Ret (Val (smalls', sps')) /\
      length smalls' = length qs /\ length sps' = length qs.
Proof.
  intros Hsp Hcms. induction m as [| m IH]; intros k smalls sps Hk Hl1 Hl2.
  - by exists smalls, sps.
  - destruct (lookup_lt_is_Some_2 qs k) as [q Eq]; [lia |].
    destruct (Hcms k) as [cm Ecm]; [lia |].
    destruct (Hsp cm q) as [sp Esp].
    destruct (IH (S k) (<[k := df.SquareProver_SmallCommitment sp]> smalls)
                (<[k := Some sp]> sps)) as (smalls' & sps' & Hloop & Hs1 & Hs2);
      [lia | by rewrite length_insert | by rewrite length_insert |].
    exists smalls', sps'. split; [| done].
    assert (df.NewPositiveProver_prover cms (Some <$> qs) css k (smalls, sps)
            = Ret (Val (<[k := df.SquareProver_SmallCommitment sp]> smalls,
                        <[k := Some sp]> sps))) as Hb.
    { unfold df.NewPositiveProver_prover.
      rewrite (index_fmap_Some _ _ _ Eq), bind_Ret, (index_lookup _ _ _ Ecm), bind_Ret.
      cbn [deref]. rewrite bind_Ret, Esp.
      by rewrite (assign_lt smalls), bind_Ret, (assign_lt sps), bind_Ret by lia. }
    cbn [seq for_range_res]. by rewrite Hb, bind_Ret.
Qed.

End NewPositiveProver_properties.

Section product_consistency.
Context {QR Primes R : Type} {qr : QRSpecialRSA QR Primes} {sampler : Sampler R}.
Context {SP SV : Type} {square : @df.SquareProof QR Primes R SP SV}.
Context {setup : @df.PositiveSetup QR SP}.
Context (g : QR) (elem : Z -> Prop) {laws : QRGroupLaws g elem}.

Local Abbreviation M := (QR_Mul g).
Local Abbreviation E := (QR_Exp g).

(** Product-commitment consistency on the prover's side.  In a group that
    keeps the group laws, for [x] with the roots [qs] ([x] is the sum of their
    squares, and there is at least one) and [r > 0], when
    [GetCommitMsgWithGivenR(value, randomness)] of a new committer returns the
    commitment [G^value * H^randomness] and [NewSquareProver] succeeds:
    [NewPositiveProver] returns a prover with one sub-prover, one small and
    one big sub-commitment per root, and the big sub-commitments multiply, in
    the order and from the 1 of the check of [NewPositiveVerifier], to the
    outer commitment [G^x * H^r].  So [NewPositiveVerifier], given the outer
    commitment and what [GetVerifierInitializationData] returns, on a
    receiver of the same group does not return the error of its check. *)
Theorem NewPositiveProver_commitments_multiply_to_commitment `{!SamplerSpec R}
    (G H' T K B x r challengeSpaceSize : Z) (w1 w2 : bigInt) (qs : list Z) (s : R) :
  elem G -> elem H' -> 0 < r -> qs <> [] ->
  df.lipmaaDecomposition (Some x) = Ret (Val (Some <$> qs)) ->
  df.sumZ ((fun q => q * q) <$> qs) = x ->
  (forall a z, exists cm,
     df.Committer_GetCommitMsgWithGivenR (df.NewCommitter g G H' T K) (Some a) (Some z)
     = Ret (Some (M (E G a) (E H' z)), None, cm)) ->
  (forall cm q, exists sp, df.NewSquareProver cm (Some q) challengeSpaceSize = Val sp) ->
  exists p s' bs,
    df.NewPositiveProver (df.mkCommitter g G H' T K B w1 w2) (Some x) (Some r)
      challengeSpaceSize s = Ret (Val p, s') /\
    df.pp_bigCommitments p = Some <$> bs /\
    length bs = length qs /\
    length (df.pp_smallCommitments p) = length qs /\
    length (df.pp_squareProvers p) = length qs /\
    df.product g bs = M (E G x) (E H' r) /\
    forall (K' : Z) (c0 : bigInt),
      df.NewPositiveVerifier (df.mkReceiver g G H' K' c0) (Some (M (E G x) (E H' r)))
        (df.GetVerifierInitializationData p).1 (df.GetVerifierInitializationData p).2
        challengeSpaceSize
      <> Ret (Err "squareProvers are not properly instantiated").
Proof.
  intros HG HH Hr Hqs Hdec Hsum Hcommit Hsp.
  destruct (getCommitRandoms_returns r (Z.of_nat (length qs)) s)
    as (rs & h & s' & zs & Hrand & Hrs & Hshares & Hzsum & Hsign).
  { lia. } { destruct qs; [done |]. cbn [length]. lia. }
  rewrite Nat2Z.id in Hrs.
  assert (length zs = length qs) as Hzs.
  { apply (f_equal length) in Hshares. unfold df.shares in Hshares.
    rewrite !length_fmap in Hshares. lia. }
  assert (Forall (fun z => 0 <= z) zs) as Hpos.
  { eapply Forall_impl; [exact Hsign |]. intros z. cbn beta.
    destruct (Z.ltb_spec 0 r); [done | lia]. }
  set (committer := df.mkCommitter g G H' T K B w1 w2).
  destruct (NewPositiveProver_commit_loop committer (fun a z => M (E G a) (E H' z))
              qs zs rs h Hcommit Hshares Hzs (length qs) 0
              (replicate (length qs) None) (replicate (length qs) None))
    as (cms & bigs & Hloop1 & Hl1 & Hl2 & _ & Hout);
    [done | by rewrite length_replicate | by rewrite length_replicate |].
  destruct (NewPositiveProver_prover_loop cms qs challengeSpaceSize Hsp) with
    (m := length qs) (k := 0%nat) (smalls := replicate (length qs) (@None Z))
    (sps := replicate (length qs) (@None SP))
    as (smalls & sps & Hloop2 & Hs1 & Hs2);
    [| done | by rewrite length_replicate | by rewrite length_replicate |].
  { intros i Hi. destruct (lookup_lt_is_Some_2 qs i Hi) as [q Eq].
    destruct (lookup_lt_is_Some_2 zs i) as [z Ez]; [lia |].
    destruct (Hout i q z) as [_ Hcm]; [lia | done | done | done]. }
  set (bs := zip_with (fun q z => M (E G (q * q)) (E H' z)) qs zs).
  assert (bigs = Some <$> bs) as Hbigs.
  { apply list_eq. intros i. rewrite list_lookup_fmap. unfold bs. rewrite lookup_zip_with.
    destruct (decide (i < length qs)%nat) as [Hi | Hi].
    - destruct (lookup_lt_is_Some_2 qs i Hi) as [q Eq].
      destruct (lookup_lt_is_Some_2 zs i) as [z Ez]; [lia |].
      destruct (Hout i q z) as [-> _]; [lia | done | done |]. by rewrite Eq, Ez.
    - rewrite (lookup_ge_None_2 bigs), (lookup_ge_None_2 qs) by lia. done. }
  assert (length bs = length qs) as Hbs.
  { unfold bs. rewrite length_zip_with. lia. }
  assert (df.product g bs = M (E G x) (E H' r)) as Hprod; cycle 1.
  { eexists _, s', bs. split; [| split; [| split; [| split; [| split; [| split]]]]].
    - unfold df.NewPositiveProver. rewrite Hdec, bind_Ret, length_fmap, Hrand, bind_Ret.
      rewrite Hrs. fold committer. rewrite Hloop1, bind_Ret, Hloop2, bind_Ret. reflexivity.
    - exact Hbigs.
    - exact Hbs.
    - exact Hs1.
    - exact Hs2.
    - exact Hprod.
    - intros K' c0. cbn [df.GetVerifierInitializationData df.pp_smallCommitments
                         df.pp_bigCommitments fst snd]. rewrite Hbigs.
      apply NewPositiveVerifier_check_passes; [lia | exact Hprod]. }
  - unfold df.product, bs.
    rewrite <- (zip_with_fmap_l (fun a z => M (E G a) (E H' z)) (fun q => q * q)).
    rewrite (product_commitments g elem G H' HG HH).
    + rewrite Hsum, Hzsum. apply (QR_Mul_1_l (g := g)).
      apply (QR_Mul_elem (g := g)); apply (QR_Exp_elem (g := g)); try done; [| lia].
      rewrite <- Hsum. apply sumZ_nonneg. apply Forall_fmap, Forall_true.
      intros q. cbn. apply Z.square_nonneg.
    + by rewrite length_fmap.
    + apply Forall_fmap, Forall_true. intros q. cbn. apply Z.square_nonneg.
    + exact Hpos.
    + apply (QR_elem_1 (g := g)).
Qed.

End product_consistency.

(** ** The embedding on concrete inputs *)

(** The tape sampler keeps the contract of [GetRandomInt]. *)
#[global] Instance tape_SamplerSpec : SamplerSpec (list Z).
Proof.
  split.
  - intros max s z s'. cbn. unfold standin.tape_GetRandomInt.
    destruct (Z.ltb_spec 0 max) as [Hmax |]; [| done].
    intros [= <- <-]. by apply Z.mod_pos_bound.
  - intros max s Hmax. cbn. unfold standin.tape_GetRandomInt.
    destruct (Z.ltb_spec 0 max); [eauto | lia].
Qed.

(** C6 on the Schnorr group modulo 23: the response 6 to the challenge 4,
    with the proof random data [9 = 2^5], is accepted. *)
Lemma schnorr_Verify_accepts_iff_witness :
  length [6] = length [2] /\
  (forall a a', Group_Mul example.zp23 a a' = Group_Mul example.zp23 a' a) /\
  schnorr.prodExp example.zp23 [2] [6]
  = Group_Mul example.zp23 9 (Group_Exp example.zp23 8 4) /\
  schnorr.Verify
    (schnorr.SetChallenge
       (schnorr.SetProofRandomData (schnorr.NewVerifier example.zp23)
          (Some 9) (Some <$> [2]) (Some 8))
       (Some 4))
    (Some <$> [6]) = Ret true.
Proof.
  assert (forall a a', Group_Mul example.zp23 a a' = Group_Mul example.zp23 a' a) as Hcomm.
  { intros a a'. cbn. by rewrite Z.mul_comm. }
  split; [reflexivity |]. split; [exact Hcomm |]. split; [reflexivity |].
  destruct (schnorr_Verify_accepts_iff example.zp23 9 8 4 [2] [6] eq_refl)
    as (b & Hb & _ & Hiff).
  rewrite Hb. f_equal. apply (Hiff Hcomm). reflexivity.
Defined.

(** C9 on the same verifier with an empty response. *)
Lemma schnorr_Verify_short_response_panics_witness :
  let v := schnorr.SetProofRandomData (schnorr.NewVerifier example.zp23)
             (Some 9) [Some 2] (Some 8) in
  (length (@nil bigInt) < length (schnorr.v_bases v))%nat /\
  (exists p, schnorr.Verify v [] = Panic p) /\
  (Forall is_Some (schnorr.v_bases v) -> Forall is_Some (@nil bigInt) ->
   schnorr.Verify v [] = Panic IndexOutOfRange).
Proof.
  intros v. split; [simpl; lia |].
  apply (schnorr_Verify_short_response_panics v []). simpl. lia.
Defined.

(** C5 on the multiplication prover of [15 = 3 * 5], challenge 6: the last
    response is negative, [1 + 6 * (4 - 5 * 2) = -35]. *)
Lemma MultiplicationProver_GetProofData_formulas_witness :
  df.MultiplicationProver_GetProofData example.multiplicationProver (Some 6)
  = Ret (Some (11 + 6 * 3), Some (22 + 6 * 5), Some (33 + 6 * 2), Some (44 + 6 * 1),
         Some (1 + 6 * (4 - 5 * 2))).
Proof.
  apply (MultiplicationProver_GetProofData_formulas example.multiplicationProver
           6 3 2 5 1 4 11 22 33 44 1); reflexivity.
Defined.


(** The negative-exponent path end to end, on [15 = 3 * 5] with the
    commitments 25, 53 and 16: [GetProofRandomData] on the new prover draws
    the maskings of [example.multiplicationProver], the response to the
    challenge 6 has [v3 = -35], and [Verify] accepts it through the inverse of
    [H^35]; with the third commitment replaced by 64, the commitment to 16
    under the same randomness, it rejects. *)
Example multiplication_negative_exponent_run :
  df.Committer_ComputeCommit (example.committer 3 2) (Some 3) (Some 2) = Ret 25 /\
  df.Committer_ComputeCommit (example.committer 5 1) (Some 5) (Some 1) = Ret 53 /\
  df.Committer_ComputeCommit (example.committer 15 4) (Some 15) (Some 4) = Ret 16 /\
  df.Committer_ComputeCommit (example.committer 16 4) (Some 16) (Some 4) = Ret 64 /\
  df.MultiplicationProver_GetProofRandomData
    (df.NewMultiplicationProver (example.committer 3 2) (example.committer 5 1)
       (example.committer 15 4) 3) [11; 22; 33; 44; 1]
  = Ret (Some 23, Some 58, Some 15, example.multiplicationProver, []) /\
  df.MultiplicationProver_GetProofData example.multiplicationProver (Some 6)
  = Ret (Some 29, Some 52, Some 45, Some 50, Some (-35)) /\
  (forall c3 : Z,
     c3 = 16 \/ c3 = 64 ->
     df.MultiplicationVerifier_Verify
       (df.MultiplicationVerifier_SetChallenge
          (df.MultiplicationVerifier_SetProofRandomData
             (df.NewMultiplicationVerifier (example.receiver (Some 25))
                (example.receiver (Some 53)) (example.receiver (Some c3)) 3)
             (Some 23) (Some 58) (Some 15))
          (Some 6))
       (Some 29) (Some 52) (Some 45) (Some 50) (Some (-35))
     = Ret (c3 =? 16)).
Proof.
  repeat split; try (vm_compute; reflexivity).
  intros c3 [-> | ->]; vm_compute; reflexivity.
Qed.

(** C4, the claim as stated fails.  With the three small sub-commitments
    1, 2, 3 and the four big sub-commitments 4, 9, 1, 2, whose product is 72,
    the check multiplies the first three only: for the outer commitment 72
    the error is returned although the product of the supplied big
    sub-commitments equals it, and for the outer commitment 36 no error is
    returned although the product differs from it (the constructor panics
    when it writes the fourth receiver). *)
Lemma NewPositiveVerifier_checks_a_prefix_only :
  let smalls := [Some 1; Some 2; Some 3] in
  let bs := [4; 9; 1; 2] in
  let result c := df.NewPositiveVerifier (square := standin.stub_SquareProof)
                    (example.receiver None) (Some c) smalls (Some <$> bs) 3 in
  df.product example.rsa77 bs = 72 /\
  result 72 = Ret (Err "squareProvers are not properly instantiated") /\
  result 36 = Panic IndexOutOfRange /\
  ~ df.rejects_iff_product_differs (square := standin.stub_SquareProof)
      (example.receiver None) smalls bs 3.
Proof.
  intros smalls bs result.
  assert (result 72 = Ret (Err "squareProvers are not properly instantiated")) as H72
    by (vm_compute; reflexivity).
  split; [reflexivity |]. split; [exact H72 |]. split; [vm_compute; reflexivity |].
  intros Hclaim. destruct (Hclaim 72) as [Herr _].
  apply Herr; [| reflexivity]. eexists. exact H72.
Qed.

(** C4 (amended) with the stub sub-proof.  The four big commitments 4, 9, 1, 1
    multiply to the outer commitment 36, and the four sub-verifiers are
    built.  With the three small commitments 1, 2, 3 and the four big ones
    4, 9, 1, 2 the check is on the product 36 of the first three: the outer
    commitment 72 is rejected and the outer commitment 36 ends in the panic.
    With two small commitments and one big one the constructor panics. *)
Lemma NewPositiveVerifier_rejects_iff_witness :
  let smalls := [Some 1; Some 2; Some 3; Some 4] in
  let bs := [4; 9; 1; 1] in
  let new := df.NewPositiveVerifier (square := standin.stub_SquareProof)
               (example.receiver None) in
  let result := new (Some 36) smalls (Some <$> bs) 3 in
  length smalls = length bs /\
  (result = Ret (Err "squareProvers are not properly instantiated")
   <-> df.product example.rsa77 bs <> 36) /\
  df.product example.rsa77 bs = 36 /\
  (exists v, result = Ret (Val v) /\ length (df.pv_squareVerifiers v) = 4%nat) /\
  new (Some 72) [Some 1; Some 2; Some 3] (Some <$> [4; 9; 1; 2]) 3
  = Ret (Err "squareProvers are not properly instantiated") /\
  new (Some 36) [Some 1; Some 2; Some 3] (Some <$> [4; 9; 1; 2]) 3 = Panic IndexOutOfRange /\
  new (Some 4) [Some 1; Some 2] (Some <$> [4]) 3 = Panic IndexOutOfRange.
Proof.
  intros smalls bs new result.
  destruct (NewPositiveVerifier_rejects_iff (square := standin.stub_SquareProof)
              (example.receiver None) 36 smalls bs 3) as (_ & _ & _ & Hsame).
  destruct (Hsame eq_refl) as [Hrej Hbuilt].
  split; [reflexivity |]. split; [exact Hrej |]. split; [reflexivity |].
  split; [| split; [| split]].
  - destruct (Hbuilt (df.mkReceiver example.rsa77 4 9 2 None) eq_refl) as [_ Hv].
    + intros i b small _ _. eexists. reflexivity.
    + destruct (Hv eq_refl) as (v & Ev & Hl & _). exists v. split; [exact Ev | exact Hl].
  - destruct (NewPositiveVerifier_rejects_iff (square := standin.stub_SquareProof)
                (example.receiver None) 72 [Some 1; Some 2; Some 3] [4; 9; 1; 2] 3)
      as (_ & Hprefix & _ & _).
    apply Hprefix; [simpl; lia | vm_compute; discriminate].
  - destruct (NewPositiveVerifier_rejects_iff (square := standin.stub_SquareProof)
                (example.receiver None) 36 [Some 1; Some 2; Some 3] [4; 9; 1; 2] 3)
      as (_ & _ & Hmore & _).
    apply (Hmore ltac:(simpl; lia) eq_refl (df.mkReceiver example.rsa77 4 9 2 None)).
    reflexivity.
  - destruct (NewPositiveVerifier_rejects_iff (square := standin.stub_SquareProof)
                (example.receiver None) 4 [Some 1; Some 2] [4] 3) as (Hfewer & _).
    apply Hfewer. simpl. lia.
Defined.

(** C3, the failing input: with [r = 0] and four roots the call panics on the
    tape sampler, and by the theorem on every sampler that keeps its
    contract. *)
Lemma getCommitRandoms_zero_panics_witness :
  1 <= 4 /\
  df.getCommitRandoms (Some 0) 4 [3; 4; 5; 6] = Panic RandArgument /\
  exists e, df.getCommitRandoms (Some 0) 4 [3; 4; 5; 6] = Panic e.
Proof.
  split; [lia |]. split; [reflexivity |].
  apply (getCommitRandoms_zero_panics (R := list Z) 4 [3; 4; 5; 6]). lia.
Defined.

(** The shares of [r = -10] over four roots on the tape 3, 4, 5, 6: the
    theorem applies, and the run gives the shares -3, -4, -2 and -1. *)
Lemma getCommitRandoms_shares_sum_witness :
  (-10 <> 0 /\ 1 <= 4) /\
  (exists rs h s' vals,
     df.getCommitRandoms (Some (-10)) 4 [3; 4; 5; 6] = Ret (rs, h, s') /\
     length rs = Z.to_nat 4 /\
     df.shares h rs = Some <$> vals /\
     df.sumZ vals = -10 /\
     Forall (fun x => if 0 <? -10 then 0 <= x else x <= 0) vals) /\
  (exists rs h,
     df.getCommitRandoms (Some (-10)) 4 [3; 4; 5; 6] = Ret (rs, h, []) /\
     df.shares h rs = [Some (-3); Some (-4); Some (-2); Some (-1)]).
Proof.
  split; [split; lia |]. split.
  - apply (getCommitRandoms_shares_sum (R := list Z) (-10) 4 [3; 4; 5; 6]); lia.
  - eexists _, _. split; reflexivity.
Defined.

(** C8 with the stub sub-proof: four sub-provers give eight elements, and the
    verifier hands eight elements to four sub-verifiers, pair by pair. *)
Lemma Positive_flat_layout_witness :
  (exists prd p',
     df.PositiveProver_GetProofRandomData (square := standin.stub_SquareProof)
       example.positiveProver [] = Ret (prd, p', []) /\
     df.pp_squareProvers p' = Some <$> [12; 22; 32; 42] /\
     length prd = 8%nat /\
     forall i d1 d2,
       [(Some 10, Some 11); (Some 20, Some 21); (Some 30, Some 31); (Some 40, Some 41)] !! i
       = Some (d1, d2) ->
       prd !! (2 * i)%nat = Some d1 /\ prd !! (2 * i + 1)%nat = Some d2) /\
  (exists v',
     df.PositiveVerifier_SetProofRandomData (square := standin.stub_SquareProof)
       example.positiveVerifier (Some <$> [10; 11; 20; 21; 30; 31; 40; 41])
     = Ret (None, v') /\
     df.pv_squareVerifiers v' !! 2%nat
     = Some (Some (standin.mkStubVerifier (Some 1) None (Some 30, Some 31)))).
Proof.
  destruct (Positive_flat_layout (square := standin.stub_SquareProof))
    as (Hprd & _ & Hset & _).
  split.
  - apply (Hprd example.positiveProver [] [10; 20; 30; 40]); reflexivity.
  - destruct (Hset example.positiveVerifier (Some <$> [10; 11; 20; 21; 30; 31; 40; 41])
                (replicate 4 (standin.mkStubVerifier (Some 1) None (None, None))))
      as (v' & Ev & _ & Hlay); [reflexivity | reflexivity | simpl; lia |].
    exists v'. split; [exact Ev |].
    destruct (Hlay 2%nat _ eq_refl) as (d1 & d2 & E1 & E2 & E3).
    injection E1 as <-. injection E2 as <-. exact E3.
Defined.

(** The random data of the four stub sub-provers reaches the four stub
    sub-verifiers pair by pair. *)
Lemma Positive_random_data_mirrored_witness :
  exists prd p' v',
    df.PositiveProver_GetProofRandomData (square := standin.stub_SquareProof)
      example.positiveProver [] = Ret (prd, p', []) /\
    df.PositiveVerifier_SetProofRandomData example.positiveVerifier prd = Ret (None, v') /\
    df.pv_squareVerifiers v' !! 3%nat
    = Some (Some (standin.mkStubVerifier (Some 1) None (Some 40, Some 41))).
Proof.
  destruct (Positive_random_data_mirrored (square := standin.stub_SquareProof)
              example.positiveProver [] [10; 20; 30; 40] _ _ _
              example.positiveVerifier
              (replicate 4 (standin.mkStubVerifier (Some 1) None (None, None)))
              eq_refl eq_refl eq_refl eq_refl eq_refl)
    as (prd & p' & v' & E1 & E2 & Hmir).
  exists prd, p', v'. split; [exact E1 |]. split; [exact E2 |].
  exact (Hmir 3%nat (standin.mkStubVerifier (Some 1) None (None, None))
           (Some 40) (Some 41) eq_refl eq_refl).
Defined.

(** C2, the claim as stated fails: the first sub-verifier rejects (its
    response element is 0, the stored commitment is 1), [Verify] returns
    false, and the [Verify] of the three other sub-verifiers is never called.
    So not every sub-verifier is evaluated after one has returned false. *)
Lemma PositiveVerifier_Verify_skips_later_subverifiers :
  df.PositiveVerifier_Verify_calls (square := standin.stub_SquareProof)
    example.positiveVerifier (replicate 12 (Some 0)) = Ret (false, [0%nat]) /\
  ~ df.no_early_exit (square := standin.stub_SquareProof)
      example.positiveVerifier (replicate 12 (Some 0)).
Proof.
  split; [reflexivity |].
  intros Hno. specialize (Hno false [0%nat] eq_refl). discriminate Hno.
Qed.

(** C2 (amended) on the same verifier: the response whose elements are all 1
    is accepted with the four calls, the one whose elements are all 0 is
    rejected after the first call. *)
Lemma PositiveVerifier_Verify_and_short_circuit_witness :
  df.PositiveVerifier_Verify (square := standin.stub_SquareProof)
    example.positiveVerifier (replicate 12 (Some 1)) = Ret true /\
  (forall b calls,
     df.PositiveVerifier_Verify_calls (square := standin.stub_SquareProof)
       example.positiveVerifier (replicate 12 (Some 0)) = Ret (b, calls) ->
     b = false /\ exists k, calls = seq 0 (S k)).
Proof.
  pose (sv := standin.mkStubVerifier (Some 1) None (None, None)).
  split.
  - apply (PositiveVerifier_Verify_and_short_circuit (square := standin.stub_SquareProof)
             sv sv sv sv []
             (Some 1) (Some 1) (Some 1) (Some 1) (Some 1) (Some 1)
             (Some 1) (Some 1) (Some 1) (Some 1) (Some 1) (Some 1)).
    repeat constructor.
  - intros b calls Hcalls.
    destruct (PositiveVerifier_Verify_and_short_circuit (square := standin.stub_SquareProof)
                sv sv sv sv []
                (Some 0) (Some 0) (Some 0) (Some 0) (Some 0) (Some 0)
                (Some 0) (Some 0) (Some 0) (Some 0) (Some 0) (Some 0))
      as (_ & _ & _ & Hc).
    specialize (Hc b calls Hcalls). injection Hcalls as <- <-.
    destruct Hc as (k & Hk & _). split; [reflexivity | by exists k].
Defined.

(** C7, the claim as stated fails.  In the run of the representation proof,
    after the random data, the challenge 4 and the response 6, a second
    challenge 7 is set and [GetProofData] is called again: both calls are out
    of order for the state machine (the state is ResponseSent), both return,
    and the second response 4 is computed with the masking of the first, so
    the order is not enforced. *)
Lemma representation_order_not_enforced :
  (exists run',
     protocol.calls [protocol.GetProofRandomData; protocol.SetChallenge (Some 4);
                     protocol.GetProofData; protocol.SetChallenge (Some 7)] example.run
     = Ret run' /\
     protocol.run_state run' = protocol.ResponseSent /\
     protocol.run_response run' = [Some 6] /\
     protocol.out_of_order (protocol.run_state run') protocol.GetProofData /\
     exists run'',
       protocol.call protocol.GetProofData run' = Ret run'' /\
       protocol.run_response run'' = [Some 4]) /\
  ~ protocol.order_enforced example.run.
Proof.
  split.
  - eexists. split; [vm_compute; reflexivity |]. split; [reflexivity |].
    split; [reflexivity |]. split; [by intros accepted |].
    eexists. split; [vm_compute; reflexivity | reflexivity].
  - intros Henf.
    destruct (Henf [protocol.GetProofRandomData; protocol.SetChallenge (Some 4);
                    protocol.GetProofData; protocol.SetChallenge (Some 7)]
                _ protocol.GetProofData eq_refl) as [e He].
    + by intros accepted.
    + vm_compute in He. discriminate He.
Qed.

(** C7 (amended) on concrete objects: the new prover of [y = 2^3] panics on
    [GetProofData]; after [GetProofRandomData] with the masking 5 it answers
    the challenges 4 and 7; the multiplication prover answers every challenge
    from its maskings. *)
Lemma calls_out_of_order_run_on_stored_fields_witness :
  (exists e, schnorr.GetProofData example.prover (Some 4) = Panic e) /\
  (exists p' zs4 zs7,
     schnorr.GetProofRandomData example.prover [5] = Ret (Some 9, p', []) /\
     schnorr.GetProofData p' (Some 4) = Ret zs4 /\ zs4 !! 0%nat = Some (Some 6) /\
     schnorr.GetProofData p' (Some 7) = Ret zs7 /\ zs7 !! 0%nat = Some (Some 4)) /\
  (exists y1 y s1 s2 s3 : Z,
     forall c : Z,
       df.MultiplicationProver_GetProofData example.multiplicationProver (Some c)
       = Ret (Some (y1 + c * 3), Some (y + c * 5), Some (s1 + c * 2), Some (s2 + c * 1),
              Some (s3 + c * (4 - 5 * 2)))).
Proof.
  destruct (calls_out_of_order_run_on_stored_fields
              (Grp := standin.Zp) (QR := standin.RSA) (R := list Z)
              (square := standin.stub_SquareProof))
    as (Hfresh & _ & Hkept & _ & _ & Hmult & _).
  split; [| split].
  - destruct (Hfresh example.zp23 [Some 3] [Some 2] (Some 8) (Some 4) example.prover eq_refl)
      as [_ Hp]. by apply Hp.
  - eexists. 
    destruct (Hkept example.prover _ [3] [5] [] (Some 9) eq_refl eq_refl eq_refl 4)
      as (zs4 & E4 & _ & H4).
    destruct (Hkept example.prover _ [3] [5] [] (Some 9) eq_refl eq_refl eq_refl 7)
      as (zs7 & E7 & _ & H7).
    exists zs4, zs7. split; [reflexivity |].
    destruct (H4 0%nat 3 eq_refl) as (r4 & Er4 & Ez4).
    destruct (H7 0%nat 3 eq_refl) as (r7 & Er7 & Ez7).
    injection Er4 as <-. injection Er7 as <-.
    split; [exact E4 |]. split; [exact Ez4 |]. split; [exact E7 | exact Ez7].
  - apply (Hmult (df.NewMultiplicationProver (example.committer 3 2) (example.committer 5 1)
                    (example.committer 15 4) 3)
             example.multiplicationProver [11; 22; 33; 44; 1] [] (Some 23) (Some 58) (Some 15)
             3 2 5 1 4); vm_compute; reflexivity.
Defined.

(** ** The group modulo 77 keeps the group laws *)

Lemma pow30_Mul (a b : Z) :
  a ^ 30 mod 77 = 1 -> b ^ 30 mod 77 = 1 -> (a * b) ^ 30 mod 77 = 1.
Proof.
  intros Ha Hb. by rewrite Z.pow_mul_l, Z.mul_mod, Ha, Hb by lia.
Qed.

Lemma pow30_Exp (a x : Z) : 0 <= x -> a ^ 30 mod 77 = 1 -> (a ^ x) ^ 30 mod 77 = 1.
Proof.
  intros Hx Ha.
  rewrite <- Z.pow_mul_r, (Z.mul_comm x 30), Z.pow_mul_r by lia.
  rewrite <- Z.mod_pow_l, Ha, Z.pow_1_l by lia. done.
Qed.

(** The residues modulo 77 whose power 30 is 1, with the multiplication, the
    power and the inverse of the instance, keep the laws of the group. *)
#[global] Instance rsa77_QRGroupLaws : QRGroupLaws example.rsa77 example.unit77.
Proof.
  assert (forall x, 0 <= x -> (x <? 0) = false) as Hnn.
  { intros x Hx. apply Z.ltb_ge. lia. }
  split; unfold example.unit77; cbn [QR_Mul QR_Exp QR_Inv standin.RSA_QRSpecialRSA];
    unfold standin.rsa_Inv; change (standin.rsa_N example.rsa77) with 77;
    change ((standin.rsa_P example.rsa77 - 1) * (standin.rsa_Q example.rsa77 - 1) - 1) with 59.
  - done.
  - intros a b [Ha Ha'] [Hb Hb']. split; [apply Z.mod_pos_bound; lia |].
    rewrite Z.mod_pow_l. by apply pow30_Mul.
  - intros a x [Ha Ha'] Hx. rewrite Hnn by done. split; [apply Z.mod_pos_bound; lia |].
    rewrite Z.mod_pow_l. by apply pow30_Exp.
  - intros a [Ha Ha']. rewrite Z.mul_1_l. apply Z.mod_small. lia.
  - intros a b _ _. by rewrite Z.mul_comm.
  - intros a b c _ _ _. by rewrite Z.mul_mod_idemp_l, Z.mul_mod_idemp_r, Z.mul_assoc by lia.
  - intros a _. done.
  - intros a x y _ Hx Hy. rewrite !Hnn by lia.
    by rewrite Z.pow_add_r, Z.mul_mod by lia.
  - intros a x y _ Hx Hy. rewrite !Hnn by (try apply Z.mul_nonneg_nonneg; lia).
    by rewrite Z.mod_pow_l, Z.pow_mul_r by lia.
  - intros a b x _ _ Hx. rewrite !Hnn by lia.
    by rewrite Z.mod_pow_l, Z.pow_mul_l, Z.mul_mod by lia.
  - intros a [Ha Ha']. split; [apply Z.mod_pos_bound; lia |].
    rewrite Z.mod_pow_l. apply pow30_Exp; [lia | done].
  - intros a [Ha Ha']. rewrite Z.mul_mod_idemp_r by lia.
    replace (a * a ^ 59) with (a ^ 30 * a ^ 30).
    + by rewrite Z.mul_mod, Ha' by lia.
    + rewrite <- Z.pow_add_r by lia. change (30 + 30) with (Z.succ 59).
      rewrite Z.pow_succ_r by lia. done.
Qed.

(** The bases 4 and 9 are elements of the group modulo 77. *)
Lemma unit77_bases : example.unit77 4 /\ example.unit77 9.
Proof. split; (split; [lia | reflexivity]). Qed.

(** ** The further properties on concrete inputs *)

(** The verifier of [y = 2^3] accepts the response 6 to the challenge 4, and
    accepts it as well when two more elements, one of them nil, follow it. *)
Lemma schnorr_Verify_ignores_surplus_witness :
  let v := schnorr.SetChallenge
             (schnorr.SetProofRandomData (schnorr.NewVerifier example.zp23)
                (Some 9) [Some 2] (Some 8))
             (Some 4) in
  (length (schnorr.v_bases v) <= length [Some 6])%nat /\
  schnorr.Verify v ([Some 6] ++ [Some 20; None]) = schnorr.Verify v [Some 6] /\
  schnorr.Verify v [Some 6] = Ret true.
Proof.
  intros v. split; [simpl; lia |]. split; [| reflexivity].
  apply (schnorr_Verify_ignores_surplus v [Some 6] [Some 20; None]). simpl. lia.
Defined.

(** The prover of [y = 2^3] on the tape that holds 5: the masking is 5, the
    proof random data [2^5 = 9] modulo 23, and the responses to the
    challenges 4 and 7 are 6 and 4. *)
Lemma schnorr_Prover_transcript_witness :
  (length [3] = length [2] /\ 0 < Group_Q example.zp23) /\
  (exists (rs : list Z) (s' : list Z),
     let p' := {| schnorr.p_Group := example.zp23; schnorr.p_secrets := Some <$> [3];
                  schnorr.p_bases := Some <$> [2]; schnorr.p_randomVals := Some <$> rs;
                  schnorr.p_y := Some 8 |} in
     schnorr.NewProver example.zp23 (Some <$> [3]) (Some <$> [2]) (Some 8)
     = Val example.prover /\
     length rs = length [2] /\
     Forall (fun r => 0 <= r < Group_Q example.zp23) rs /\
     schnorr.GetProofRandomData example.prover [5]
     = Ret (Some (schnorr.prodExp example.zp23 [2] rs), p', s') /\
     forall c : Z,
       schnorr.GetProofData p' (Some c)
       = Ret (Some <$> zip_with (fun x r => Group_Add example.zp23
                                              (Group_Mul example.zp23 c x) r) [3] rs)) /\
  schnorr.GetProofRandomData example.prover [5]
  = Ret (Some 9, {| schnorr.p_Group := example.zp23; schnorr.p_secrets := [Some 3];
                    schnorr.p_bases := [Some 2]; schnorr.p_randomVals := [Some 5];
                    schnorr.p_y := Some 8 |}, []).
Proof.
  split; [split; reflexivity |]. split; [| reflexivity].
  destruct (schnorr_Prover_transcript (R := list Z) example.zp23 [3] [2] (Some 8) [5])
    as (_ & Hrun & _).
  exact (Hrun eq_refl eq_refl).
Defined.

(** The challenges on the tape that holds 15: 4 in the group of order 11,
    and 0 for a multiplication verifier whose challenge space size is 0. *)
Lemma GetChallenge_sets_a_draw_in_range_witness :
  let v := schnorr.NewVerifier example.zp23 in
  let mv := df.NewMultiplicationVerifier (example.receiver None) (example.receiver None)
              (example.receiver None) 0 in
  0 < Group_Q (schnorr.v_Group v) /\
  (exists c s', 0 <= c < Group_Q (schnorr.v_Group v) /\
     schnorr.GetChallenge v [15] = Ret (Some c, schnorr.SetChallenge v (Some c), s')) /\
  schnorr.GetChallenge v [15] = Ret (Some 4, schnorr.SetChallenge v (Some 4), []) /\
  df.MultiplicationVerifier_GetChallenge mv [15]
  = Ret (Some 0, df.MultiplicationVerifier_SetChallenge mv (Some 0), []).
Proof.
  intros v mv.
  destruct (GetChallenge_sets_a_draw_in_range (Grp := standin.Zp) (QR := standin.RSA)
              (R := list Z)) as [Hs Hm].
  split; [reflexivity |]. split; [apply (Hs v [15]); reflexivity |].
  split; reflexivity.
Defined.

(** The random data of the multiplication prover of [15 = 3 * 5] on the tape
    11, 22, 33, 44, 1: the bounds of the draws are [2^10 * 8] and [2^21]. *)
Lemma MultiplicationProver_GetProofRandomData_commitments_witness :
  let p := df.NewMultiplicationProver (example.committer 3 2) (example.committer 5 1)
             (example.committer 15 4) 3 in
  (df.GetDecommitMsg (example.committer 3 2) = (Some 3, Some 2) /\
   0 < df.c_T (example.committer 3 2)) /\
  (exists (y1 y s1 s2 s3 : Z) (s' : list Z),
     (0 <= y1 < 2 ^ 10 * 8 /\ 0 <= y < 2 ^ 10 * 8) /\
     (0 <= s1 < 2 ^ 21 /\ 0 <= s2 < 2 ^ 21 /\ 0 <= s3 < 2 ^ 21) /\
     df.MultiplicationProver_GetProofRandomData p [11; 22; 33; 44; 1]
     = Ret (Some (QR_Mul example.rsa77 (QR_Exp example.rsa77 4 y1) (QR_Exp example.rsa77 9 s1)),
            Some (QR_Mul example.rsa77 (QR_Exp example.rsa77 4 y) (QR_Exp example.rsa77 9 s2)),
            Some (QR_Mul example.rsa77
                    (QR_Exp example.rsa77
                       (QR_Mul example.rsa77 (QR_Exp example.rsa77 4 3)
                          (QR_Exp example.rsa77 9 2)) y)
                    (QR_Exp example.rsa77 9 s3)),
            {| df.mp_committer1 := example.committer 3 2;
               df.mp_committer2 := example.committer 5 1;
               df.mp_committer3 := example.committer 15 4;
               df.mp_challengeSpaceSize := 3;
               df.mp_y1 := Some y1; df.mp_s1 := Some s1; df.mp_y := Some y;
               df.mp_s2 := Some s2; df.mp_s3 := Some s3 |},
            s')).
Proof.
  intros p. split; [split; reflexivity |].
  destruct (MultiplicationProver_GetProofRandomData_commitments (R := list Z)
              (example.committer 3 2) (example.committer 5 1) (example.committer 15 4)
              3 3 2 [11; 22; 33; 44; 1] eq_refl) as [Hrun _].
  exact (Hrun eq_refl).
Defined.

(** Completeness on the group modulo 77, for [15 = 3 * 5] with
    [r3 - x2*r1 = 4 - 5*2 < 0] and the challenge 6. *)
Lemma Multiplication_honest_response_accepted_witness :
  (example.unit77 4 /\ example.unit77 9) /\
  let committer x r := df.mkCommitter example.rsa77 4 9 8 2 4 (Some x) (Some r) in
  let commitment x r :=
    QR_Mul example.rsa77 (QR_Exp example.rsa77 4 x) (QR_Exp example.rsa77 9 r) in
  let receiver x r := df.mkReceiver example.rsa77 4 9 2 (Some (commitment x r)) in
  let p := df.NewMultiplicationProver (committer 3 2) (committer 5 1)
             (committer (3 * 5) 4) 3 in
  let v := df.NewMultiplicationVerifier (receiver 3 2) (receiver 5 1)
             (receiver (3 * 5) 4) 3 in
  exists d1 d2 d3 p' s' u1 u v1 v2 v3,
    df.MultiplicationProver_GetProofRandomData p [11; 22; 33; 44; 1]
    = Ret (d1, d2, d3, p', s') /\
    df.MultiplicationProver_GetProofData p' (Some 6) = Ret (u1, u, v1, v2, v3) /\
    df.MultiplicationVerifier_Verify
      (df.MultiplicationVerifier_SetChallenge
         (df.MultiplicationVerifier_SetProofRandomData v d1 d2 d3) (Some 6))
      u1 u v1 v2 v3
    = Ret true.
Proof.
  split; [exact unit77_bases |].
  destruct unit77_bases as [H4 H9].
  apply (Multiplication_honest_response_accepted (R := list Z) example.rsa77 example.unit77
           4 9 8 2 4 3 2 5 1 4 3 6 [11; 22; 33; 44; 1] H4 H9); lia.
Defined.

(** Five stub sub-verifiers: the random data of four sub-proofs and the
    response that the first four accept both end in a panic. *)
Lemma PositiveVerifier_more_than_four_subverifiers_witness :
  (4 < length (df.pv_squareVerifiers example.fiveVerifiers))%nat /\
  df.PositiveVerifier_SetProofRandomData (square := standin.stub_SquareProof)
    example.fiveVerifiers (replicate 8 (Some 1)) = Panic IndexOutOfRange /\
  df.PositiveVerifier_Verify (square := standin.stub_SquareProof)
    example.fiveVerifiers (replicate 12 (Some 1)) = Panic IndexOutOfRange /\
  df.PositiveVerifier_Verify (square := standin.stub_SquareProof)
    example.fiveVerifiers (replicate 12 (Some 0)) = Ret false.
Proof.
  assert (4 < length (df.pv_squareVerifiers example.fiveVerifiers))%nat as Hn
    by (simpl; lia).
  destruct (PositiveVerifier_more_than_four_subverifiers (square := standin.stub_SquareProof)
              example.fiveVerifiers Hn) as [Hset Hver].
  split; [exact Hn |]. split; [| split].
  - apply Hset; [reflexivity |].
    intros [| [| [| [| i]]]] Hi; try lia; eexists; reflexivity.
  - destruct (Hver (replicate 12 (Some 1)) eq_refl) as (Hpanic & _ & _).
    apply Hpanic.
    intros [| [| [| [| i]]]] Hi; try lia;
      (eexists _, _, _, _; repeat split; reflexivity).
  - destruct (Hver (replicate 12 (Some 0)) eq_refl) as (_ & Hfalse & _).
    apply (Hfalse 0%nat); [lia | intros j Hj; lia |].
    eexists _, _, _, _. repeat split; reflexivity.
Defined.

(** With the stub sub-proof: two small and one big sub-commitment, and one
    small and two big ones whose first is the outer commitment 4. *)
Lemma NewPositiveVerifier_length_mismatch_witness :
  df.NewPositiveVerifier (square := standin.stub_SquareProof)
    (example.receiver None) (Some 4) [Some 1; Some 2] (Some <$> [4]) 3
  = Panic IndexOutOfRange /\
  df.NewPositiveVerifier (square := standin.stub_SquareProof)
    (example.receiver None) (Some (df.product example.rsa77 (take 1 [4; 9])))
    [Some 1] (Some <$> [4; 9]) 3
  = Panic IndexOutOfRange.
Proof.
  split.
  - apply (NewPositiveVerifier_length_mismatch (square := standin.stub_SquareProof)
             (example.receiver None) (Some 4) [Some 1; Some 2] [4] 3). simpl. lia.
  - apply (NewPositiveVerifier_length_mismatch (square := standin.stub_SquareProof)
             (example.receiver None) _ [Some 1] [4; 9] 3)
      with (rc0 := df.mkReceiver example.rsa77 4 9 2 None);
      [simpl; lia | reflexivity | reflexivity].
Defined.

(** The four stub sub-provers with two challenges, and with six. *)
Lemma PositiveProver_GetProofData_challenge_count_witness :
  df.pp_squareProvers example.positiveProver = Some <$> [10; 20; 30; 40] /\
  df.PositiveProver_GetProofData (square := standin.stub_SquareProof)
    example.positiveProver [Some 1; Some 2] = Panic IndexOutOfRange /\
  df.PositiveProver_GetProofData (square := standin.stub_SquareProof)
    example.positiveProver ([Some 1; Some 2; Some 3; Some 4] ++ [Some 5; None])
  = df.PositiveProver_GetProofData (square := standin.stub_SquareProof)
      example.positiveProver [Some 1; Some 2; Some 3; Some 4].
Proof.
  split; [reflexivity |]. split.
  - destruct (PositiveProver_GetProofData_challenge_count (square := standin.stub_SquareProof)
                example.positiveProver [10; 20; 30; 40] [Some 1; Some 2] eq_refl)
      as [Hshort _].
    destruct Hshort as [_ Hidx]; [simpl; lia |]. apply Hidx.
    intros [| [| i]] sp c Hsp Hc; try done; injection Hc as <-; eexists; reflexivity.
  - destruct (PositiveProver_GetProofData_challenge_count (square := standin.stub_SquareProof)
                example.positiveProver [10; 20; 30; 40] [Some 1; Some 2; Some 3; Some 4]
                eq_refl) as [_ Hsurplus].
    apply Hsurplus. simpl. lia.
Defined.

(** The four stub sub-verifiers on the tape 5, 6, 7, 8: the challenges are
    the draws reduced below 4; one challenge is too few to set. *)
Lemma Positive_challenges_layout_witness :
  df.pv_squareVerifiers example.positiveVerifier
  = Some <$> replicate 4 (standin.mkStubVerifier (Some 1) None (None, None)) /\
  (exists v',
     df.GetChallenges (square := standin.stub_SquareProof)
       example.positiveVerifier [5; 6; 7; 8]
     = Ret ([Some 1; Some 2; Some 3; Some 0], v', [])) /\
  df.SetChallenges (square := standin.stub_SquareProof)
    example.positiveVerifier [Some 1] = Panic IndexOutOfRange.
Proof.
  destruct (Positive_challenges_layout (square := standin.stub_SquareProof)
              example.positiveVerifier
              (replicate 4 (standin.mkStubVerifier (Some 1) None (None, None))) eq_refl)
    as (Hget & _ & Hshort).
  split; [reflexivity |]. split.
  - eexists. apply (Hget [5; 6; 7; 8]). reflexivity.
  - apply Hshort. simpl. lia.
Defined.

(** [NewPositiveProver] with the stub set-up: a negative [x] has no
    decomposition, and [r = 0] for [x = 30] ends in the panic of the
    sampler. *)
Lemma NewPositiveProver_errors_and_edges_witness :
  df.NewPositiveProver (setup := standin.stub_PositiveSetup)
    (example.committer 30 7) (Some (-1)) (Some 7) 3 [3; 4; 5; 6]
  = Ret (Err "error when doing Lipmaa decomposition", [3; 4; 5; 6]) /\
  (exists e, df.NewPositiveProver (setup := standin.stub_PositiveSetup)
               (example.committer 30 0) (Some 30) (Some 0) 3 [3; 4; 5; 6] = Panic e).
Proof.
  split.
  - destruct (NewPositiveProver_errors_and_edges (R := list Z)
                (setup := standin.stub_PositiveSetup)
                (example.committer 30 7) (Some (-1)) 3 [3; 4; 5; 6]) as (Herr & _ & _).
    apply (Herr "no decomposition"%string). reflexivity.
  - destruct (NewPositiveProver_errors_and_edges (R := list Z)
                (setup := standin.stub_PositiveSetup)
                (example.committer 30 0) (Some 30) 3 [3; 4; 5; 6]) as (_ & Hzero & _).
    apply (Hzero (Some <$> [0; 1; 2; 5])); [reflexivity | done].
Defined.

(** Product-commitment consistency on the group modulo 77 with the stub
    set-up: [x = 30 = 0 + 1 + 4 + 25] and [r = 7]. *)
Lemma NewPositiveProver_commitments_multiply_to_commitment_witness :
  (example.unit77 4 /\ example.unit77 9 /\ 0 < 7 /\ [0; 1; 2; 5] <> @nil Z) /\
  df.lipmaaDecomposition (PositiveSetup := standin.stub_PositiveSetup) (Some 30)
  = Ret (Val (Some <$> [0; 1; 2; 5])) /\
  df.sumZ ((fun q => q * q) <$> [0; 1; 2; 5]) = 30 /\
  exists p s' bs,
    df.NewPositiveProver (setup := standin.stub_PositiveSetup)
      (df.mkCommitter example.rsa77 4 9 8 2 4 (Some 30) (Some 7)) (Some 30) (Some 7)
      3 [3; 4; 5; 6] = Ret (Val p, s') /\
    df.pp_bigCommitments p = Some <$> bs /\
    length bs = length [0; 1; 2; 5] /\
    length (df.pp_smallCommitments p) = length [0; 1; 2; 5] /\
    length (df.pp_squareProvers p) = length [0; 1; 2; 5] /\
    df.product example.rsa77 bs
    = QR_Mul example.rsa77 (QR_Exp example.rsa77 4 30) (QR_Exp example.rsa77 9 7) /\
    forall (K' : Z) (c0 : bigInt),
      df.NewPositiveVerifier (square := standin.stub_SquareProof)
        (df.mkReceiver example.rsa77 4 9 K' c0)
        (Some (QR_Mul example.rsa77 (QR_Exp example.rsa77 4 30) (QR_Exp example.rsa77 9 7)))
        (df.GetVerifierInitializationData p).1 (df.GetVerifierInitializationData p).2 3
      <> Ret (Err "squareProvers are not properly instantiated").
Proof.
  destruct unit77_bases as [H4 H9].
  split; [repeat split; done || lia |]. split; [reflexivity |]. split; [reflexivity |].
  apply (NewPositiveProver_commitments_multiply_to_commitment
           (R := list Z) (square := standin.stub_SquareProof)
           (setup := standin.stub_PositiveSetup) example.rsa77 example.unit77
           4 9 8 2 4 30 7 3 (Some 30) (Some 7) [0; 1; 2; 5] [3; 4; 5; 6] H4 H9);
    [lia | done | reflexivity | reflexivity
     | intros a z; eexists; reflexivity | intros cm q; eexists; reflexivity].
Defined.
